(** * Sales dashboard: the data pipeline of [AzharSaeeddata.py]

    The script decodes the sheet [DATA_BK] of an uploaded workbook, cleans
    the table, derives [Date], [Year] and [Month], applies the sidebar
    filters and renders KPIs.  This development embeds the script as it is
    written: a Python layer (values, exceptions, [sorted]), a small pandas
    layer (frames, series, masks), the calendar behind [pd.to_datetime], a
    Streamlit layer (page elements, [st.stop]) and then the script itself,
    statement by statement, with the names of the source.

    Conventions.  float64 and int values are exact rationals ([Q]); the
    missing values [None], [NaN] and [NaT] are the single cell [NA] (they
    are what [isna] accepts); text is a string of UTF-8 bytes, so that the
    byte order of [String.ltb] is Python's code point order. *)

From Stdlib Require Import ZArith QArith List String Ascii Bool Lia Permutation
  Sorted.
Import ListNotations.
Local Open Scope string_scope.
Local Open Scope list_scope.
Local Open Scope Z_scope.

(* ===================================================================== *)
(** * Python: exceptions, values, comparison, [sorted] *)
(* ===================================================================== *)

Module Py.

(** Subclasses of [Exception] that the script and its libraries raise.
    [NotASeries] stands for the error of a Series-only operation applied
    to the two-dimensional selection that a duplicated column label gives;
    [DecodeError] for whatever [pyxlsb] raises on a file it cannot read. *)
Inductive exn : Type :=
| KeyError (key : string)
| TypeError (msg : string)
| ValueError (msg : string)
| IndexError (msg : string)
| ZeroDivisionError
| OverflowError (msg : string)
| NotASeries (label : string)
| DecodeError (msg : string).

(** [str(e)], as interpolated by the f-string of [load_xlsb]. *)
Definition exn_str (e : exn) : string :=
  match e with
  | KeyError k => ("'" ++ k ++ "'")%string
  | TypeError m | ValueError m | IndexError m | OverflowError m
  | DecodeError m => m
  | ZeroDivisionError => "division by zero"
  | NotASeries l => l
  end.

Inductive result (A : Type) : Type :=
| Ok (a : A)
| Raise (e : exn).
Arguments Ok {A} a.
Arguments Raise {A} e.

Definition bind {A B : Type} (r : result A) (k : A -> result B) : result B :=
  match r with
  | Ok a => k a
  | Raise e => Raise e
  end.

Declare Scope py_scope.
Delimit Scope py_scope with py.
Notation "x <- r ;; k" := (bind r (fun x => k))
  (at level 61, r at next level, right associativity) : py_scope.

(** A cell of the sheet ([item.v]) or of a derived column. *)
Inductive cell : Type :=
| NA
| Num (q : Q)
| Str (s : string)
| Bool (b : bool)
| Timestamp (ns : Z).

Definition Q_of_bool (b : bool) : Q := if b then 1%Q else 0%Q.

(** Python [==] as the hash tables of [unique] and [isin] use it: numbers
    by value ([True == 1.0]), strings by content, a missing value matches
    a missing value. *)
Definition cell_eqb (a b : cell) : bool :=
  match a, b with
  | NA, NA => true
  | Num p, Num q => Qeq_bool p q
  | Num p, Bool c => Qeq_bool p (Q_of_bool c)
  | Bool c, Num q => Qeq_bool (Q_of_bool c) q
  | Bool c, Bool d => Bool.eqb c d
  | Str s, Str t => String.eqb s t
  | Timestamp m, Timestamp n => Z.eqb m n
  | _, _ => false
  end.

Definition Qlt_bool (p q : Q) : bool := negb (Qle_bool q p).

(** Python [<].  Numbers and booleans compare by value, strings by code
    point; any other pair is a [TypeError]. *)
Definition py_lt (a b : cell) : result bool :=
  match a, b with
  | Num p, Num q => Ok (Qlt_bool p q)
  | Num p, Bool c => Ok (Qlt_bool p (Q_of_bool c))
  | Bool c, Num q => Ok (Qlt_bool (Q_of_bool c) q)
  | Bool c, Bool d => Ok (Qlt_bool (Q_of_bool c) (Q_of_bool d))
  | Str s, Str t => Ok (String.ltb s t)
  | Timestamp m, Timestamp n => Ok (Z.ltb m n)
  | _, _ => Raise (TypeError "'<' not supported between instances")
  end.

Local Open Scope py_scope.

(** [sorted]: a stable sort that only asks [<] and lets its [TypeError]
    through. *)
Fixpoint insert (x : cell) (l : list cell) : result (list cell) :=
  match l with
  | [] => Ok [x]
  | y :: l' =>
      b <- py_lt y x ;;
      if b then (r <- insert x l' ;; Ok (y :: r)) else Ok (x :: y :: l')
  end.

Fixpoint sorted (l : list cell) : result (list cell) :=
  match l with
  | [] => Ok []
  | x :: l' => s <- sorted l' ;; insert x s
  end.

(** [a / b] with a Python number on the left: division by zero raises. *)
Definition truediv (a : Q) (b : Z) : result Q :=
  if b =? 0 then Raise ZeroDivisionError else Ok (a / inject_Z b)%Q.

End Py.

Import Py.
Local Open Scope py_scope.

(* ===================================================================== *)
(** * pandas: frames, series, masks *)
(* ===================================================================== *)

Module Pandas.

Definition Series : Type := list cell.

(** A frame as [pd.DataFrame(rows)] builds it: the column labels and the
    rows, each row as wide as the labels. *)
Record DataFrame : Type := mkDataFrame {
  columns : list cell;
  rows : list (list cell)
}.

(** [pd.DataFrame()] *)
Definition empty_frame : DataFrame := mkDataFrame [] [].

(** [df.empty]: no rows or no columns. *)
Definition empty (df : DataFrame) : bool :=
  match columns df, rows df with
  | [], _ => true
  | _, [] => true
  | _, _ => false
  end.

Definition label_eqb (name : string) (c : cell) : bool := cell_eqb (Str name) c.

(** [name in df.columns] *)
Definition has_column (df : DataFrame) (name : string) : bool :=
  existsb (label_eqb name) (columns df).

(** How many columns carry a label. *)
Fixpoint count (name : string) (cols : list cell) : nat :=
  match cols with
  | [] => 0%nat
  | c :: cols' =>
      if label_eqb name c then S (count name cols') else count name cols'
  end.

(** The cell of a row under the first column of a label. *)
Fixpoint at_label (name : string) (cols row : list cell) : cell :=
  match cols, row with
  | c :: cols', x :: row' =>
      if label_eqb name c then x else at_label name cols' row'
  | _, _ => NA
  end.

(** [df[name]] used as a Series: [KeyError] when the label is absent. *)
Definition getitem (df : DataFrame) (name : string) : result Series :=
  match count name (columns df) with
  | 0%nat => Raise (KeyError name)
  | 1%nat => Ok (map (at_label name (columns df)) (rows df))
  | _ => Raise (NotASeries name)
  end.

(** The column is there, once: [df[name]] is a Series. *)
Definition usable (df : DataFrame) (name : string) : Prop :=
  count name (columns df) = 1%nat.

(** Every row is as wide as the labels. *)
Definition rectangular (df : DataFrame) : Prop :=
  Forall (fun r => List.length r = List.length (columns df)) (rows df).

(** [df.get(name, pd.Series())]: the default when the label is absent. *)
Definition get (df : DataFrame) (name : string) (default : Series) : result Series :=
  if has_column df name then getitem df name else Ok default.

Fixpoint set_in_row (name : string) (cols row : list cell) (v : cell) : list cell :=
  match cols, row with
  | c :: cols', x :: row' =>
      (if label_eqb name c then v else x) :: set_in_row name cols' row' v
  | _, _ => row
  end.

(** [df[name] = values]: overwrites the column(s) of that label, or
    appends a new last column. *)
Definition setitem (df : DataFrame) (name : string) (values : Series) : DataFrame :=
  if has_column df name then
    mkDataFrame (columns df)
      (map (fun rv => set_in_row name (columns df) (fst rv) (snd rv))
           (combine (rows df) values))
  else
    mkDataFrame (columns df ++ [Str name])
      (map (fun rv => fst rv ++ [snd rv]) (combine (rows df) values)).

Definition isna (c : cell) : bool :=
  match c with
  | NA => true
  | _ => false
  end.

Definition notna (c : cell) : bool := negb (isna c).

(** [s.dropna()] *)
Definition dropna (s : Series) : Series := filter notna s.

(** [s.isin(values)], one boolean per row. *)
Definition isin (s : Series) (values : list cell) : list bool :=
  map (fun c => existsb (cell_eqb c) values) s.

(** [s == value], elementwise: a missing value equals nothing. *)
Definition eq_scalar (s : Series) (value : cell) : list bool :=
  map (fun c => notna c && cell_eqb c value) s.

(** [s.unique()]: first occurrences, in order of appearance. *)
Fixpoint unique_acc (seen : list cell) (s : Series) : list cell :=
  match s with
  | [] => []
  | c :: s' =>
      if existsb (cell_eqb c) seen then unique_acc seen s'
      else c :: unique_acc (c :: seen) s'
  end.

Definition unique (s : Series) : list cell := unique_acc [] s.

(** [m1 & m2] on boolean series of one frame. *)
Fixpoint mask_and (m1 m2 : list bool) : list bool :=
  match m1, m2 with
  | a :: m1', b :: m2' => (a && b) :: mask_and m1' m2'
  | _, _ => []
  end.

(** [df[mask]]: the rows whose mask entry is [True]; columns unchanged. *)
Fixpoint select {A : Type} (rs : list A) (mask : list bool) : list A :=
  match rs, mask with
  | r :: rs', b :: mask' => if b then r :: select rs' mask' else select rs' mask'
  | _, _ => []
  end.

Definition loc (df : DataFrame) (mask : list bool) : DataFrame :=
  mkDataFrame (columns df) (select (rows df) mask).

(** [pd.DataFrame(rows)] on a list of rows: integer column labels, short
    rows filled with missing values. *)
Definition width (rs : list (list cell)) : nat :=
  fold_right (fun r w => Nat.max (List.length r) w) 0%nat rs.

Definition pad (w : nat) (r : list cell) : list cell :=
  r ++ repeat NA (w - List.length r).

Definition DataFrame_of_rows (rs : list (list cell)) : DataFrame :=
  mkDataFrame (map (fun i => Num (inject_Z (Z.of_nat i))) (seq 0 (width rs)))
              (map (pad (width rs)) rs).

(** [df.iloc[0]]: the first row, [IndexError] when there is none. *)
Definition iloc0 (df : DataFrame) : result (list cell) :=
  match rows df with
  | r :: _ => Ok r
  | [] => Raise (IndexError "single positional indexer is out-of-bounds")
  end.

(** [df.columns = labels] *)
Definition set_columns (df : DataFrame) (labels : list cell) : DataFrame :=
  mkDataFrame labels (rows df).

(** [df[1:]] *)
Definition from_1 (df : DataFrame) : DataFrame :=
  mkDataFrame (columns df) (tl (rows df)).

(** [len(df)] *)
Definition len (df : DataFrame) : Z := Z.of_nat (List.length (rows df)).

(** [s.sum()]: missing values are skipped. *)
Fixpoint sum (s : Series) : Q :=
  match s with
  | [] => 0%Q
  | Num q :: s' => (q + sum s')%Q
  | Bool b :: s' => (Q_of_bool b + sum s')%Q
  | _ :: s' => sum s'
  end.

End Pandas.

(* ===================================================================== *)
(** * The calendar behind [pd.to_datetime], [dt.year] and [dt.month_name] *)
(* ===================================================================== *)

Module Calendar.

Record date : Type := mkDate {
  year : Z;
  month : Z;
  day : Z
}.

(** Day number of a proleptic Gregorian date, counted from 1970-01-01. *)
Definition days_from_civil (y m d : Z) : Z :=
  let y' := if m <=? 2 then y - 1 else y in
  let era := y' / 400 in
  let yoe := y' - era * 400 in
  let mp := if 2 <? m then m - 3 else m + 9 in
  let doy := (153 * mp + 2) / 5 + d - 1 in
  let doe := yoe * 365 + yoe / 4 - yoe / 100 + doy in
  era * 146097 + doe - 719468.

(** The date of a day number. *)
Definition civil_from_days (z : Z) : date :=
  let z' := z + 719468 in
  let era := z' / 146097 in
  let doe := z' - era * 146097 in
  let yoe := (doe - doe / 1460 + doe / 36524 - doe / 146096) / 365 in
  let doy := doe - (365 * yoe + yoe / 4 - yoe / 100) in
  let mp := (5 * doy + 2) / 153 in
  let d := doy - (153 * mp + 2) / 5 + 1 in
  let m := if mp <? 10 then mp + 3 else mp - 9 in
  mkDate (if m <=? 2 then yoe + era * 400 + 1 else yoe + era * 400) m d.

Definition is_leap (y : Z) : bool :=
  ((y mod 4 =? 0) && negb (y mod 100 =? 0)) || (y mod 400 =? 0).

Definition days_in_month (y m : Z) : Z :=
  if m =? 2 then (if is_leap y then 29 else 28)
  else if (m =? 4) || (m =? 6) || (m =? 9) || (m =? 11) then 30
  else 31.

(** The day after a date, by the rules of the calendar. *)
Definition next_day (t : date) : date :=
  if day t <? days_in_month (year t) (month t) then
    mkDate (year t) (month t) (day t + 1)
  else if month t <? 12 then mkDate (year t) (month t + 1) 1
  else mkDate (year t + 1) 1 1.

(** A date of the calendar: a month of the year and a day of that month. *)
Definition valid (t : date) : Prop :=
  1 <= month t <= 12 /\ 1 <= day t <= days_in_month (year t) (month t).

Definition ns_per_day : Z := 86400000000000.

(** [pd.Timestamp.min.value] and [pd.Timestamp.max.value], in nanoseconds
    since 1970-01-01.  The [int64] below [Timestamp_min] is [NaT]. *)
Definition Timestamp_min : Z := - (2 ^ 63 - 1).
Definition Timestamp_max : Z := 2 ^ 63 - 1.
Definition iNaT : Z := - 2 ^ 63.

(** The calendar date of a timestamp. *)
Definition date_of_ns (ns : Z) : date := civil_from_days (ns / ns_per_day).

End Calendar.

Module PandasTime.
Import Pandas Calendar.

(** The [errors=] argument of [to_numeric] and [to_datetime]. *)
Inductive errors_mode : Type :=
| errors_raise
| errors_coerce.

(** [pd.to_numeric] on one value; [parse] reads a numeric string.  The
    strings that pandas reads as an infinite float have no value in [Q]
    and are outside the model. *)
Definition to_numeric_value (parse : string -> option Q) (errors : errors_mode)
    (c : cell) : result cell :=
  match c with
  | NA => Ok NA
  | Num q => Ok (Num q)
  | Bool b => Ok (Num (Q_of_bool b))
  | Str s =>
      match parse s, errors with
      | Some q, _ => Ok (Num q)
      | None, errors_coerce => Ok NA
      | None, errors_raise => Raise (ValueError "Unable to parse string")
      end
  | Timestamp ns => Ok (Num (inject_Z ns))
  end.

Fixpoint mapM {A B : Type} (f : A -> result B) (l : list A) : result (list B) :=
  match l with
  | [] => Ok []
  | a :: l' => b <- f a ;; bs <- mapM f l' ;; Ok (b :: bs)
  end.

Definition to_numeric (parse : string -> option Q) (errors : errors_mode)
    (s : Series) : result Series :=
  mapM (to_numeric_value parse errors) s.

(** The origin as a day number: [Timestamp(origin) - Timestamp(0)] in
    units of one day. *)
Definition origin_offset (origin : date) : Z :=
  days_from_civil (year origin) (month origin) (day origin).

(** A float read as an [int64]: the fraction is cut off, toward zero. *)
Definition trunc (q : Q) : Z := Z.quot (Qnum q) (Zpos (Qden q)).

Definition fits_int64 (z : Z) : bool := (iNaT <=? z) && (z <=? Timestamp_max).

(** [int64] addition, which wraps around. *)
Definition wrap_int64 (z : Z) : Z := (z - iNaT) mod 2 ^ 64 + iNaT.

(** [pd.to_datetime(value, origin=origin, unit="D", errors=errors)] on one
    numeric value, as pandas 2 computes it for nanosecond timestamps.  The
    offset is added to the origin's day number and the sum read as days
    since 1970-01-01, in three steps:
    - the whole days [base] are the sum cut to an [int64]; a sum that no
      [int64] holds raises [OverflowError], which [errors] does not cover;
    - [base] days are turned into nanoseconds with a checked product: when
      it overflows the value is out of bounds, that is [NaT] under [coerce]
      and an error under [raise];
    - the nanoseconds of the fraction of a day are added with [int64]
      addition, which is not checked: just past [Timestamp_max] the sum
      wraps around to the other end of the range.
    The fraction is exact here; its float64 rounding is not modelled. *)
Definition to_datetime_value (origin : date) (errors : errors_mode)
    (c : cell) : result cell :=
  match c with
  | NA => Ok NA
  | Num q =>
      let days := (q + inject_Z (origin_offset origin))%Q in
      let base := trunc days in
      if fits_int64 base then
        if fits_int64 (base * ns_per_day) then
          let frac := (days - inject_Z base)%Q in
          let ns := wrap_int64 (base * ns_per_day
                                + trunc (frac * inject_Z ns_per_day)) in
          if ns =? iNaT then Ok NA else Ok (Timestamp ns)
        else
          match errors with
          | errors_coerce => Ok NA
          | errors_raise => Raise (ValueError "Out of bounds nanosecond timestamp")
          end
      else Raise (OverflowError "Python int too large to convert to C long")
  | _ => Raise (ValueError "not compatible with origin; it must be numeric")
  end.

Definition to_datetime (origin : date) (errors : errors_mode) (s : Series)
    : result Series :=
  mapM (to_datetime_value origin errors) s.

(** [s.dt.year] *)
Definition dt_year (s : Series) : Series :=
  map (fun c =>
         match c with
         | Timestamp ns => Num (inject_Z (year (date_of_ns ns)))
         | _ => NA
         end) s.

Definition month_names : list string :=
  ["January"; "February"; "March"; "April"; "May"; "June";
   "July"; "August"; "September"; "October"; "November"; "December"].

(** [s.dt.month_name()] *)
Definition dt_month_name (s : Series) : Series :=
  map (fun c =>
         match c with
         | Timestamp ns =>
             match nth_error month_names (Z.to_nat (month (date_of_ns ns) - 1)) with
             | Some n => Str n
             | None => NA
             end
         | _ => NA
         end) s.

(** [pd.Categorical(values, categories=categories, ordered=True)]: a value
    outside the categories becomes missing. *)
Definition Categorical (values : Series) (categories : list cell) : Series :=
  map (fun c => if existsb (cell_eqb c) categories then c else NA) values.

(** A row has a missing value in one of the columns named by [subset]. *)
Fixpoint row_isna (subset : list string) (cols row : list cell) : bool :=
  match cols, row with
  | c :: cols', v :: row' =>
      (existsb (fun n => label_eqb n c) subset && isna v)
      || row_isna subset cols' row'
  | _, _ => false
  end.

(** [df.dropna(subset=subset)] *)
Definition dropna_subset (df : DataFrame) (subset : list string) : result DataFrame :=
  match filter (fun n => negb (has_column df n)) subset with
  | [] =>
      Ok (mkDataFrame (columns df)
            (filter (fun r => negb (row_isna subset (columns df) r)) (rows df)))
  | n :: _ => Raise (KeyError n)
  end.

(** [s.max()]: missing values are skipped; [NA] for an empty series. *)
Fixpoint max (s : Series) : cell :=
  match s with
  | [] => NA
  | Num q :: s' =>
      match max s' with
      | Num p => if Qle_bool q p then Num p else Num q
      | _ => Num q
      end
  | _ :: s' => max s'
  end.

(** [int(x)] on a float: [ValueError] on NaN. *)
Definition int (c : cell) : result Z :=
  match c with
  | Num q => Ok (Z.quot (Qnum q) (Zpos (Qden q)))
  | Bool b => Ok (if b then 1 else 0)
  | NA => Raise (ValueError "cannot convert float NaN to integer")
  | _ => Raise (TypeError "int() argument must be a string or a real number")
  end.

End PandasTime.

(* ===================================================================== *)
(** * pyxlsb: the uploaded file as the decoder's calls see it *)
(* ===================================================================== *)

Module Pyxlsb.

(** [open_workbook(file)] raises; or the workbook opens and
    [wb.get_sheet('DATA_BK')] raises; or the sheet opens and
    [sheet.rows()] yields [cells] and then, if [failure] is an exception,
    raises it. *)
Inductive upload : Type :=
| Unreadable (e : exn)
| SheetMissing (e : exn)
| Sheet (cells : list (list cell)) (failure : option exn).

(** The three calls of the [with] blocks of [load_xlsb], in order. *)
Definition read_rows (file : upload) : result (list (list cell)) :=
  match file with
  | Unreadable e => Raise e
  | SheetMissing e => Raise e
  | Sheet cells None => Ok cells
  | Sheet cells (Some e) => Raise e
  end.

End Pyxlsb.

(* ===================================================================== *)
(** * Streamlit: page elements, widgets, [st.stop] *)
(* ===================================================================== *)

Module Streamlit.
Import Pandas.

Inductive metric_value : Type :=
| Currency (amount : Q)
| Count (n : Z).

(** What a run puts on the page, in order.  Charts and tables are kept by
    the frame they are drawn from and the column they group by. *)
Inductive element : Type :=
| SidebarHeader (text : string)
| FileUploader (label : string)
| Checkbox (label : string)
| Multiselect (label : string) (options default : list cell)
| Selectbox (label : string) (options : list cell)
| Warning (text : string)
| Error (text : string)
| Title (text : string)
| Subheader (text : string)
| Metric (label : string) (value : metric_value)
| Divider
| LineChart (by_column : string) (data : DataFrame)
| BarChart (by_column : string) (data : DataFrame)
| Success (by_column : string) (data : DataFrame)
| Table (by_column : string) (data : DataFrame)
| Dataframe (sort_by : string) (data : DataFrame).


(** How a statement ends: the script goes on, [st.stop()] ended the run,
    or an exception left the script. *)
Inductive flow (A : Type) : Type :=
| Next (a : A)
| Stopped
| Uncaught (e : exn).
Arguments Next {A} a.
Arguments Stopped {A}.
Arguments Uncaught {A} e.

(** A piece of script: the elements it put on the page and how it ended. *)
Definition st (A : Type) : Type := (list element * flow A)%type.

Definition ret {A : Type} (a : A) : st A := ([], Next a).

Definition then_ {A B : Type} (c : st A) (k : A -> st B) : st B :=
  match c with
  | (out, Next a) => let (out', f) := k a in (out ++ out', f)
  | (out, Stopped) => (out, Stopped)
  | (out, Uncaught e) => (out, Uncaught e)
  end.

Definition show (e : element) : st unit := ([e], Next tt).

(** [st.stop()] *)
Definition stop {A : Type} : st A := ([], Stopped).

(** A Python expression evaluated at the top level of the script. *)
Definition eval {A : Type} (r : result A) : st A :=
  match r with
  | Ok a => ([], Next a)
  | Raise e => ([], Uncaught e)
  end.

(** The piece of script ends in an uncaught exception. *)
Definition fails {A : Type} (c : st A) : Prop :=
  exists out e, c = (out, Uncaught e).

Definition page {A : Type} (c : st A) : list element := fst c.
Definition ending {A : Type} (c : st A) : flow A := snd c.

(** [st.multiselect]: the user's picks are positions in [options]; an
    untouched widget returns its default ([default=None] is the empty
    list). *)
Definition multiselect (label : string) (options : list cell)
    (default : list cell) (picks : option (list nat)) : st (list cell) :=
  then_ (show (Multiselect label options default)) (fun _ =>
  ret match picks with
      | None => default
      | Some ps => flat_map (fun i => match nth_error options i with
                                      | Some c => [c]
                                      | None => []
                                      end) ps
      end).

(** [st.selectbox]: the first option unless the user picked another. *)
Definition selectbox (label : string) (first : cell) (others : list cell)
    (pick : option nat) : st cell :=
  then_ (show (Selectbox label (first :: others))) (fun _ =>
  ret match pick with
      | None => first
      | Some i => nth i (first :: others) first
      end).

Definition checkbox (label : string) (state : bool) : st bool :=
  then_ (show (Checkbox label)) (fun _ => ret state).

End Streamlit.

Declare Scope st_scope.
Delimit Scope st_scope with st.
Notation "x <- c ;; k" := (Streamlit.then_ c (fun x => k))
  (at level 61, c at next level, right associativity) : st_scope.
Notation "c ;; k" := (Streamlit.then_ c (fun _ => k))
  (at level 61, right associativity) : st_scope.

(* ===================================================================== *)
(** * The script *)
(* ===================================================================== *)

Module AzharSaeeddata.
Import Pandas PandasTime Calendar Pyxlsb Streamlit.

(** ** XLSB loader (lines 13-27) *)

Definition load_xlsb (file : upload) : st DataFrame :=
  let try : result DataFrame :=
    rows <- read_rows file ;;
    let df := DataFrame_of_rows rows in
    header <- iloc0 df ;;
    let df := set_columns df header in
    Ok (from_1 df) in
  match try with
  | Ok df => ret df
  | Raise e =>
      (show (Error ("Error loading XLSB file: " ++ exn_str e)%string) ;;
       ret empty_frame)%st
  end.

(** ** The state of the sidebar widgets in one run *)

Record widgets : Type := mkWidgets {
  xlsb_file : option upload;
  all_branches_selected : bool;
  branch_picks : option (list nat);
  all_months_selected : bool;
  month_picks : option (list nat);
  all_clients_selected : bool;
  client_picks : option (list nat);
  all_tbms_selected : bool;
  tbm_picks : option (list nat);
  quick_client_pick : option nat;
  quick_tbm_pick : option nat
}.

Definition month_order : list cell :=
  [Str "January"; Str "February"; Str "March"; Str "April"; Str "May";
   Str "June"; Str "July"; Str "August"; Str "September"; Str "October";
   Str "November"; Str "December"].

(** The origin of line 56, ["1899-12-30"]. *)
Definition origin : date := mkDate 1899 12 30.

(** ** Filters (lines 81-163), one definition per variable of the script *)

(** [sorted(df[column].dropna().unique())] *)
Definition options_of (df : DataFrame) (column : string) : result (list cell) :=
  s <- getitem df column ;; sorted (unique (dropna s)).

Definition branch_options (df : DataFrame) : result (list cell) :=
  options_of df "BranchName".

Definition df_branch_filtered (df : DataFrame) (selected_branch : list cell)
    : result DataFrame :=
  s <- getitem df "BranchName" ;; Ok (loc df (isin s selected_branch)).

Definition client_options (df_branch_filtered : DataFrame) : result (list cell) :=
  options_of df_branch_filtered "CustomerName".

Definition tbm_options (df : DataFrame) : result (list cell) :=
  options_of df "TBM".

(** Line 117, the selection when the table has no [TBM] column. *)
Definition selected_tbm_fallback (df : DataFrame) : result (list cell) :=
  s <- get df "TBM" [] ;; Ok (unique s).

Definition filtered_df_dashboard (df_branch_filtered : DataFrame)
    (selected_client selected_month selected_tbm : list cell) : result DataFrame :=
  c <- getitem df_branch_filtered "CustomerName" ;;
  m <- getitem df_branch_filtered "Month" ;;
  t <- getitem df_branch_filtered "TBM" ;;
  Ok (loc df_branch_filtered
        (mask_and (mask_and (isin c selected_client) (isin m selected_month))
                  (isin t selected_tbm))).

Definition all_clients_full (df : DataFrame) : result (list cell) :=
  options_of df "CustomerName".

Definition all_tbms_full (df : DataFrame) : result (list cell) :=
  options_of df "TBM".

(** Python [a != b] on two option values. *)
Definition py_ne (a b : cell) : bool := negb (cell_eqb a b).

Definition filtered_df_quick (df : DataFrame)
    (selected_quick_client selected_quick_tbm : cell)
    (selected_branch selected_month : list cell) : result DataFrame :=
  let q := df in
  q <- (if py_ne selected_quick_client (Str "All Clients")
        then c <- getitem q "CustomerName" ;;
             Ok (loc q (eq_scalar c selected_quick_client))
        else Ok q) ;;
  q <- (if py_ne selected_quick_tbm (Str "All TBMs")
        then t <- getitem q "TBM" ;;
             Ok (loc q (eq_scalar t selected_quick_tbm))
        else Ok q) ;;
  b <- getitem q "BranchName" ;;
  m <- getitem q "Month" ;;
  Ok (loc q (mask_and (isin b selected_branch) (isin m selected_month))).

(** ** Line 169 *)

Definition latest_year (df : DataFrame) : result Z :=
  y <- getitem df "Year" ;; int (max y).

(** ** KPIs (lines 176-178) *)

Definition avg_sale (total_sales : Q) (total_transactions : Z) : result Q :=
  if 0 <? total_transactions then truediv total_sales total_transactions
  else Ok 0%Q.

(** ** The script, top to bottom *)

Section Script.

(** How [pd.to_numeric] reads a numeric string. *)
Variable str_to_float : string -> option Q.

(** Lines 51-73: coercion, dates, cleaning, [Year] and [Month]. *)
Definition clean (df : DataFrame) : st DataFrame :=
  (dt <- eval (s <- getitem df "DT" ;;
               to_numeric str_to_float errors_coerce s)%py ;;
   let df := setitem df "DT" dt in
   usd <- eval (s <- getitem df "USDAmt" ;;
                to_numeric str_to_float errors_coerce s)%py ;;
   let df := setitem df "USDAmt" usd in
   df <- (if has_column df "DT"
          then date <- eval (s <- getitem df "DT" ;;
                             to_datetime origin errors_coerce s)%py ;;
               ret (setitem df "Date" date)
          else show (Error "DT column not found in XLSB sheet.") ;; stop) ;;
   df <- eval (dropna_subset df ["Date"; "USDAmt"]) ;;
   year <- eval (s <- getitem df "Date" ;; Ok (dt_year s))%py ;;
   let df := setitem df "Year" year in
   month <- eval (s <- getitem df "Date" ;; Ok (dt_month_name s))%py ;;
   let df := setitem df "Month" month in
   month <- eval (s <- getitem df "Month" ;; Ok (Categorical s month_order))%py ;;
   let df := setitem df "Month" month in
   ret df)%st.

(** What the sidebar hands to the dashboard. *)
Record filtered : Type := mkFiltered {
  dashboard_view : DataFrame;
  quick_view : DataFrame;
  quick_client : cell
}.

(** Lines 78-163: the sidebar and the two filtered frames. *)
Definition sidebar (ui : widgets) (df : DataFrame) : st filtered :=
  (show (SidebarHeader "Filter Controls") ;;
   branch_options <- eval (branch_options df) ;;
   all_branches <- checkbox "Select All Branches" (all_branches_selected ui) ;;
   selected_branch <- multiselect "Select Branch" branch_options
                        (if all_branches then branch_options else [])
                        (branch_picks ui) ;;
   df_branch_filtered <- eval (df_branch_filtered df selected_branch) ;;
   all_months <- checkbox "Select All Months" (all_months_selected ui) ;;
   selected_month <- multiselect "Select Month" month_order
                       (if all_months then month_order else [])
                       (month_picks ui) ;;
   client_options <- eval (client_options df_branch_filtered) ;;
   all_clients <- checkbox "Select All Clients (Dashboard)"
                    (all_clients_selected ui) ;;
   selected_client <- multiselect "Select Client (Dashboard)" client_options
                        (if all_clients then client_options else [])
                        (client_picks ui) ;;
   selected_tbm <- (if has_column df "TBM"
                    then tbm_options <- eval (tbm_options df) ;;
                         all_tbms <- checkbox "Select All TBMs (Dashboard)"
                                       (all_tbms_selected ui) ;;
                         multiselect "Select TBM (Dashboard)" tbm_options
                           (if all_tbms then tbm_options else [])
                           (tbm_picks ui)
                    else eval (selected_tbm_fallback df)) ;;
   filtered_df_dashboard <- eval (filtered_df_dashboard df_branch_filtered
                                    selected_client selected_month selected_tbm) ;;
   show (SidebarHeader "Quick Client View") ;;
   all_clients_full <- eval (all_clients_full df) ;;
   selected_quick_client <- selectbox "Select Client to view details"
                              (Str "All Clients") all_clients_full
                              (quick_client_pick ui) ;;
   selected_quick_tbm <- (if has_column df "TBM"
                          then all_tbms_full <- eval (all_tbms_full df) ;;
                               selectbox "Select TBM to view details"
                                 (Str "All TBMs") all_tbms_full
                                 (quick_tbm_pick ui)
                          else ret (Str "All TBMs")) ;;
   filtered_df_quick <- eval (filtered_df_quick df selected_quick_client
                                selected_quick_tbm selected_branch
                                selected_month) ;;
   ret (mkFiltered filtered_df_dashboard filtered_df_quick
          selected_quick_client))%st.

(** Lines 168-231: title, heading, KPIs, charts and tables. *)
Definition dashboard (df filtered_df_quick : DataFrame)
    (selected_quick_client : cell) : st unit :=
  (show (Title "📊 Sales Dashboard") ;;
   latest_year <- eval (latest_year df) ;;
   show (Subheader "Data Overview for 2025") ;;
   if empty filtered_df_quick
   then show (Error "No data available for the selected filters or quick view.")
   else
     usd <- eval (getitem filtered_df_quick "USDAmt") ;;
     let total_sales := sum usd in
     let total_transactions := len filtered_df_quick in
     avg_sale <- eval (avg_sale total_sales total_transactions) ;;
     show (Metric "Total Sales" (Currency total_sales)) ;;
     show (Metric "Transactions" (Count total_transactions)) ;;
     show (Metric "Avg Sale Value" (Currency avg_sale)) ;;
     show Divider ;;
     show (Subheader "Monthly Sales Trend") ;;
     show (LineChart "Month" filtered_df_quick) ;;
     show (Subheader "Sales by Branch") ;;
     show (BarChart "BranchName" filtered_df_quick) ;;
     show (Subheader "Top 10 Clients") ;;
     show (BarChart "CustomerName" filtered_df_quick) ;;
     show (Subheader "🏆 Leading Branch") ;;
     (if negb (empty filtered_df_quick)
      then show (Success "BranchName" filtered_df_quick)
      else ret tt) ;;
     show (Subheader "📋 Client Summary") ;;
     (if py_ne selected_quick_client (Str "All Clients")
      then show (Table "Month" filtered_df_quick) ;;
           show (Table "BranchName" filtered_df_quick)
      else ret tt) ;;
     show (Dataframe "Date" filtered_df_quick))%st.

(** The whole run for one state of the widgets. *)
Definition script (ui : widgets) : st unit :=
  (show (SidebarHeader "Upload XLSB File") ;;
   show (FileUploader "Upload your XLSB file") ;;
   match xlsb_file ui with
   | None => show (Warning "Please upload an XLSB file to continue.") ;; stop
   | Some file =>
       df <- load_xlsb file ;;
       (if empty df
        then show (Warning "No data loaded from XLSB.") ;; stop
        else ret tt) ;;
       df <- clean df ;;
       f <- sidebar ui df ;;
       dashboard df (quick_view f) (quick_client f)
   end)%st.

End Script.

End AzharSaeeddata.

(* ===================================================================== *)
(** * Reading the script row by row *)
(* ===================================================================== *)

Module Rowwise.
Import Pandas PandasTime Calendar Pyxlsb Streamlit AzharSaeeddata.

(** The classes of values that Python's [<] compares with one another. *)
Inductive kind : Type :=
| Number
| Text
| Instant.

Definition kind_of (c : cell) : option kind :=
  match c with
  | NA => None
  | Num _ | Bool _ => Some Number
  | Str _ => Some Text
  | Timestamp _ => Some Instant
  end.

(** [a < b] holds. *)
Definition less (a b : cell) : Prop := py_lt a b = Ok true.

Definition is_Num (c : cell) : Prop := exists q, c = Num q.

Definition is_Timestamp (c : cell) : Prop := exists ns, c = Timestamp ns.

(** The value of a row under a label is one of the selected values. *)
Definition selected (name : string) (values : list cell) (cols row : list cell)
    : bool :=
  existsb (cell_eqb (at_label name cols row)) values.

(** The value of a row under a label is the single value chosen, unless
    the choice is the sentinel of the selectbox. *)
Definition chosen (name : string) (sentinel choice : cell) (cols row : list cell)
    : bool :=
  if py_ne choice sentinel
  then notna (at_label name cols row) && cell_eqb (at_label name cols row) choice
  else true.

(** The test of lines 88 and 121-123 on one row. *)
Definition in_dashboard (selected_branch selected_client selected_month
    selected_tbm : list cell) (cols row : list cell) : bool :=
  selected "BranchName" selected_branch cols row
  && ((selected "CustomerName" selected_client cols row
       && selected "Month" selected_month cols row)
      && selected "TBM" selected_tbm cols row).

(** The test of lines 153-163 on one row. *)
Definition in_quick (selected_quick_client selected_quick_tbm : cell)
    (selected_branch selected_month : list cell) (cols row : list cell) : bool :=
  chosen "CustomerName" (Str "All Clients") selected_quick_client cols row
  && (chosen "TBM" (Str "All TBMs") selected_quick_tbm cols row
      && (selected "BranchName" selected_branch cols row
          && selected "Month" selected_month cols row)).

(** What [st.multiselect] returns: the options at the picked positions,
    or the default of an untouched widget. *)
Definition picked (options default : list cell) (picks : option (list nat))
    : list cell :=
  match picks with
  | None => default
  | Some ps => flat_map (fun i => match nth_error options i with
                                  | Some c => [c]
                                  | None => []
                                  end) ps
  end.

(** The selections of lines 83 and 92, read off the widgets. *)
Definition selected_branch_of (ui : widgets) (branch_options : list cell)
    : list cell :=
  picked branch_options
    (if all_branches_selected ui then branch_options else []) (branch_picks ui).

Definition selected_month_of (ui : widgets) : list cell :=
  picked month_order (if all_months_selected ui then month_order else [])
    (month_picks ui).

(** What [st.selectbox] returns. *)
Definition chosen_of (first : cell) (others : list cell) (pick : option nat)
    : cell :=
  match pick with
  | None => first
  | Some i => nth i (first :: others) first
  end.

(** Lines 139-146: the quick TBM selector, or "All TBMs" for a table
    without the column. *)
Definition selected_quick_tbm_of (ui : widgets) (df : DataFrame) : st cell :=
  if has_column df "TBM"
  then then_ (eval (all_tbms_full df)) (fun all_tbms_full =>
       selectbox "Select TBM to view details" (Str "All TBMs") all_tbms_full
         (quick_tbm_pick ui))
  else ret (Str "All TBMs").

(** Two states of the widgets that differ at most in the Client and TBM
    filters of the dashboard. *)
Definition same_but_client_and_tbm_filters (ui ui' : widgets) : Prop :=
  xlsb_file ui = xlsb_file ui' /\
  all_branches_selected ui = all_branches_selected ui' /\
  branch_picks ui = branch_picks ui' /\
  all_months_selected ui = all_months_selected ui' /\
  month_picks ui = month_picks ui' /\
  quick_client_pick ui = quick_client_pick ui' /\
  quick_tbm_pick ui = quick_tbm_pick ui'.

(** Line 56 on a whole offset: midnight of the day [n] days after the
    origin, in nanoseconds since 1970-01-01. *)
Definition midnight (n : Z) : Z := (n + origin_offset origin) * ns_per_day.

(** The whole offsets whose midnight is an instant of [Timestamp]. *)
Definition in_range (n : Z) : Prop :=
  Timestamp_min <= midnight n <= Timestamp_max.

(** An offset that lies 2^63 days or more after 1970-01-01: the day count
    that line 56 hands to the conversion fits no [int64]. *)
Definition beyond_int64 (q : Q) : Prop :=
  (inject_Z (2 ^ 63) <= q + inject_Z (origin_offset origin))%Q.

End Rowwise.

(* ===================================================================== *)
(** * Workbooks and widget states used as examples *)
(* ===================================================================== *)

Module Inputs.
Import Pandas PandasTime Calendar Pyxlsb Streamlit AzharSaeeddata.

(** No string of the examples is numeric. *)
Definition no_numeric_strings : string -> option Q := fun _ => None.

(** Every "select all" box ticked, no widget touched. *)
Definition untouched (file : upload) : widgets :=
  mkWidgets (Some file) true None true None true None true None None None.

Definition header : list cell :=
  [Str "DT"; Str "USDAmt"; Str "BranchName"; Str "CustomerName"; Str "TBM"].

(** Two sales, in two branches, with two clients and two TBMs. *)
Definition two_branches : upload :=
  Sheet [header;
         [Num 45000; Num 100; Str "BranchA"; Str "ClientX"; Str "T1"];
         [Num 45040; Num 200; Str "BranchB"; Str "ClientY"; Str "T2"]] None.

(** The same sheet without the [DT] column. *)
Definition without_DT : upload :=
  Sheet [[Str "USDAmt"; Str "BranchName"; Str "CustomerName"; Str "TBM"];
         [Num 100; Str "BranchA"; Str "ClientX"; Str "T1"]] None.

(** A sheet without the [TBM] column. *)
Definition without_TBM : upload :=
  Sheet [[Str "DT"; Str "USDAmt"; Str "BranchName"; Str "CustomerName"];
         [Num 45000; Num 100; Str "BranchA"; Str "ClientX"]] None.

(** Two sales of one branch; the client cell of the second is blank. *)
Definition blank_client : upload :=
  Sheet [header;
         [Num 45000; Num 100; Str "BranchA"; Str "ClientX"; Str "T1"];
         [Num 45001; Num 250; Str "BranchA"; NA; Str "T1"]] None.

(** A sheet whose only data row has a blank date. *)
Definition blank_date : upload :=
  Sheet [header;
         [NA; Num 100; Str "BranchA"; Str "ClientX"; Str "T1"]] None.


(** [two_branches] with only the first branch picked. *)
Definition first_branch_picked : widgets :=
  mkWidgets (Some two_branches) true (Some [0%nat]) true None true None true None
    None None.

(** Three sales: the second has a blank date, the third an amount that is
    not a number. *)
Definition two_bad_rows : upload :=
  Sheet [header;
         [Num 45000; Num 100; Str "BranchA"; Str "ClientX"; Str "T1"];
         [NA; Num 200; Str "BranchB"; Str "ClientY"; Str "T2"];
         [Num 45002; Str "n/a"; Str "BranchC"; Str "ClientZ"; Str "T3"]] None.

(** The frame that the loader makes of [two_bad_rows]. *)
Definition two_bad_rows_raw : DataFrame :=
  mkDataFrame header
    [[Num 45000; Num 100; Str "BranchA"; Str "ClientX"; Str "T1"];
     [NA; Num 200; Str "BranchB"; Str "ClientY"; Str "T2"];
     [Num 45002; Str "n/a"; Str "BranchC"; Str "ClientZ"; Str "T3"]].

(** The cleaned table of [two_bad_rows]. *)
Definition two_bad_rows_df : DataFrame :=
  mkDataFrame
    (header ++ [Str "Date"; Str "Year"; Str "Month"])
    [[Num 45000; Num 100; Str "BranchA"; Str "ClientX"; Str "T1";
      Timestamp 1678838400000000000; Num 2023; Str "March"]].

(** The cleaned table of [two_branches]. *)
Definition two_branches_df : DataFrame :=
  mkDataFrame
    (header ++ [Str "Date"; Str "Year"; Str "Month"])
    [[Num 45000; Num 100; Str "BranchA"; Str "ClientX"; Str "T1";
      Timestamp 1678838400000000000; Num 2023; Str "March"];
     [Num 45040; Num 200; Str "BranchB"; Str "ClientY"; Str "T2";
      Timestamp 1682294400000000000; Num 2023; Str "April"]].

(** Two sales dated by the offsets 0 and 1. *)
Definition offsets_0_and_1 : upload :=
  Sheet [header;
         [Num 0; Num 100; Str "BranchA"; Str "ClientX"; Str "T1"];
         [Num 1; Num 200; Str "BranchB"; Str "ClientY"; Str "T2"]] None.

(** The frame that the loader makes of [offsets_0_and_1]. *)
Definition offsets_0_and_1_raw : DataFrame :=
  mkDataFrame header
    [[Num 0; Num 100; Str "BranchA"; Str "ClientX"; Str "T1"];
     [Num 1; Num 200; Str "BranchB"; Str "ClientY"; Str "T2"]].

(** The cleaned table of [offsets_0_and_1]. *)
Definition offsets_0_and_1_df : DataFrame :=
  mkDataFrame
    (header ++ [Str "Date"; Str "Year"; Str "Month"])
    [[Num 0; Num 100; Str "BranchA"; Str "ClientX"; Str "T1";
      Timestamp (-2209161600000000000); Num 1899; Str "December"];
     [Num 1; Num 200; Str "BranchB"; Str "ClientY"; Str "T2";
      Timestamp (-2209075200000000000); Num 1899; Str "December"]].

(** One sale whose [DT] cell holds the number 1e19. *)
Definition huge_offset : upload :=
  Sheet [header;
         [Num 1e19; Num 100; Str "BranchA"; Str "ClientX"; Str "T1"]] None.

(** The frame that the loader makes of [huge_offset]. *)
Definition huge_offset_raw : DataFrame :=
  mkDataFrame header
    [[Num 1e19; Num 100; Str "BranchA"; Str "ClientX"; Str "T1"]].

(** One sale dated 132320.9999: 2262-04-11 at 23:59:51.36, twelve and a
    half minutes after the last instant of [Timestamp]. *)
Definition past_the_last_instant : upload :=
  Sheet [header;
         [Num 132320.9999; Num 100; Str "BranchA"; Str "ClientX"; Str "T1"]] None.

(** The frame that the loader makes of [past_the_last_instant]. *)
Definition past_the_last_instant_raw : DataFrame :=
  mkDataFrame header
    [[Num 132320.9999; Num 100; Str "BranchA"; Str "ClientX"; Str "T1"]].

(** The cleaned table of [blank_client]. *)
Definition blank_client_df : DataFrame :=
  mkDataFrame
    (header ++ [Str "Date"; Str "Year"; Str "Month"])
    [[Num 45000; Num 100; Str "BranchA"; Str "ClientX"; Str "T1";
      Timestamp 1678838400000000000; Num 2023; Str "March"];
     [Num 45001; Num 250; Str "BranchA"; NA; Str "T1";
      Timestamp 1678924800000000000; Num 2023; Str "March"]].

End Inputs.

(* ===================================================================== *)
(** * Facts about masks and selections *)
(* ===================================================================== *)

Import Pandas PandasTime Calendar Pyxlsb Streamlit AzharSaeeddata.

Section Masks.
Context {A : Type}.

Lemma select_incl (rs : list A) (mask : list bool) : incl (select rs mask) rs.
Proof.
  revert mask; induction rs as [|r rs IH]; intros [|b mask]; simpl;
    try (intros x []).
  destruct b.
  - intros x [->|Hx]; [now left | right; now apply (IH mask)].
  - intros x Hx; right; now apply (IH mask).
Qed.

Lemma select_none (rs : list A) (mask : list bool) :
  Forall (fun b => b = false) mask -> select rs mask = [].
Proof.
  intros H; revert rs; induction H as [|b mask -> _ IH]; intros [|r rs];
    simpl; auto.
Qed.

Lemma select_all (rs : list A) (mask : list bool) :
  List.length mask = List.length rs ->
  Forall (fun b => b = true) mask -> select rs mask = rs.
Proof.
  intros Hlen H; revert rs Hlen.
  induction H as [|b mask -> _ IH]; intros [|r rs]; simpl; try discriminate; auto.
  intros Hlen; f_equal; apply IH; lia.
Qed.

Lemma select_map {B : Type} (f : A -> B) (rs : list A) (mask : list bool) :
  map f (select rs mask) = select (map f rs) mask.
Proof.
  revert mask; induction rs as [|r rs IH]; intros [|b mask]; simpl; auto.
  destruct b; simpl; now rewrite IH.
Qed.

End Masks.

Lemma mask_and_false_l (m1 m2 : list bool) :
  Forall (fun b => b = false) m1 -> Forall (fun b => b = false) (mask_and m1 m2).
Proof.
  intros H; revert m2; induction H as [|b m1 -> _ IH]; intros [|c m2];
    simpl; constructor; auto.
Qed.

Lemma mask_and_false_r (m1 m2 : list bool) :
  Forall (fun b => b = false) m2 -> Forall (fun b => b = false) (mask_and m1 m2).
Proof.
  intros H; revert m1; induction H as [|b m2 -> _ IH]; intros [|c m1];
    simpl; constructor; auto using andb_false_r.
Qed.

Lemma isin_nil (s : Series) : Forall (fun b => b = false) (isin s []).
Proof. induction s; simpl; constructor; auto. Qed.

(** A column of [df[mask]] is the masked column of [df]. *)
Lemma getitem_loc (df : DataFrame) (mask : list bool) (name : string) :
  getitem (loc df mask) name = (s <- getitem df name ;; Ok (select s mask)).
Proof.
  unfold getitem, loc; simpl.
  destruct (count name (columns df)) as [|[|n]]; simpl; auto.
  now rewrite select_map.
Qed.

Lemma usable_getitem (df : DataFrame) (name : string) :
  usable df name ->
  getitem df name = Ok (map (at_label name (columns df)) (rows df)).
Proof. unfold usable, getitem; now intros ->. Qed.

Lemma getitem_Ok_usable (df : DataFrame) (name : string) (s : Series) :
  getitem df name = Ok s -> usable df name.
Proof.
  unfold usable, getitem.
  destruct (count name (columns df)) as [|[|n]]; now try discriminate.
Qed.

Lemma usable_loc (df : DataFrame) (mask : list bool) (name : string) :
  usable (loc df mask) name <-> usable df name.
Proof. reflexivity. Qed.

(* ===================================================================== *)
(** * The filtered views *)
(* ===================================================================== *)

(** What [df_branch_filtered] and the two views are, once their columns
    are read. *)
Lemma df_branch_filtered_Ok (df dfb : DataFrame) (sb : list cell) :
  df_branch_filtered df sb = Ok dfb ->
  exists b, getitem df "BranchName" = Ok b /\ dfb = loc df (isin b sb).
Proof.
  unfold df_branch_filtered.
  destruct (getitem df "BranchName") as [b|e]; simpl; [|discriminate].
  intros [= <-]; eauto.
Qed.

Lemma filtered_df_dashboard_Ok (dfb v : DataFrame) (sc sm st : list cell) :
  filtered_df_dashboard dfb sc sm st = Ok v ->
  exists c m t,
    getitem dfb "CustomerName" = Ok c /\ getitem dfb "Month" = Ok m /\
    getitem dfb "TBM" = Ok t /\
    v = loc dfb (mask_and (mask_and (isin c sc) (isin m sm)) (isin t st)).
Proof.
  unfold filtered_df_dashboard.
  destruct (getitem dfb "CustomerName") as [c|e]; simpl; [|discriminate].
  destruct (getitem dfb "Month") as [m|e]; simpl; [|discriminate].
  destruct (getitem dfb "TBM") as [t|e]; simpl; [|discriminate].
  intros [= <-]; exists c, m, t; auto.
Qed.

(** The two narrowing steps of the quick view keep the columns and give
    rows of the frame they start from. *)
Lemma quick_step_sub (q q' : DataFrame) (name : string) (on : bool) (value : cell) :
  (if on then c <- getitem q name ;; Ok (loc q (eq_scalar c value)) else Ok q)
    = Ok q' ->
  columns q' = columns q /\ incl (rows q') (rows q).
Proof.
  destruct on.
  - destruct (getitem q name) as [c|e]; simpl; [|discriminate].
    intros [= <-]; split; [reflexivity | apply select_incl].
  - intros [= <-]; split; [reflexivity | apply incl_refl].
Qed.

Lemma filtered_df_quick_Ok (df v : DataFrame) (qc qt : cell) (sb sm : list cell) :
  filtered_df_quick df qc qt sb sm = Ok v ->
  exists q b m,
    columns q = columns df /\ incl (rows q) (rows df) /\
    getitem q "BranchName" = Ok b /\ getitem q "Month" = Ok m /\
    v = loc q (mask_and (isin b sb) (isin m sm)).
Proof.
  unfold filtered_df_quick.
  destruct (if py_ne qc (Str "All Clients") then _ else _) as [q1|e] eqn:E1;
    simpl; [|discriminate].
  destruct (if py_ne qt (Str "All TBMs") then _ else _) as [q2|e] eqn:E2;
    simpl; [|discriminate].
  destruct (getitem q2 "BranchName") as [b|e] eqn:Eb; simpl; [|discriminate].
  destruct (getitem q2 "Month") as [m|e] eqn:Em; simpl; [|discriminate].
  intros [= <-].
  apply quick_step_sub in E1 as [C1 I1].
  apply quick_step_sub in E2 as [C2 I2].
  exists q2, b, m; repeat split; auto.
  - congruence.
  - eapply incl_tran; eauto.
Qed.

(** C5.  Whatever the selections, a dashboard view and a quick view have
    the columns of the table they are computed from and every one of their
    rows is a row of that table; filtering builds new frames and leaves
    the table as it was. *)
Theorem views_are_subsets_of_the_table :
  forall (df : DataFrame) (selected_branch selected_client selected_month
          selected_tbm : list cell) (selected_quick_client selected_quick_tbm : cell),
    (forall dfb view,
        df_branch_filtered df selected_branch = Ok dfb ->
        filtered_df_dashboard dfb selected_client selected_month selected_tbm
          = Ok view ->
        columns view = columns df /\ incl (rows view) (rows df)) /\
    (forall view,
        filtered_df_quick df selected_quick_client selected_quick_tbm
          selected_branch selected_month = Ok view ->
        columns view = columns df /\ incl (rows view) (rows df)).
Proof.
  intros df sb sc sm st qc qt; split.
  - intros dfb view Hb Hd.
    apply df_branch_filtered_Ok in Hb as (b & _ & ->).
    apply filtered_df_dashboard_Ok in Hd as (c & m & t & _ & _ & _ & ->).
    split; [reflexivity|]; simpl.
    eapply incl_tran; apply select_incl.
  - intros view Hq.
    apply filtered_df_quick_Ok in Hq as (q & b & m & Hc & Hi & _ & _ & ->).
    split; [exact Hc|]; simpl.
    eapply incl_tran; [apply select_incl | exact Hi].
Qed.

Lemma views_are_subsets_of_the_table_witness :
  exists dfb dash quick,
    df_branch_filtered Inputs.two_branches_df [Str "BranchA"] = Ok dfb /\
    filtered_df_dashboard dfb [Str "ClientX"] month_order [Str "T1"] = Ok dash /\
    filtered_df_quick Inputs.two_branches_df (Str "ClientY") (Str "All TBMs")
      [Str "BranchA"; Str "BranchB"] month_order = Ok quick /\
    (columns dash = columns Inputs.two_branches_df /\
     incl (rows dash) (rows Inputs.two_branches_df)) /\
    (columns quick = columns Inputs.two_branches_df /\
     incl (rows quick) (rows Inputs.two_branches_df)).
Proof.
  eexists; eexists; eexists.
  split; [vm_compute; reflexivity|].
  split; [vm_compute; reflexivity|].
  split; [vm_compute; reflexivity|].
  split.
  - apply (proj1 (views_are_subsets_of_the_table Inputs.two_branches_df
             [Str "BranchA"] [Str "ClientX"] month_order [Str "T1"]
             (Str "ClientY") (Str "All TBMs"))
             _ _ eq_refl eq_refl).
  - apply (proj2 (views_are_subsets_of_the_table Inputs.two_branches_df
             [Str "BranchA"; Str "BranchB"] [] month_order []
             (Str "ClientY") (Str "All TBMs")) _ eq_refl).
Defined.

Lemma select_nil_rows {A : Type} (mask : list bool) : select (@nil A) mask = [].
Proof. now destruct mask. Qed.

Lemma dashboard_empty_selection (df dfb view : DataFrame) (sb sc sm st : list cell) :
  sb = [] \/ sc = [] \/ sm = [] \/ st = [] ->
  df_branch_filtered df sb = Ok dfb ->
  filtered_df_dashboard dfb sc sm st = Ok view ->
  rows view = [].
Proof.
  intros Hempty Hb Hd.
  apply df_branch_filtered_Ok in Hb as (b & _ & ->).
  apply filtered_df_dashboard_Ok in Hd as (c & m & t & _ & _ & _ & ->).
  simpl.
  destruct Hempty as [-> | [-> | [-> | ->]]].
  - rewrite (select_none (rows df) (isin b [])) by apply isin_nil.
    apply select_nil_rows.
  - apply select_none, mask_and_false_l, mask_and_false_l, isin_nil.
  - apply select_none, mask_and_false_l, mask_and_false_r, isin_nil.
  - apply select_none, mask_and_false_r, isin_nil.
Qed.

Lemma quick_empty_selection (df view : DataFrame) (qc qt : cell) (sb sm : list cell) :
  sb = [] \/ sm = [] ->
  filtered_df_quick df qc qt sb sm = Ok view ->
  rows view = [].
Proof.
  intros Hempty Hq.
  apply filtered_df_quick_Ok in Hq as (q & b & m & _ & _ & _ & _ & ->).
  simpl.
  destruct Hempty as [-> | ->].
  - apply select_none, mask_and_false_l, isin_nil.
  - apply select_none, mask_and_false_r, isin_nil.
Qed.

(** With its columns in place the dashboard view is computed. *)
Lemma dashboard_view_computed (df : DataFrame) (sb sc sm st : list cell) :
  usable df "BranchName" -> usable df "CustomerName" ->
  usable df "Month" -> usable df "TBM" ->
  exists dfb view,
    df_branch_filtered df sb = Ok dfb /\
    filtered_df_dashboard dfb sc sm st = Ok view /\
    columns view = columns df.
Proof.
  intros Ub Uc Um Ut.
  unfold df_branch_filtered. rewrite (usable_getitem _ _ Ub); simpl.
  eexists; eexists; split; [reflexivity|].
  unfold filtered_df_dashboard.
  rewrite !getitem_loc.
  rewrite (usable_getitem _ _ Uc), (usable_getitem _ _ Um),
    (usable_getitem _ _ Ut); simpl.
  split; reflexivity.
Qed.

(** So is the quick view; [CustomerName] and [TBM] are read only when a
    single client or a single TBM is chosen. *)
Lemma quick_view_computed (df : DataFrame) (qc qt : cell) (sb sm : list cell) :
  usable df "BranchName" -> usable df "Month" ->
  (py_ne qc (Str "All Clients") = true -> usable df "CustomerName") ->
  (py_ne qt (Str "All TBMs") = true -> usable df "TBM") ->
  exists view,
    filtered_df_quick df qc qt sb sm = Ok view /\ columns view = columns df.
Proof.
  intros Ub Um Uc Ut.
  unfold filtered_df_quick.
  destruct (py_ne qc (Str "All Clients")).
  - rewrite (usable_getitem _ _ (Uc eq_refl)); simpl.
    destruct (py_ne qt (Str "All TBMs")).
    + rewrite !getitem_loc, (usable_getitem _ _ (Ut eq_refl)); simpl.
      rewrite !getitem_loc, (usable_getitem _ _ Ub), (usable_getitem _ _ Um);
        simpl.
      eexists; split; reflexivity.
    + simpl.
      rewrite !getitem_loc, (usable_getitem _ _ Ub), (usable_getitem _ _ Um);
        simpl.
      eexists; split; reflexivity.
  - simpl. destruct (py_ne qt (Str "All TBMs")).
    + rewrite (usable_getitem _ _ (Ut eq_refl)); simpl.
      rewrite !getitem_loc, (usable_getitem _ _ Ub), (usable_getitem _ _ Um);
        simpl.
      eexists; split; reflexivity.
    + simpl. rewrite (usable_getitem _ _ Ub), (usable_getitem _ _ Um); simpl.
      eexists; split; reflexivity.
Qed.

Lemma frame_eta (df : DataFrame) : df = mkDataFrame (columns df) (rows df).
Proof. now destruct df. Qed.

(** C6.  An empty selection is never read as "everything".  With an empty
    selection of Branch, Month, Client or TBM the dashboard view has no
    row; with an empty selection of Branch or Month the quick view has no
    row.  Each half says both that a computed view is empty and that, the
    columns being in place, the view is computed and is the empty frame. *)
Theorem empty_selection_gives_empty_view :
  forall (df : DataFrame) (selected_branch selected_client selected_month
          selected_tbm : list cell) (selected_quick_client selected_quick_tbm : cell),
    (selected_branch = [] \/ selected_client = [] \/
     selected_month = [] \/ selected_tbm = [] ->
     (forall dfb view,
         df_branch_filtered df selected_branch = Ok dfb ->
         filtered_df_dashboard dfb selected_client selected_month selected_tbm
           = Ok view ->
         rows view = []) /\
     (usable df "BranchName" -> usable df "CustomerName" ->
      usable df "Month" -> usable df "TBM" ->
      exists dfb,
        df_branch_filtered df selected_branch = Ok dfb /\
        filtered_df_dashboard dfb selected_client selected_month selected_tbm
          = Ok (mkDataFrame (columns df) []))) /\
    (selected_branch = [] \/ selected_month = [] ->
     (forall view,
         filtered_df_quick df selected_quick_client selected_quick_tbm
           selected_branch selected_month = Ok view ->
         rows view = []) /\
     (usable df "BranchName" -> usable df "Month" ->
      (py_ne selected_quick_client (Str "All Clients") = true ->
       usable df "CustomerName") ->
      (py_ne selected_quick_tbm (Str "All TBMs") = true -> usable df "TBM") ->
      filtered_df_quick df selected_quick_client selected_quick_tbm
        selected_branch selected_month = Ok (mkDataFrame (columns df) []))).
Proof.
  intros df sb sc sm st qc qt; split; intros Hempty; split.
  - intros dfb view; now apply dashboard_empty_selection.
  - intros Ub Uc Um Ut.
    destruct (dashboard_view_computed df sb sc sm st Ub Uc Um Ut)
      as (dfb & view & Hb & Hd & Hcols).
    exists dfb; split; [exact Hb|].
    rewrite Hd, (frame_eta view), Hcols.
    now rewrite (dashboard_empty_selection _ _ _ _ _ _ _ Hempty Hb Hd).
  - intros view; now apply quick_empty_selection.
  - intros Ub Um Uc Ut.
    destruct (quick_view_computed df qc qt sb sm Ub Um Uc Ut) as (view & Hq & Hcols).
    rewrite Hq, (frame_eta view), Hcols.
    now rewrite (quick_empty_selection _ _ _ _ _ _ Hempty Hq).
Qed.

Lemma empty_selection_gives_empty_view_witness :
  (exists dfb,
      df_branch_filtered Inputs.two_branches_df [Str "BranchA"] = Ok dfb /\
      filtered_df_dashboard dfb [] month_order [Str "T1"]
        = Ok (mkDataFrame (columns Inputs.two_branches_df) [])) /\
  filtered_df_quick Inputs.two_branches_df (Str "ClientX") (Str "All TBMs")
    [Str "BranchA"] [] = Ok (mkDataFrame (columns Inputs.two_branches_df) []).
Proof.
  split.
  - apply (proj2 (proj1 (empty_selection_gives_empty_view Inputs.two_branches_df
             [Str "BranchA"] [] month_order [Str "T1"] (Str "ClientX")
             (Str "All TBMs")) (or_intror (or_introl eq_refl))));
      reflexivity.
  - apply (proj2 (proj2 (empty_selection_gives_empty_view Inputs.two_branches_df
             [Str "BranchA"] [] [] [Str "T1"] (Str "ClientX")
             (Str "All TBMs")) (or_intror eq_refl)));
      try reflexivity; intros _; reflexivity.
Defined.

(* ===================================================================== *)
(** * The loader *)
(* ===================================================================== *)

(** The message of line 26. *)
Lemma load_xlsb_caught (file : upload) (e : exn) :
  (rows <- read_rows file ;;
   header <- iloc0 (DataFrame_of_rows rows) ;;
   Ok (from_1 (set_columns (DataFrame_of_rows rows) header))) = Raise e ->
  load_xlsb file
    = ([Error ("Error loading XLSB file: " ++ exn_str e)%string], Next empty_frame).
Proof. unfold load_xlsb; now intros ->. Qed.

(** C8.  The loader never lets an exception out and never stops the run:
    it always hands a frame back.  When opening the workbook, finding the
    sheet or reading its rows raises [e], and also when the sheet has no
    row for the header, the frame is the empty one and the page shows the
    error message; otherwise nothing is shown and the frame has the first
    row as labels and the other rows as data. *)
Theorem load_xlsb_catches_every_error :
  forall file : upload,
    (exists df, ending (load_xlsb file) = Next df) /\
    (forall e,
        read_rows file = Raise e ->
        load_xlsb file
          = ([Error ("Error loading XLSB file: " ++ exn_str e)%string],
             Next empty_frame)) /\
    (read_rows file = Ok [] ->
     load_xlsb file
       = ([Error ("Error loading XLSB file: " ++
                  "single positional indexer is out-of-bounds")%string],
          Next empty_frame)) /\
    (forall header data,
        read_rows file = Ok (header :: data) ->
        load_xlsb file
          = ([], Next (mkDataFrame (pad (width (header :: data)) header)
                         (map (pad (width (header :: data))) data)))).
Proof.
  intros file; repeat split.
  - unfold load_xlsb.
    destruct (read_rows file) as [[|h rs]|e]; simpl; eauto.
  - intros e H; apply load_xlsb_caught; now rewrite H.
  - intros H; unfold load_xlsb; now rewrite H.
  - intros h data H; unfold load_xlsb; now rewrite H.
Qed.

Lemma load_xlsb_catches_every_error_witness :
  load_xlsb (Unreadable (DecodeError "File is not a zip file"))
    = ([Error "Error loading XLSB file: File is not a zip file"],
       Next empty_frame) /\
  load_xlsb (Sheet [] None)
    = ([Error "Error loading XLSB file: single positional indexer is out-of-bounds"],
       Next empty_frame) /\
  load_xlsb (Sheet [[Str "DT"; Str "USDAmt"]; [Num 1]] None)
    = ([], Next (mkDataFrame [Str "DT"; Str "USDAmt"] [[Num 1; NA]])).
Proof.
  split; [|split].
  - exact (proj1 (proj2 (load_xlsb_catches_every_error
                           (Unreadable (DecodeError "File is not a zip file"))))
             (DecodeError "File is not a zip file") eq_refl).
  - exact (proj1 (proj2 (proj2 (load_xlsb_catches_every_error (Sheet [] None))))
             eq_refl).
  - exact (proj2 (proj2 (proj2 (load_xlsb_catches_every_error
                                  (Sheet [[Str "DT"; Str "USDAmt"]; [Num 1]] None))))
             [Str "DT"; Str "USDAmt"] [[Num 1]] eq_refl).
Defined.

(* ===================================================================== *)
(** * Columns that are not there *)
(* ===================================================================== *)

Lemma has_column_count (df : DataFrame) (name : string) :
  has_column df name = false <-> count name (columns df) = 0%nat.
Proof.
  unfold has_column; induction (columns df) as [|c cols IH]; simpl.
  - tauto.
  - destruct (label_eqb name c); simpl; [split; discriminate | exact IH].
Qed.

Lemma getitem_absent (df : DataFrame) (name : string) :
  has_column df name = false -> getitem df name = Raise (KeyError name).
Proof.
  intros H; apply has_column_count in H; unfold getitem; now rewrite H.
Qed.

Lemma getitem_present (df : DataFrame) (name : string) (s : Series) :
  getitem df name = Ok s -> has_column df name = true.
Proof.
  intros H; destruct (has_column df name) eqn:E; auto.
  rewrite (getitem_absent _ _ E) in H; discriminate.
Qed.

Lemma has_column_setitem (df : DataFrame) (name other : string) (v : Series) :
  has_column df name = true -> has_column (setitem df other v) name = true.
Proof.
  unfold setitem; destruct (has_column df other); simpl; auto.
  unfold has_column; simpl; rewrite existsb_app; now intros ->.
Qed.

Section MissingColumns.
Variable str_to_float : string -> option Q.

(** The [else] of line 57 cannot run: line 51 has read [df["DT"]] before
    line 55 asks whether the column is there. *)
Lemma clean_never_reports_DT (df : DataFrame) :
  ~ In (Error "DT column not found in XLSB sheet.") (page (clean str_to_float df)).
Proof.
  unfold clean.
  destruct (getitem df "DT") as [dt|e] eqn:Edt; simpl; [|tauto].
  destruct (to_numeric str_to_float errors_coerce dt) as [dt'|e]; simpl; [|tauto].
  destruct (getitem (setitem df "DT" dt') "USDAmt") as [usd|e]; simpl; [|tauto].
  destruct (to_numeric str_to_float errors_coerce usd) as [usd'|e]; simpl; [|tauto].
  rewrite has_column_setitem
    by (apply has_column_setitem; eapply getitem_present; eauto).
  set (df2 := setitem (setitem df "DT" dt') "USDAmt" usd').
  destruct (getitem df2 "DT") as [dt2|e]; simpl; [|tauto].
  destruct (to_datetime origin errors_coerce dt2) as [date|e]; simpl; [|tauto].
  destruct (dropna_subset _ _) as [df3|e]; simpl; [|tauto].
  destruct (getitem df3 "Date") as [d|e]; simpl; [|tauto].
  destruct (getitem (setitem df3 "Year" (dt_year d)) "Date") as [d'|e]; simpl;
    [|tauto].
  destruct (getitem _ "Month") as [m|e]; simpl; tauto.
Qed.

(** C1.  A decoded table without a [DT] column does not reach the check
    of line 55: line 51 reads [df["DT"]] first, and the run ends there
    with an uncaught [KeyError] on a page that shows the uploader only. *)
Theorem missing_DT_is_an_uncaught_KeyError :
  forall (ui : widgets) (file : upload) (df : DataFrame),
    xlsb_file ui = Some file ->
    load_xlsb file = ([], Next df) ->
    empty df = false ->
    has_column df "DT" = false ->
    script str_to_float ui
      = ([SidebarHeader "Upload XLSB File"; FileUploader "Upload your XLSB file"],
         Uncaught (KeyError "DT")).
Proof.
  intros ui file df Hfile Hload Hne Hdt.
  unfold script; rewrite Hfile; simpl.
  rewrite Hload; simpl. rewrite Hne; simpl.
  unfold clean. rewrite (getitem_absent _ _ Hdt). reflexivity.
Qed.

Lemma fails_then {A B : Type} (c : st A) (k : A -> st B) (out : list element) (a : A) :
  c = (out, Next a) -> fails (k a) -> fails (then_ c k).
Proof.
  intros -> (out' & e & E); unfold then_; rewrite E.
  now exists (out ++ out'), e.
Qed.

Lemma fails_after_eval {A B : Type} (r : result A) (k : A -> st B) :
  (forall a, r = Ok a -> fails (k a)) -> fails (then_ (eval r) k).
Proof.
  destruct r as [a|e]; intros H.
  - apply (fails_then _ _ [] a); auto.
  - now exists [], e.
Qed.

Lemma fails_after_multiselect {B : Type} (label : string)
    (options default : list cell) (picks : option (list nat))
    (k : list cell -> st B) :
  (forall l, fails (k l)) -> fails (then_ (multiselect label options default picks) k).
Proof. intros H; eapply fails_then; [reflexivity | apply H]. Qed.

(** C2.  On a frame without a [TBM] column the dashboard view is not
    computed: line 123 reads [df_branch_filtered["TBM"]] whatever
    [selected_tbm] is, and that is a [KeyError] as soon as the two columns
    read before it are there.  So on a table without [TBM] the sidebar
    never gets past line 123: whatever the widgets, it ends in an uncaught
    exception. *)
Theorem missing_TBM_breaks_the_dashboard_view :
  (forall (df_branch_filtered : DataFrame)
          (selected_client selected_month selected_tbm : list cell),
      has_column df_branch_filtered "TBM" = false ->
      (exists e,
          filtered_df_dashboard df_branch_filtered selected_client selected_month
            selected_tbm = Raise e) /\
      (usable df_branch_filtered "CustomerName" ->
       usable df_branch_filtered "Month" ->
       filtered_df_dashboard df_branch_filtered selected_client selected_month
         selected_tbm = Raise (KeyError "TBM"))) /\
  (forall (ui : widgets) (df : DataFrame),
      has_column df "TBM" = false -> fails (sidebar ui df)).
Proof.
  assert (Hview : forall dfb sc sm st,
             has_column dfb "TBM" = false ->
             (exists e, filtered_df_dashboard dfb sc sm st = Raise e) /\
             (usable dfb "CustomerName" -> usable dfb "Month" ->
              filtered_df_dashboard dfb sc sm st = Raise (KeyError "TBM"))).
  { intros dfb sc sm st H; unfold filtered_df_dashboard.
    rewrite (getitem_absent _ _ H); split.
    - destruct (getitem dfb "CustomerName"); simpl; eauto.
      destruct (getitem dfb "Month"); simpl; eauto.
    - intros Uc Um.
      now rewrite (usable_getitem _ _ Uc), (usable_getitem _ _ Um). }
  split; [exact Hview|].
  intros ui df H; unfold sidebar.
  eapply fails_then; [reflexivity|].
  apply fails_after_eval; intros bo _.
  eapply fails_then; [reflexivity|].
  apply fails_after_multiselect; intros selected_branch.
  apply fails_after_eval; intros dfb Hb.
  eapply fails_then; [reflexivity|].
  apply fails_after_multiselect; intros selected_month.
  apply fails_after_eval; intros co _.
  eapply fails_then; [reflexivity|].
  apply fails_after_multiselect; intros selected_client.
  rewrite H.
  apply fails_after_eval; intros selected_tbm _.
  apply df_branch_filtered_Ok in Hb as (b & _ & ->).
  destruct (proj1 (Hview (loc df (isin b selected_branch)) selected_client
                     selected_month selected_tbm H)) as [e ->].
  now exists [], e.
Qed.

End MissingColumns.

Lemma missing_DT_is_an_uncaught_KeyError_witness :
  script Inputs.no_numeric_strings (Inputs.untouched Inputs.without_DT)
    = ([SidebarHeader "Upload XLSB File"; FileUploader "Upload your XLSB file"],
       Uncaught (KeyError "DT")).
Proof.
  apply (missing_DT_is_an_uncaught_KeyError Inputs.no_numeric_strings
           (Inputs.untouched Inputs.without_DT) Inputs.without_DT
           (mkDataFrame [Str "USDAmt"; Str "BranchName"; Str "CustomerName"; Str "TBM"]
              [[Num 100; Str "BranchA"; Str "ClientX"; Str "T1"]]));
    reflexivity.
Defined.

Lemma missing_TBM_breaks_the_dashboard_view_witness :
  filtered_df_dashboard
    (mkDataFrame [Str "BranchName"; Str "CustomerName"; Str "Month"]
       [[Str "BranchA"; Str "ClientX"; Str "March"]])
    [Str "ClientX"] month_order [] = Raise (KeyError "TBM") /\
  fails (sidebar (Inputs.untouched Inputs.without_TBM)
           (mkDataFrame [Str "BranchName"; Str "CustomerName"; Str "Month"]
              [[Str "BranchA"; Str "ClientX"; Str "March"]])).
Proof.
  split.
  - apply (proj2 (proj1 missing_TBM_breaks_the_dashboard_view
                    (mkDataFrame [Str "BranchName"; Str "CustomerName"; Str "Month"]
                       [[Str "BranchA"; Str "ClientX"; Str "March"]])
                    [Str "ClientX"] month_order [] eq_refl));
      reflexivity.
  - apply (proj2 missing_TBM_breaks_the_dashboard_view); reflexivity.
Defined.

(** The whole run on a sheet without [TBM]: the sidebar is drawn down to
    the client filter, then line 123 raises. *)
Example script_without_TBM :
  ending (script Inputs.no_numeric_strings (Inputs.untouched Inputs.without_TBM))
    = Uncaught (KeyError "TBM") /\
  ~ In (Title "📊 Sales Dashboard")
       (page (script Inputs.no_numeric_strings (Inputs.untouched Inputs.without_TBM))).
Proof.
  split; [reflexivity|].
  vm_compute. intuition discriminate.
Qed.

(* ===================================================================== *)
(** * The calendar *)
(* ===================================================================== *)

(** Linear arithmetic with the quotients and remainders by constants. *)
Ltac zdiv := Z.to_euclidean_division_equations; lia.

Ltac decide_tests :=
  repeat match goal with
         | |- context [?a <=? ?b] => destruct (Z.leb_spec a b); try lia
         | |- context [?a <? ?b] => destruct (Z.ltb_spec a b); try lia
         | |- context [?a =? ?b] => destruct (Z.eqb_spec a b); try lia
         end.

Lemma is_leap_spec y :
  is_leap y = true <-> (y mod 4 = 0 /\ (y mod 100 <> 0 \/ y mod 400 = 0)).
Proof.
  unfold is_leap.
  rewrite orb_true_iff, andb_true_iff, negb_true_iff, !Z.eqb_eq, Z.eqb_neq.
  zdiv.
Qed.

(** The day number of the date of a day number is that day number. *)
Lemma days_from_civil_from_days z :
  let t := civil_from_days z in
  days_from_civil (year t) (month t) (day t) = z.
Proof.
  unfold civil_from_days; cbv zeta; cbn [year month day].
  set (z' := z + 719468).
  set (era := z' / 146097).
  set (doe := z' - era * 146097).
  assert (Hdoe : 0 <= doe <= 146096) by (subst doe era; zdiv).
  set (yoe := (doe - doe / 1460 + doe / 36524 - doe / 146096) / 365).
  set (doy := doe - (365 * yoe + yoe / 4 - yoe / 100)).
  assert (Hy : 0 <= yoe <= 399 /\ 0 <= doy <= 365) by (subst doy yoe; zdiv).
  set (mp := (5 * doy + 2) / 153).
  assert (Hmp : 0 <= mp <= 11) by (subst mp; zdiv).
  unfold days_from_civil; cbv zeta.
  destruct (Z.ltb_spec mp 10).
  - destruct (Z.leb_spec (mp + 3) 2); [zdiv|].
    destruct (Z.ltb_spec 2 (mp + 3)); [|zdiv].
    replace (mp + 3 - 3) with mp by zdiv.
    replace ((yoe + era * 400) / 400) with era by zdiv.
    replace (yoe + era * 400 - era * 400) with yoe by zdiv.
    unfold doy, doe, z' in *; clearbody mp yoe era; zdiv.
  - destruct (Z.leb_spec (mp - 9) 2); [|zdiv].
    destruct (Z.ltb_spec 2 (mp - 9)); [zdiv|].
    replace (mp - 9 + 9) with mp by zdiv.
    replace (yoe + era * 400 + 1 - 1) with (yoe + era * 400) by zdiv.
    replace ((yoe + era * 400) / 400) with era by zdiv.
    replace (yoe + era * 400 - era * 400) with yoe by zdiv.
    unfold doy, doe, z' in *; clearbody mp yoe era; zdiv.
Qed.

(** [civil_from_days] on a day number given by its era, year of era and
    day of year. *)
Lemma civil_parts era yoe doy :
  0 <= yoe <= 399 -> 0 <= doy <= 365 ->
  (doy = 365 -> (yoe + 1) mod 4 = 0 /\ ((yoe + 1) mod 100 <> 0 \/ yoe = 399)) ->
  let z := era * 146097 + (yoe * 365 + yoe / 4 - yoe / 100 + doy) - 719468 in
  civil_from_days z =
    let mp := (5 * doy + 2) / 153 in
    let m := if mp <? 10 then mp + 3 else mp - 9 in
    mkDate (if m <=? 2 then yoe + era * 400 + 1 else yoe + era * 400) m
           (doy - (153 * mp + 2) / 5 + 1).
Proof.
  intros Hy Hd Hl z.
  destruct (civil_from_days z) eqn:E. revert E.
  unfold civil_from_days; cbv zeta.
  set (doe0 := yoe * 365 + yoe / 4 - yoe / 100 + doy) in *.
  assert (H0 : 0 <= doe0 <= 146096 /\
     (doe0 - doe0 / 1460 + doe0 / 36524 - doe0 / 146096) / 365 = yoe)
    by (subst doe0; zdiv).
  replace (z + 719468) with (doe0 + era * 146097) by (subst z; lia).
  rewrite Z.div_add by lia.
  rewrite (Z.div_small doe0) by lia.
  replace (doe0 + era * 146097 - (0 + era) * 146097) with doe0 by lia.
  destruct H0 as [_ ->].
  replace (doe0 - (365 * yoe + yoe / 4 - yoe / 100)) with doy by (subst doe0; lia).
  intros <-. reflexivity.
Qed.

(** The date of the day number of a date is that date. *)
Lemma civil_from_days_from_civil y m d :
  1 <= m <= 12 -> 1 <= d <= days_in_month y m ->
  civil_from_days (days_from_civil y m d) = mkDate y m d.
Proof.
  intros Hm Hd.
  unfold days_from_civil; cbv zeta.
  set (y' := if m <=? 2 then y - 1 else y).
  set (era := y' / 400).
  set (yoe := y' - era * 400).
  set (mp := if 2 <? m then m - 3 else m + 9).
  set (doy := (153 * mp + 2) / 5 + d - 1).
  assert (Hyoe : 0 <= yoe <= 399) by (subst yoe era; zdiv).
  pose proof (is_leap_spec y) as Hleap.
  assert (Hy' : y' = yoe + era * 400) by (subst yoe; lia).
  assert (Ey : y' = if m <=? 2 then y - 1 else y) by reflexivity.
  assert (Emp : mp = if 2 <? m then m - 3 else m + 9) by reflexivity.
  assert (Edoy : doy = (153 * mp + 2) / 5 + d - 1) by reflexivity.
  clearbody doy mp yoe era y'.
  assert (Hcases : m = 1 \/ m = 2 \/ m = 3 \/ m = 4 \/ m = 5 \/ m = 6 \/
                   m = 7 \/ m = 8 \/ m = 9 \/ m = 10 \/ m = 11 \/ m = 12) by lia.
  unfold days_in_month in Hd.
  assert (Hdoy : 0 <= doy <= 365 /\ (5 * doy + 2) / 153 = mp /\
                 (doy = 365 -> m = 2 /\ d = 29 /\ is_leap y = true)).
  { clear Hleap.
    destruct Hcases as [->|[->|[->|[->|[->|[->|[->|[->|[->|[->|[->| ->]]]]]]]]]]];
      cbn in Hd, Emp; subst mp; destruct (is_leap y); zdiv. }
  destruct Hdoy as (Hdoy & Hmp & H365).
  rewrite civil_parts; auto.
  - cbv zeta. rewrite Hmp. 
    replace (doy - (153 * mp + 2) / 5 + 1) with d by lia.
    clear Hleap H365 Hdoy Hmp Edoy.
    destruct Hcases as [->|[->|[->|[->|[->|[->|[->|[->|[->|[->|[->| ->]]]]]]]]]]];
      cbn in Emp, Ey; subst mp; cbn; f_equal; lia.
  - intros E; destruct (H365 E) as (-> & -> & L).
    cbn in Ey. apply Hleap in L. zdiv.
Qed.

Lemma civil_valid z : valid (civil_from_days z).
Proof.
  unfold valid, civil_from_days; cbv zeta; cbn [year month day].
  set (z' := z + 719468).
  set (era := z' / 146097).
  set (doe := z' - era * 146097).
  assert (Hdoe : 0 <= doe <= 146096) by (subst doe era; zdiv).
  set (yoe := (doe - doe / 1460 + doe / 36524 - doe / 146096) / 365).
  set (doy := doe - (365 * yoe + yoe / 4 - yoe / 100)).
  assert (Hy : 0 <= yoe <= 399 /\ 0 <= doy <= 365 /\
               (doy = 365 -> (yoe + 1) mod 4 = 0 /\ ((yoe + 1) mod 100 <> 0 \/ yoe = 399)))
    by (subst doy yoe; zdiv).
  destruct Hy as (Hyoe & Hdoy & H365).
  clearbody doy yoe era. clear Hdoe doe z'.
  set (mp := (5 * doy + 2) / 153).
  assert (Hmp : 0 <= mp <= 11) by (subst mp; zdiv).
  set (d := doy - (153 * mp + 2) / 5 + 1).
  assert (Hc : mp = 0 \/ mp = 1 \/ mp = 2 \/ mp = 3 \/ mp = 4 \/ mp = 5 \/
               mp = 6 \/ mp = 7 \/ mp = 8 \/ mp = 9 \/ mp = 10 \/ mp = 11) by lia.
  assert (Hd : 1 <= d <= 31 /\ (mp = 11 -> d <= 29 /\ (d = 29 -> doy = 365)) /\
               ((mp = 1 \/ mp = 3 \/ mp = 6 \/ mp = 8) -> d <= 30))
    by (subst d mp; zdiv).
  clearbody d. 
  pose proof (is_leap_spec (yoe + era * 400 + 1)) as Hleap.
  unfold days_in_month.
  destruct Hc as [E|[E|[E|[E|[E|[E|[E|[E|[E|[E|[E|E]]]]]]]]]]]; rewrite E in *; cbn;
    try lia.
  destruct (is_leap (yoe + era * 400 + 1)) eqn:L; [lia|].
  split; [lia|]. split; [lia|].
  destruct Hd as (_ & Hd & _). destruct (Hd eq_refl) as [Hle H29].
  assert (d = 29 -> False); [|lia].
  intros Hd29. specialize (H365 (H29 Hd29)).
  assert (false = true) by (apply Hleap; clear - H365 Hyoe; zdiv).
  discriminate.
Qed.

(** The day after a date is a date, and its day number is one more. *)
Lemma next_day_spec t :
  valid t ->
  valid (next_day t) /\
  days_from_civil (year (next_day t)) (month (next_day t)) (day (next_day t))
    = days_from_civil (year t) (month t) (day t) + 1.
Proof.
  destruct t as [y m d]; unfold valid, next_day; cbn [year month day].
  intros [Hm Hd].
  destruct (Z.ltb_spec d (days_in_month y m)) as [Hlt|Hge]; cbn [year month day].
  - split; [lia|]. unfold days_from_civil; cbv zeta. lia.
  - assert (Ed : d = days_in_month y m) by lia. clear Hge Hd.
    pose proof (is_leap_spec y) as Hleap.
    destruct (Z.ltb_spec m 12) as [Hm12|Hm12]; cbn [year month day].
    + assert (Hcases : m = 1 \/ m = 2 \/ m = 3 \/ m = 4 \/ m = 5 \/ m = 6 \/
                       m = 7 \/ m = 8 \/ m = 9 \/ m = 10 \/ m = 11) by lia.
      destruct Hcases as [->|[->|[->|[->|[->|[->|[->|[->|[->|[->| ->]]]]]]]]]];
        subst d; unfold days_in_month, days_from_civil; cbv zeta;
        decide_tests; cbn [orb];
        (split; [try destruct (is_leap _); lia|]);
        try (destruct (is_leap y) eqn:L;
             [pose proof (proj1 Hleap eq_refl)
             | assert (~ (y mod 4 = 0 /\ (y mod 100 <> 0 \/ y mod 400 = 0)))
                 by (intros K; apply Hleap in K; discriminate)]);
        clear Hleap; zdiv.
    + assert (m = 12) by lia; subst m d.
      unfold days_in_month, days_from_civil; cbv zeta; decide_tests; cbn [orb].
      split; [lia|]. zdiv.
Qed.

(** One more day is the next day of the calendar. *)
Lemma civil_from_days_succ z :
  civil_from_days (z + 1) = next_day (civil_from_days z).
Proof.
  pose proof (civil_valid z) as V.
  destruct (next_day_spec _ V) as [[Vm Vd] E].
  pose proof (days_from_civil_from_days z) as R; cbv zeta in R. 
  rewrite R in E. rewrite <- E.
  rewrite civil_from_days_from_civil by assumption.
  now destruct (next_day (civil_from_days z)).
Qed.

(* ===================================================================== *)
(** * Dates from day offsets *)
(* ===================================================================== *)

(** The origin of line 56 is day -25569 of the Unix era, and that day is
    1899-12-30. *)
Lemma origin_offset_origin : origin_offset origin = -25569.
Proof. reflexivity. Qed.

Lemma origin_is_a_date :
  valid origin /\ civil_from_days (origin_offset origin) = origin.
Proof.
  split; [unfold valid, origin; cbn; lia|].
  unfold origin_offset, origin; cbn [year month day].
  apply civil_from_days_from_civil; cbn; lia.
Qed.

Lemma date_of_midnight (z : Z) : date_of_ns (z * ns_per_day) = civil_from_days z.
Proof. unfold date_of_ns; now rewrite Z.div_mul. Qed.

Lemma to_numeric_value_coerce (parse : string -> option Q) (c : cell) :
  exists q, to_numeric_value parse errors_coerce c
            = Ok match q with Some x => Num x | None => NA end.
Proof.
  destruct c as [|q|s|b|ns]; simpl.
  - now exists None.
  - now exists (Some q).
  - destruct (parse s) as [q|]; [now exists (Some q) | now exists None].
  - now exists (Some (Q_of_bool b)).
  - now exists (Some (inject_Z ns)).
Qed.

Lemma mapM_Ok {A B : Type} (f : A -> result B) (l : list A) :
  (forall a, In a l -> exists b, f a = Ok b) ->
  exists bs, mapM f l = Ok bs /\ Forall2 (fun a b => f a = Ok b) l bs.
Proof.
  induction l as [|a l IH]; intros H; simpl.
  - exists []; split; [reflexivity | constructor].
  - destruct (H a (or_introl eq_refl)) as [b Hb].
    destruct IH as (bs & Hbs & F); [intros; apply H; now right|].
    exists (b :: bs); rewrite Hb, Hbs; split; [reflexivity | now constructor].
Qed.

Lemma mapM_Forall2 {A B : Type} (f : A -> result B) (l : list A) (bs : list B) :
  mapM f l = Ok bs -> Forall2 (fun a b => f a = Ok b) l bs.
Proof.
  revert bs; induction l as [|a l IH]; simpl; intros bs.
  - intros [= <-]; constructor.
  - destruct (f a) as [b|e] eqn:E; simpl; [|discriminate].
    destruct (mapM f l) as [bs'|e]; simpl; [|discriminate].
    intros [= <-]; constructor; auto.
Qed.

(* ===================================================================== *)
(** * The dashboard: heading and KPIs *)
(* ===================================================================== *)









(** The example frames are the cleaned tables of the example sheets. *)
Example two_branches_cleaned :
  (df <- load_xlsb Inputs.two_branches ;; clean Inputs.no_numeric_strings df)%st
    = ([], Next Inputs.two_branches_df).
Proof. reflexivity. Qed.

Example blank_client_cleaned :
  (df <- load_xlsb Inputs.blank_client ;; clean Inputs.no_numeric_strings df)%st
    = ([], Next Inputs.blank_client_df).
Proof. reflexivity. Qed.



(** The heading does not read [latest_year]: two tables whose latest year
    is computed give the same dashboard for the same quick view. *)
Lemma dashboard_ignores_latest_year (df df' fq : DataFrame) (qc : cell) (y y' : Z) :
  latest_year df = Ok y -> latest_year df' = Ok y' ->
  dashboard df fq qc = dashboard df' fq qc.
Proof. intros H H'; unfold dashboard; now rewrite H, H'. Qed.

Lemma latest_year_no_rows (df : DataFrame) :
  usable df "Year" -> rows df = [] ->
  latest_year df = Raise (ValueError "cannot convert float NaN to integer").
Proof.
  intros U Hrows; unfold latest_year.
  now rewrite (usable_getitem _ _ U), Hrows.
Qed.

(** C10.  When the latest year is computed, the heading is the constant
    ["Data Overview for 2025"] and the year's value is not used: tables with
    different years give the same dashboard.  But the computation of
    line 169 itself can end the run: on a cleaned table without rows the
    maximum of [Year] is NaN, [int] raises [ValueError], and the page ends
    after the title, without the heading.  [Inputs.blank_date] is such an
    upload. *)
Theorem heading_is_constant_unless_latest_year_raises :
  (forall (df df' fq : DataFrame) (qc : cell) (y y' : Z),
      latest_year df = Ok y -> latest_year df' = Ok y' ->
      dashboard df fq qc = dashboard df' fq qc /\
      nth_error (page (dashboard df fq qc)) 1
        = Some (Subheader "Data Overview for 2025")) /\
  (forall (df fq : DataFrame) (qc : cell),
      usable df "Year" -> rows df = [] ->
      dashboard df fq qc
        = ([Title "📊 Sales Dashboard"],
           Uncaught (ValueError "cannot convert float NaN to integer"))) /\
  (ending (script Inputs.no_numeric_strings (Inputs.untouched Inputs.blank_date))
     = Uncaught (ValueError "cannot convert float NaN to integer") /\
   existsb (fun e => match e with
                     | Subheader _ => true
                     | _ => false
                     end)
     (page (script Inputs.no_numeric_strings (Inputs.untouched Inputs.blank_date)))
     = false).
Proof.
  split; [|split].
  - intros df df' fq qc y y' H H'; split.
    + now apply (dashboard_ignores_latest_year df df' fq qc y y').
    + unfold dashboard; rewrite H; simpl.
      destruct (empty fq); simpl; [reflexivity|].
      destruct (getitem fq "USDAmt"); simpl; [|reflexivity].
      destruct (avg_sale _ _); simpl; [|reflexivity].
      destruct (py_ne qc (Str "All Clients")); reflexivity.
  - intros df fq qc U Hrows; unfold dashboard.
    now rewrite (latest_year_no_rows df U Hrows).
  - split; reflexivity.
Qed.

Lemma heading_is_constant_unless_latest_year_raises_witness :
  (dashboard Inputs.two_branches_df Inputs.two_branches_df (Str "All Clients")
     = dashboard Inputs.blank_client_df Inputs.two_branches_df (Str "All Clients") /\
   nth_error (page (dashboard Inputs.two_branches_df Inputs.two_branches_df
                      (Str "All Clients"))) 1
     = Some (Subheader "Data Overview for 2025")) /\
  dashboard (mkDataFrame (columns Inputs.two_branches_df) [])
    (mkDataFrame (columns Inputs.two_branches_df) []) (Str "All Clients")
    = ([Title "📊 Sales Dashboard"],
       Uncaught (ValueError "cannot convert float NaN to integer")).
Proof.
  pose proof heading_is_constant_unless_latest_year_raises as (Hsame & Hraise & _).
  split.
  - exact (Hsame Inputs.two_branches_df Inputs.blank_client_df
             Inputs.two_branches_df (Str "All Clients") 2023 2023 eq_refl eq_refl).
  - exact (Hraise (mkDataFrame (columns Inputs.two_branches_df) [])
             (mkDataFrame (columns Inputs.two_branches_df) []) (Str "All Clients")
             eq_refl eq_refl).
Defined.

(* ===================================================================== *)
(** * Option lists *)
(* ===================================================================== *)

Lemma cell_eqb_refl (c : cell) : cell_eqb c c = true.
Proof.
  destruct c as [|q|s|b|ns]; simpl; auto using Qeq_bool_refl, String.eqb_refl,
    Z.eqb_refl.
  now destruct b.
Qed.

Lemma cell_eqb_NA (c : cell) : notna c = true -> cell_eqb NA c = false.
Proof. now destruct c. Qed.

Lemma existsb_eqb_In (c : cell) (l : list cell) :
  In c l -> existsb (cell_eqb c) l = true.
Proof.
  intros H; apply existsb_exists; exists c; split; [exact H | apply cell_eqb_refl].
Qed.

Lemma unique_acc_sub (seen s : list cell) : incl (unique_acc seen s) s.
Proof.
  revert seen; induction s as [|c s IH]; intros seen; simpl; [apply incl_refl|].
  destruct (existsb (cell_eqb c) seen).
  - apply incl_tl, IH.
  - apply incl_cons; [now left | apply incl_tl, IH].
Qed.

(** Every value of the series is represented among its unique values. *)
Lemma unique_acc_complete (seen s : list cell) (c : cell) :
  In c s ->
  existsb (cell_eqb c) seen = true \/
  existsb (cell_eqb c) (unique_acc seen s) = true.
Proof.
  revert seen; induction s as [|c0 s IH]; intros seen; simpl; [tauto|].
  intros [->|Hin].
  - destruct (existsb (cell_eqb c) seen) eqn:E; [now left|].
    right; simpl; now rewrite cell_eqb_refl.
  - destruct (existsb (cell_eqb c0) seen) eqn:E; [now apply IH|].
    destruct (IH (c0 :: seen) Hin) as [H|H].
    + simpl in H; apply orb_true_iff in H as [H|H]; [|now left].
      right; simpl; now rewrite H.
    + right; simpl; rewrite H; apply orb_true_r.
Qed.

Lemma unique_complete (s : list cell) (c : cell) :
  In c s -> existsb (cell_eqb c) (unique s) = true.
Proof.
  intros H; destruct (unique_acc_complete [] s c H) as [E|E];
    [discriminate | exact E].
Qed.

Lemma insert_perm (x : cell) (l l' : list cell) :
  insert x l = Ok l' -> Permutation (x :: l) l'.
Proof.
  revert l'; induction l as [|y l IH]; simpl; intros l'.
  - intros [= <-]; apply Permutation_refl.
  - destruct (py_lt y x) as [[|]|e]; simpl; try discriminate.
    + destruct (insert x l) as [r|e]; simpl; [|discriminate].
      intros [= <-].
      eapply perm_trans; [apply perm_swap | apply perm_skip, IH; reflexivity].
    + intros [= <-]; apply Permutation_refl.
Qed.

(** [sorted] rearranges: what it returns has the elements it was given. *)
Lemma sorted_perm (l l' : list cell) : sorted l = Ok l' -> Permutation l l'.
Proof.
  revert l'; induction l as [|x l IH]; simpl; intros l'.
  - intros [= <-]; constructor.
  - destruct (sorted l) as [s|e]; simpl; [|discriminate].
    intros H; apply insert_perm in H.
    eapply perm_trans; [apply perm_skip, IH; reflexivity | exact H].
Qed.

(** The options of a column, as lines 81, 99, 109, 130 and 140 compute
    them, are exactly the values of that column that are not missing: each
    option is such a value, and each such value is among the options. *)
Lemma options_of_spec (df : DataFrame) (column : string) (opts : list cell) :
  options_of df column = Ok opts ->
  exists s,
    getitem df column = Ok s /\
    (forall x, In x opts -> In x s /\ notna x = true) /\
    (forall v, In v s -> notna v = true -> existsb (cell_eqb v) opts = true).
Proof.
  unfold options_of.
  destruct (getitem df column) as [s|e]; simpl; [|discriminate].
  intros H; apply sorted_perm in H.
  exists s; split; [reflexivity|]; split.
  - intros x Hx.
    apply (Permutation_in _ (Permutation_sym H)) in Hx.
    apply unique_acc_sub in Hx.
    now apply filter_In in Hx.
  - intros v Hv Hn.
    assert (Hd : In v (dropna s)) by (apply filter_In; auto).
    apply unique_complete in Hd.
    apply existsb_exists in Hd as (x & Hx & E).
    apply existsb_exists; exists x; split; [|exact E].
    now apply (Permutation_in _ H).
Qed.

(** Against such options, [isin] asks whether the value is there at all. *)
Lemma isin_options (s s' : Series) (opts : list cell) :
  (forall x, In x opts -> notna x = true) ->
  (forall v, In v s -> notna v = true -> existsb (cell_eqb v) opts = true) ->
  incl s' s ->
  isin s' opts = map notna s'.
Proof.
  intros Hopts Hall Hsub; unfold isin; apply map_ext_in; intros v Hv.
  destruct (notna v) eqn:E.
  - apply Hall; auto.
  - destruct v; try discriminate.
    destruct (existsb (cell_eqb NA) opts) eqn:X; [|reflexivity].
    apply existsb_exists in X as (x & Hx & Ex).
    now rewrite (cell_eqb_NA x (Hopts x Hx)) in Ex.
Qed.

(** C3.  The Client options are the non-missing clients of the
    branch-filtered rows.  The TBM options are not computed in the same
    way: line 109 reads the TBM column of the full table, so they are the
    non-missing TBMs of every row, whatever the branch selection.  With
    only BranchA picked in [Inputs.two_branches], [T2] is offered although
    no branch-filtered row has it. *)
Theorem tbm_options_come_from_the_full_table :
  (forall (dfb : DataFrame) (opts : list cell),
      client_options dfb = Ok opts ->
      exists c,
        getitem dfb "CustomerName" = Ok c /\
        (forall x, In x opts -> In x c /\ notna x = true) /\
        (forall v, In v c -> notna v = true -> existsb (cell_eqb v) opts = true)) /\
  (forall (df : DataFrame) (opts : list cell),
      tbm_options df = Ok opts ->
      exists t,
        getitem df "TBM" = Ok t /\
        (forall x, In x opts -> In x t /\ notna x = true) /\
        (forall v, In v t -> notna v = true -> existsb (cell_eqb v) opts = true)) /\
  (exists dfb,
      df_branch_filtered Inputs.two_branches_df [Str "BranchA"] = Ok dfb /\
      getitem dfb "TBM" = Ok [Str "T1"] /\
      client_options dfb = Ok [Str "ClientX"] /\
      tbm_options Inputs.two_branches_df = Ok [Str "T1"; Str "T2"]) /\
  In (Multiselect "Select TBM (Dashboard)" [Str "T1"; Str "T2"] [Str "T1"; Str "T2"])
     (page (script Inputs.no_numeric_strings Inputs.first_branch_picked)) /\
  In (Multiselect "Select Client (Dashboard)" [Str "ClientX"] [Str "ClientX"])
     (page (script Inputs.no_numeric_strings Inputs.first_branch_picked)).
Proof.
  split; [|split; [|split; [|split]]].
  - intros dfb opts; apply options_of_spec.
  - intros df opts; apply options_of_spec.
  - eexists; repeat split; reflexivity.
  - vm_compute; tauto.
  - vm_compute; tauto.
Qed.

Lemma tbm_options_come_from_the_full_table_witness :
  exists t,
    getitem Inputs.two_branches_df "TBM" = Ok t /\
    (forall x, In x [Str "T1"; Str "T2"] -> In x t /\ notna x = true) /\
    (forall v, In v t -> notna v = true ->
               existsb (cell_eqb v) [Str "T1"; Str "T2"] = true).
Proof.
  exact (proj1 (proj2 tbm_options_come_from_the_full_table)
           Inputs.two_branches_df [Str "T1"; Str "T2"] eq_refl).
Defined.

(* ===================================================================== *)
(** * Reading and writing columns *)
(* ===================================================================== *)

Lemma label_eqb_true (n : string) (c : cell) : label_eqb n c = true <-> c = Str n.
Proof.
  unfold label_eqb; destruct c as [|q|s|b|ns]; simpl; split; try discriminate.
  - intros H; apply String.eqb_eq in H; now subst.
  - intros [= ->]; apply String.eqb_refl.
Qed.

Lemma label_eqb_other (n n' : string) (c : cell) :
  n <> n' -> label_eqb n c = true -> label_eqb n' c = false.
Proof.
  intros Hne H; apply label_eqb_true in H; subst c.
  unfold label_eqb; simpl; apply String.eqb_neq; congruence.
Qed.

Lemma count_app_same (n : string) (cols : list cell) :
  count n (cols ++ [Str n]) = S (count n cols).
Proof.
  induction cols as [|c cols IH]; simpl.
  - now rewrite (proj2 (label_eqb_true n (Str n)) eq_refl).
  - destruct (label_eqb n c); now rewrite IH.
Qed.

Lemma count_app_other (n n' : string) (cols : list cell) :
  n <> n' -> count n' (cols ++ [Str n]) = count n' cols.
Proof.
  intros Hne; induction cols as [|c cols IH]; simpl.
  - now rewrite (label_eqb_other n n' (Str n) Hne (proj2 (label_eqb_true n _) eq_refl)).
  - destruct (label_eqb n' c); now rewrite IH.
Qed.

Lemma at_label_set_same (n : string) (cols r : list cell) (x : cell) :
  (0 < count n cols)%nat -> List.length r = List.length cols ->
  at_label n cols (set_in_row n cols r x) = x.
Proof.
  revert r; induction cols as [|c cols IH]; intros [|y r]; simpl;
    try lia; try discriminate.
  destruct (label_eqb n c) eqn:E; simpl; rewrite ?E; [reflexivity|].
  intros Hc [= Hl]; now apply IH.
Qed.

Lemma at_label_set_other (n n' : string) (cols r : list cell) (x : cell) :
  n <> n' -> at_label n' cols (set_in_row n cols r x) = at_label n' cols r.
Proof.
  intros Hne; revert r; induction cols as [|c cols IH]; intros [|y r]; simpl; auto.
  destruct (label_eqb n' c) eqn:E'; [|apply IH].
  destruct (label_eqb n c) eqn:E; [|reflexivity].
  now rewrite (label_eqb_other n n' c Hne E) in E'.
Qed.

Lemma at_label_app_same (n : string) (cols r : list cell) (x : cell) :
  count n cols = 0%nat -> List.length r = List.length cols ->
  at_label n (cols ++ [Str n]) (r ++ [x]) = x.
Proof.
  revert r; induction cols as [|c cols IH]; intros [|y r]; simpl; try discriminate.
  - now rewrite (proj2 (label_eqb_true n (Str n)) eq_refl).
  - destruct (label_eqb n c); [discriminate|].
    intros Hc [= Hl]; now apply IH.
Qed.

Lemma at_label_app_other (n n' : string) (cols r : list cell) (x : cell) :
  n <> n' -> List.length r = List.length cols ->
  at_label n' (cols ++ [Str n]) (r ++ [x]) = at_label n' cols r.
Proof.
  intros Hne; revert r; induction cols as [|c cols IH]; intros [|y r]; simpl;
    try discriminate.
  - now rewrite (label_eqb_other n n' (Str n) Hne (proj2 (label_eqb_true n _) eq_refl)).
  - destruct (label_eqb n' c); [reflexivity|].
    intros [= Hl]; now apply IH.
Qed.

Lemma length_set_in_row (n : string) (cols r : list cell) (x : cell) :
  List.length (set_in_row n cols r x) = List.length r.
Proof.
  revert r; induction cols as [|c cols IH]; intros [|y r]; simpl; auto.
Qed.

Lemma map_combine_fst {A B C : Type} (f : A -> C) (l : list A) (v : list B) :
  List.length v = List.length l ->
  map (fun rv => f (fst rv)) (combine l v) = map f l.
Proof.
  revert v; induction l as [|a l IH]; intros [|b v]; simpl; try discriminate; auto.
  intros [= H]; now rewrite IH.
Qed.

Lemma map_combine_snd {A B : Type} (h : A * B -> B) (l : list A) (v : list B) :
  (forall a b, In a l -> h (a, b) = b) ->
  List.length v = List.length l ->
  map h (combine l v) = v.
Proof.
  revert v; induction l as [|a l IH]; intros [|b v] Hh; simpl; try discriminate; auto.
  intros [= H]; rewrite Hh by now left.
  f_equal; apply IH; auto; intros; apply Hh; now right.
Qed.

Lemma getitem_length (df : DataFrame) (n : string) (s : Series) :
  getitem df n = Ok s -> List.length s = List.length (rows df).
Proof.
  unfold getitem; destruct (count n (columns df)) as [|[|k]]; try discriminate.
  intros [= <-]; apply length_map.
Qed.

Lemma rows_setitem_length (df : DataFrame) (n : string) (v : Series) :
  List.length v = List.length (rows df) ->
  List.length (rows (setitem df n v)) = List.length (rows df).
Proof.
  intros H; unfold setitem; destruct (has_column df n); simpl;
    rewrite length_map, length_combine; lia.
Qed.

Lemma rectangular_setitem (df : DataFrame) (n : string) (v : Series) :
  rectangular df -> rectangular (setitem df n v).
Proof.
  unfold rectangular, setitem; intros R.
  rewrite Forall_forall in R.
  destruct (has_column df n); simpl; apply Forall_forall; intros r Hr;
    apply in_map_iff in Hr as ([r0 x] & <- & Hin); apply in_combine_l in Hin;
    simpl.
  - rewrite length_set_in_row; now apply R.
  - rewrite !length_app; simpl; rewrite (R r0 Hin); reflexivity.
Qed.

Lemma has_column_pos (df : DataFrame) (n : string) :
  has_column df n = true -> (0 < count n (columns df))%nat.
Proof.
  intros H; destruct (count n (columns df)) eqn:E; [|lia].
  apply has_column_count in E; congruence.
Qed.

(** What was written under a label is what is read back. *)
Lemma getitem_setitem_same (df : DataFrame) (n : string) (v s : Series) :
  rectangular df -> List.length v = List.length (rows df) ->
  getitem (setitem df n v) n = Ok s -> s = v.
Proof.
  intros R Hlen; unfold rectangular in R; rewrite Forall_forall in R.
  unfold getitem, setitem.
  destruct (has_column df n) eqn:E; simpl.
  - destruct (count n (columns df)) as [|[|k]] eqn:C; try discriminate.
    intros [= <-]; rewrite map_map.
    apply map_combine_snd; auto.
    intros r x Hr; simpl; apply at_label_set_same; [lia | now apply R].
  - apply has_column_count in E.
    rewrite count_app_same, E.
    intros [= <-]; rewrite map_map.
    apply map_combine_snd; auto.
    intros r x Hr; simpl; apply at_label_app_same; [exact E | now apply R].
Qed.

(** Writing under one label leaves the columns of the other labels. *)
Lemma getitem_setitem_other (df : DataFrame) (n n' : string) (v : Series) :
  n <> n' -> rectangular df -> List.length v = List.length (rows df) ->
  getitem (setitem df n v) n' = getitem df n'.
Proof.
  intros Hne R Hlen; unfold rectangular in R; rewrite Forall_forall in R.
  unfold getitem, setitem.
  destruct (has_column df n) eqn:E; simpl.
  - destruct (count n' (columns df)) as [|[|k]]; auto.
    f_equal; rewrite map_map.
    rewrite <- (map_combine_fst (at_label n' (columns df)) (rows df) v Hlen).
    apply map_ext; intros [r x]; simpl; now apply at_label_set_other.
  - rewrite (count_app_other n n' _ Hne).
    destruct (count n' (columns df)) as [|[|k]]; auto.
    f_equal; rewrite map_map.
    rewrite <- (map_combine_fst (at_label n' (columns df)) (rows df) v Hlen).
    apply map_ext_in; intros [r x] Hin; simpl.
    apply in_combine_l in Hin.
    apply at_label_app_other; [exact Hne | now apply R].
Qed.

Lemma usable_setitem (df : DataFrame) (n : string) (v s : Series) :
  getitem df n = Ok s -> usable (setitem df n v) n.
Proof.
  intros H; unfold usable, setitem.
  rewrite (getitem_present _ _ _ H); simpl.
  now apply getitem_Ok_usable in H.
Qed.

Lemma dropna_subset_Ok (df df' : DataFrame) (subset : list string) :
  dropna_subset df subset = Ok df' ->
  columns df' = columns df /\
  rows df' = filter (fun r => negb (row_isna subset (columns df) r)) (rows df).
Proof.
  unfold dropna_subset.
  destruct (filter _ subset); [|discriminate].
  intros [= <-]; split; reflexivity.
Qed.

Lemma rectangular_dropna (df df' : DataFrame) (subset : list string) :
  rectangular df -> dropna_subset df subset = Ok df' -> rectangular df'.
Proof.
  intros R H; apply dropna_subset_Ok in H as [Hc Hr].
  unfold rectangular in *; rewrite Hc, Hr.
  rewrite Forall_forall in *; intros r Hin; apply filter_In in Hin as [Hin _]; auto.
Qed.

Lemma row_isna_at_label (subset : list string) (n : string) (cols r : list cell) :
  In n subset -> (0 < count n cols)%nat -> List.length r = List.length cols ->
  row_isna subset cols r = false -> notna (at_label n cols r) = true.
Proof.
  intros Hn; revert r; induction cols as [|c cols IH]; intros [|y r]; simpl;
    try lia; try discriminate.
  intros Hc [= Hl] H; apply orb_false_iff in H as [H1 H2].
  destruct (label_eqb n c) eqn:E.
  - assert (X : existsb (fun n0 => label_eqb n0 c) subset = true)
      by (apply existsb_exists; eauto).
    rewrite X in H1; simpl in H1; unfold notna; now rewrite H1.
  - now apply IH.
Qed.

(** After [dropna(subset=...)] a column of the subset has no missing value,
    and its values are values of the column before. *)
Lemma getitem_dropna (df df' : DataFrame) (subset : list string) (n : string)
    (s s' : Series) :
  rectangular df -> In n subset ->
  dropna_subset df subset = Ok df' ->
  getitem df n = Ok s -> getitem df' n = Ok s' ->
  Forall (fun c => notna c = true) s' /\ incl s' s.
Proof.
  intros R Hn Hd Hs Hs'.
  apply dropna_subset_Ok in Hd as [Hc Hr].
  pose proof (getitem_Ok_usable _ _ _ Hs) as U.
  rewrite (usable_getitem _ _ U) in Hs; injection Hs as <-.
  assert (U' : usable df' n) by (unfold usable; now rewrite Hc).
  rewrite (usable_getitem _ _ U') in Hs'; injection Hs' as <-.
  rewrite Hc, Hr.
  unfold rectangular in R; rewrite Forall_forall in R.
  split.
  - apply Forall_forall; intros c Hin.
    apply in_map_iff in Hin as (r & <- & Hin).
    apply filter_In in Hin as [Hin Hna].
    apply (row_isna_at_label subset); auto.
    + unfold usable in U; lia.
    + now apply negb_true_iff in Hna.
  - intros c Hin.
    apply in_map_iff in Hin as (r & <- & Hin).
    apply filter_In in Hin as [Hin _].
    now apply in_map.
Qed.

(* ===================================================================== *)
(** * The cleaned table *)
(* ===================================================================== *)

Lemma width_ge (rs : list (list cell)) (r : list cell) :
  In r rs -> (List.length r <= width rs)%nat.
Proof.
  induction rs as [|r0 rs IH]; simpl; [tauto|].
  intros [->|H]; [lia | specialize (IH H); lia].
Qed.

Lemma length_pad (w : nat) (r : list cell) :
  (List.length r <= w)%nat -> List.length (pad w r) = w.
Proof. intros H; unfold pad; rewrite length_app, repeat_length; lia. Qed.

(** The loader hands back a frame whose rows are as wide as its labels. *)
Lemma load_xlsb_rectangular (file : upload) (out : list element) (df : DataFrame) :
  load_xlsb file = (out, Next df) -> rectangular df.
Proof.
  unfold load_xlsb.
  destruct (read_rows file) as [[|h data]|e]; simpl; intros [= _ <-];
    try (now constructor).
  unfold rectangular; simpl; apply Forall_forall; intros r Hr.
  apply in_map_iff in Hr as (r0 & <- & Hin).
  rewrite !length_pad; auto.
  - pose proof (width_ge (h :: data) h (or_introl eq_refl)); simpl in *; lia.
  - pose proof (width_ge (h :: data) r0 (or_intror Hin)); simpl in *; lia.
Qed.

Lemma bind_Ok {A B : Type} (r : result A) (k : A -> result B) (b : B) :
  (a <- r ;; k a) = Ok b -> exists a, r = Ok a /\ k a = Ok b.
Proof. destruct r as [a|e]; simpl; [eauto | discriminate]. Qed.

Lemma then_eval_Next {A B : Type} (r : result A) (k : A -> st B)
    (out : list element) (b : B) :
  then_ (eval r) k = (out, Next b) -> exists a, r = Ok a /\ k a = (out, Next b).
Proof.
  destruct r as [a|e]; simpl; [|discriminate].
  destruct (k a) as [out' f] eqn:E; simpl; intros [= -> ->].
  exists a; split; [reflexivity | exact E].
Qed.

Lemma then_eval_ret {A B C : Type} (r : result A) (f : A -> B) (k : B -> st C) :
  then_ (then_ (eval r) (fun a => ret (f a))) k = then_ (eval r) (fun a => k (f a)).
Proof.
  destruct r as [a|e]; simpl; [|reflexivity].
  now destruct (k (f a)).
Qed.

Lemma mapM_length {A B : Type} (f : A -> result B) (l : list A) (bs : list B) :
  mapM f l = Ok bs -> List.length bs = List.length l.
Proof.
  intros H; apply mapM_Forall2 in H.
  induction H; simpl; auto.
Qed.

(** A date that is not missing is a timestamp, and its month has a name
    in [month_order]. *)
Lemma to_datetime_cells (s dates : Series) :
  to_datetime origin errors_coerce s = Ok dates ->
  Forall (fun c => c = NA \/ exists ns, c = Timestamp ns) dates.
Proof.
  intros H; apply mapM_Forall2 in H.
  induction H as [|c r s dates E F IH]; constructor; auto.
  destruct c; cbn -[wrap_int64 Z.eqb] in E; try discriminate.
  - injection E as <-; now left.
  - destruct (fits_int64 _); [|discriminate].
    destruct (fits_int64 _); [|injection E as <-; now left].
    destruct (_ =? _); injection E as <-; [now left | right; eauto].
Qed.

Lemma month_name_in_month_order (ns : Z) :
  exists name,
    nth_error month_names (Z.to_nat (month (date_of_ns ns) - 1)) = Some name /\
    In (Str name) month_order.
Proof.
  unfold date_of_ns.
  destruct (civil_valid (ns / ns_per_day)) as [Hm _].
  set (m := month (civil_from_days (ns / ns_per_day))) in *.
  assert (Hc : m = 1 \/ m = 2 \/ m = 3 \/ m = 4 \/ m = 5 \/ m = 6 \/
               m = 7 \/ m = 8 \/ m = 9 \/ m = 10 \/ m = 11 \/ m = 12) by lia.
  destruct Hc as [->|[->|[->|[->|[->|[->|[->|[->|[->|[->|[->| ->]]]]]]]]]]];
    eexists; (split; [reflexivity | simpl; tauto]).
Qed.

Lemma dt_month_name_in_month_order (d : Series) :
  Forall (fun c => exists ns, c = Timestamp ns) d ->
  Forall (fun c => In c month_order) (dt_month_name d).
Proof.
  unfold dt_month_name.
  intros H; induction H as [|c d [ns ->] _ IH]; cbn [map]; constructor; auto.
  destruct (month_name_in_month_order ns) as (name & -> & Hin); exact Hin.
Qed.

Lemma Categorical_keeps (s : Series) (categories : list cell) :
  Forall (fun c => In c categories) s -> Categorical s categories = s.
Proof.
  intros H; induction H as [|c s Hc _ IH]; simpl; [reflexivity|].
  now rewrite (existsb_eqb_In c categories Hc), IH.
Qed.

Section Cleaned.
Variable str_to_float : string -> option Q.

(** The table that leaves lines 51-73 is rectangular and its [Month]
    column holds names of [month_order] only. *)
Lemma clean_Month (raw df : DataFrame) (out : list element) :
  rectangular raw ->
  clean str_to_float raw = (out, Next df) ->
  rectangular df /\
  exists m, getitem df "Month" = Ok m /\ Forall (fun c => In c month_order) m.
Proof.
  intros R0 H; unfold clean in H.
  apply then_eval_Next in H as (dt & E1 & H); cbv beta zeta in H.
  apply bind_Ok in E1 as (s0 & G0 & N0).
  apply then_eval_Next in H as (usd & E2 & H); cbv beta zeta in H.
  apply bind_Ok in E2 as (u0 & G1 & N1).
  set (df1 := setitem raw "DT" dt) in *.
  set (df2 := setitem df1 "USDAmt" usd) in *.
  assert (L0 : List.length dt = List.length (rows raw))
    by (rewrite (mapM_length _ _ _ N0); eapply getitem_length; eauto).
  assert (R1 : rectangular df1) by now apply rectangular_setitem.
  assert (L1 : List.length usd = List.length (rows df1))
    by (rewrite (mapM_length _ _ _ N1); eapply getitem_length; eauto).
  assert (R2 : rectangular df2) by now apply rectangular_setitem.
  assert (HDT : has_column df2 "DT" = true)
    by (apply has_column_setitem, has_column_setitem; eapply getitem_present; eauto).
  rewrite HDT, then_eval_ret in H.
  apply then_eval_Next in H as (date & E3 & H); cbv beta zeta in H.
  apply bind_Ok in E3 as (dt2 & G2 & D).
  set (df3 := setitem df2 "Date" date) in *.
  assert (L2 : List.length date = List.length (rows df2))
    by (rewrite (mapM_length _ _ _ D); eapply getitem_length; eauto).
  assert (R3 : rectangular df3) by now apply rectangular_setitem.
  apply then_eval_Next in H as (df4 & E4 & H); cbv beta zeta in H.
  assert (R4 : rectangular df4) by (eapply rectangular_dropna; eauto).
  apply then_eval_Next in H as (year & E5 & H); cbv beta zeta in H.
  apply bind_Ok in E5 as (d & G4 & [= <-]).
  apply then_eval_Next in H as (month & E6 & H); cbv beta zeta in H.
  apply bind_Ok in E6 as (d' & G5 & [= <-]).
  apply then_eval_Next in H as (month & E7 & H); cbv beta zeta in H.
  apply bind_Ok in E7 as (m1 & G6 & [= <-]).
  injection H as _ <-.
  set (df5 := setitem df4 "Year" (dt_year d)) in *.
  set (df6 := setitem df5 "Month" (dt_month_name d')) in *.
  assert (L4 : List.length (dt_year d) = List.length (rows df4))
    by (unfold dt_year; rewrite length_map; eapply getitem_length; eauto).
  assert (R5 : rectangular df5) by now apply rectangular_setitem.
  assert (L5 : List.length (dt_month_name d') = List.length (rows df5))
    by (unfold dt_month_name; rewrite length_map; eapply getitem_length; eauto).
  assert (R6 : rectangular df6) by now apply rectangular_setitem.
  (* the dates read at line 66 are those of line 65 *)
  unfold df5 in G5; rewrite getitem_setitem_other in G5 by (auto; discriminate).
  rewrite G4 in G5; injection G5 as <-.
  (* they are timestamps *)
  assert (T : Forall (fun c => exists ns, c = Timestamp ns) d).
  { assert (G3 : exists d3, getitem df3 "Date" = Ok d3).
    { pose proof (getitem_Ok_usable _ _ _ G4) as U.
      apply dropna_subset_Ok in E4 as [Hc _].
      unfold usable in U; rewrite Hc in U.
      eexists; apply usable_getitem; exact U. }
    destruct G3 as [d3 G3].
    pose proof (getitem_setitem_same df2 "Date" date d3 R2 L2 G3) as ->.
    destruct (getitem_dropna df3 df4 ["Date"; "USDAmt"] "Date" date d R3
                (or_introl eq_refl) E4 G3 G4) as [Hna Hsub].
    pose proof (to_datetime_cells _ _ D) as Hcells.
    rewrite Forall_forall in *; intros c Hc.
    destruct (Hcells c (Hsub c Hc)) as [->|K]; [|exact K].
    specialize (Hna NA Hc); discriminate. }
  pose proof (dt_month_name_in_month_order d T) as M.
  pose proof (getitem_setitem_same df5 "Month" _ m1 R5 L5 G6) as ->.
  rewrite (Categorical_keeps _ _ M).
  split; [now apply rectangular_setitem|].
  exists (dt_month_name d); split; [|exact M].
  pose proof (usable_setitem df6 "Month" (dt_month_name d) _ G6) as U.
  rewrite (usable_getitem _ _ U).
  pose proof (getitem_setitem_same df6 "Month" (dt_month_name d)
                (map (at_label "Month" (columns (setitem df6 "Month" (dt_month_name d))))
                     (rows (setitem df6 "Month" (dt_month_name d)))) R6) as X.
  rewrite X; [reflexivity | | now apply usable_getitem].
  unfold df6; rewrite (rows_setitem_length df5) by exact L5. exact L5.
Qed.

End Cleaned.

(* ===================================================================== *)
(** * Everything selected *)
(* ===================================================================== *)

Lemma mask_and_true_r (m1 m2 : list bool) :
  List.length m2 = List.length m1 -> Forall (fun b => b = true) m2 ->
  mask_and m1 m2 = m1.
Proof.
  intros Hlen H; revert m1 Hlen.
  induction H as [|b m2 -> _ IH]; intros [|a m1]; simpl; try discriminate; auto.
  intros [= Hlen]; now rewrite andb_true_r, IH.
Qed.

Lemma isin_all (s : Series) (values : list cell) :
  Forall (fun c => In c values) s -> Forall (fun b => b = true) (isin s values).
Proof.
  intros H; induction H as [|c s Hc _ IH]; simpl; constructor; auto.
  now apply existsb_eqb_In.
Qed.

Lemma Forall_select {A : Type} (P : A -> Prop) (l : list A) (mask : list bool) :
  Forall P l -> Forall P (select l mask).
Proof.
  intros H; apply Forall_forall; intros x Hx.
  rewrite Forall_forall in H; apply H; now apply (select_incl l mask).
Qed.

Lemma map_notna_all (s : Series) :
  Forall (fun x => notna x = true) s -> Forall (fun b => b = true) (map notna s).
Proof. intros H; induction H; simpl; constructor; auto. Qed.

Section SelectAll.
Variable str_to_float : string -> option Q.

(** C4, as the script has it.  On the cleaned table of an upload, with the
    Month, Client and TBM selections equal to their full option lists
    (whatever the branches selected), the dashboard view is made of the
    branch-filtered rows that have a client and a TBM: the option lists are
    built after [dropna()], so a row whose [CustomerName] or [TBM] is
    missing matches no option.  No row is excluded by the Month test, and
    when no branch-filtered row lacks a client or a TBM the view is the
    branch-filtered table. *)
Theorem select_all_keeps_the_rows_with_client_and_TBM :
  forall (file : upload) (out0 out : list element) (raw df dfb : DataFrame)
         (selected_branch client_opts tbm_opts : list cell),
    load_xlsb file = (out0, Next raw) ->
    clean str_to_float raw = (out, Next df) ->
    df_branch_filtered df selected_branch = Ok dfb ->
    client_options dfb = Ok client_opts ->
    tbm_options df = Ok tbm_opts ->
    exists c t,
      getitem dfb "CustomerName" = Ok c /\
      getitem dfb "TBM" = Ok t /\
      filtered_df_dashboard dfb client_opts month_order tbm_opts
        = Ok (loc dfb (mask_and (map notna c) (map notna t))) /\
      (Forall (fun x => notna x = true) c ->
       Forall (fun x => notna x = true) t ->
       filtered_df_dashboard dfb client_opts month_order tbm_opts = Ok dfb).
Proof.
  intros file out0 out raw df dfb sb co to Hload Hclean Hb Hco Hto.
  pose proof (load_xlsb_rectangular _ _ _ Hload) as R0.
  destruct (clean_Month str_to_float raw df out R0 Hclean) as (R & m & Gm & Hm).
  apply df_branch_filtered_Ok in Hb as (b & Gb & ->).
  destruct (options_of_spec _ _ _ Hco) as (c & Gc & Hc1 & Hc2).
  destruct (options_of_spec _ _ _ Hto) as (t0 & Gt0 & Ht1 & Ht2).
  set (mask := isin b sb) in *.
  assert (Gt : getitem (loc df mask) "TBM" = Ok (select t0 mask))
    by (rewrite getitem_loc, Gt0; reflexivity).
  assert (Gm' : getitem (loc df mask) "Month" = Ok (select m mask))
    by (rewrite getitem_loc, Gm; reflexivity).
  assert (View : filtered_df_dashboard (loc df mask) co month_order to
                 = Ok (loc (loc df mask)
                         (mask_and (map notna c) (map notna (select t0 mask))))).
  { unfold filtered_df_dashboard; rewrite Gc, Gm', Gt; simpl.
    rewrite (isin_options c c co); [| intros x Hx; apply Hc1, Hx | exact Hc2
                                   | apply incl_refl].
    rewrite (isin_options t0 (select t0 mask) to);
      [| intros x Hx; apply Ht1, Hx | exact Ht2 | apply select_incl].
    rewrite (mask_and_true_r (map notna c) (isin (select m mask) month_order));
      [reflexivity | | apply isin_all, Forall_select, Hm].
    unfold isin; rewrite !length_map.
    rewrite (getitem_length _ _ _ Gm'), (getitem_length _ _ _ Gc); reflexivity. }
  exists c, (select t0 mask); repeat split; auto.
  intros Hc Ht; rewrite View; f_equal.
  rewrite (frame_eta (loc df mask)) at 2.
  unfold loc at 1; simpl; f_equal.
  apply select_all.
  - rewrite (mask_and_true_r (map notna c)); [| | now apply map_notna_all].
    + rewrite length_map; apply (getitem_length _ _ _ Gc).
    + rewrite !length_map.
      rewrite (getitem_length _ _ _ Gt), (getitem_length _ _ _ Gc); reflexivity.
  - rewrite (mask_and_true_r (map notna c)); [now apply map_notna_all | |
                                              now apply map_notna_all].
    rewrite !length_map.
    rewrite (getitem_length _ _ _ Gt), (getitem_length _ _ _ Gc); reflexivity.
Qed.

End SelectAll.

Lemma select_all_keeps_the_rows_with_client_and_TBM_witness :
  exists c t,
    getitem Inputs.blank_client_df "CustomerName" = Ok c /\
    getitem Inputs.blank_client_df "TBM" = Ok t /\
    filtered_df_dashboard Inputs.blank_client_df [Str "ClientX"] month_order
      [Str "T1"]
      = Ok (loc Inputs.blank_client_df (mask_and (map notna c) (map notna t))) /\
    (Forall (fun x => notna x = true) c ->
     Forall (fun x => notna x = true) t ->
     filtered_df_dashboard Inputs.blank_client_df [Str "ClientX"] month_order
       [Str "T1"] = Ok Inputs.blank_client_df).
Proof.
  exact (select_all_keeps_the_rows_with_client_and_TBM Inputs.no_numeric_strings
           Inputs.blank_client [] []
           (mkDataFrame Inputs.header
              [[Num 45000; Num 100; Str "BranchA"; Str "ClientX"; Str "T1"];
               [Num 45001; Num 250; Str "BranchA"; NA; Str "T1"]])
           Inputs.blank_client_df Inputs.blank_client_df
           [Str "BranchA"] [Str "ClientX"] [Str "T1"]
           eq_refl eq_refl eq_refl eq_refl eq_refl).
Defined.

(** Everything selected on the cleaned table of [Inputs.blank_client]: the
    two rows are in the selected branch, and the dashboard view has lost
    the one whose client is blank. *)
Lemma select_all_drops_the_row_without_client :
  branch_options Inputs.blank_client_df = Ok [Str "BranchA"] /\
  df_branch_filtered Inputs.blank_client_df [Str "BranchA"]
    = Ok Inputs.blank_client_df /\
  client_options Inputs.blank_client_df = Ok [Str "ClientX"] /\
  tbm_options Inputs.blank_client_df = Ok [Str "T1"] /\
  filtered_df_dashboard Inputs.blank_client_df [Str "ClientX"] month_order
    [Str "T1"]
    = Ok (mkDataFrame (columns Inputs.blank_client_df)
            [[Num 45000; Num 100; Str "BranchA"; Str "ClientX"; Str "T1";
              Timestamp 1678838400000000000; Num 2023; Str "March"]]) /\
  filtered_df_dashboard Inputs.blank_client_df [Str "ClientX"] month_order
    [Str "T1"] <> Ok Inputs.blank_client_df.
Proof.
  repeat split; try reflexivity.
  vm_compute; discriminate.
Qed.

(* ===================================================================== *)
(** * More of the script: upload, loading, cleaning *)
(* ===================================================================== *)

Import Rowwise.

Section Upload.
Variable str_to_float : string -> option Q.

(** X1.  A run without data stops before the cleaning stage.  Without an
    upload the page asks for one; when reading the workbook raises, or the
    sheet has no row at all, the page shows the loader's error and then
    "No data loaded from XLSB."; when the sheet has a header and no data
    row the page shows that warning alone.  In each case the run ends with
    [st.stop()]: no filter, title or KPI is drawn and no exception leaves
    the script. *)
Theorem run_stops_without_data :
  forall ui : widgets,
    (xlsb_file ui = None ->
     script str_to_float ui
       = ([SidebarHeader "Upload XLSB File"; FileUploader "Upload your XLSB file";
           Warning "Please upload an XLSB file to continue."], Stopped)) /\
    (forall file e,
        xlsb_file ui = Some file ->
        read_rows file = Raise e ->
        script str_to_float ui
          = ([SidebarHeader "Upload XLSB File";
              FileUploader "Upload your XLSB file";
              Error ("Error loading XLSB file: " ++ exn_str e)%string;
              Warning "No data loaded from XLSB."], Stopped)) /\
    (forall file,
        xlsb_file ui = Some file ->
        read_rows file = Ok [] ->
        script str_to_float ui
          = ([SidebarHeader "Upload XLSB File";
              FileUploader "Upload your XLSB file";
              Error "Error loading XLSB file: single positional indexer is out-of-bounds";
              Warning "No data loaded from XLSB."], Stopped)) /\
    (forall file header,
        xlsb_file ui = Some file ->
        read_rows file = Ok [header] ->
        script str_to_float ui
          = ([SidebarHeader "Upload XLSB File";
              FileUploader "Upload your XLSB file";
              Warning "No data loaded from XLSB."], Stopped)).
Proof.
  intros ui; repeat split.
  - intros H; unfold script; now rewrite H.
  - intros file e Hf Hr; unfold script, load_xlsb; rewrite Hf, Hr; reflexivity.
  - intros file Hf Hr; unfold script, load_xlsb; rewrite Hf, Hr; reflexivity.
  - intros file header Hf Hr; unfold script, load_xlsb; rewrite Hf, Hr; simpl.
    unfold empty; simpl. now destruct (pad _ header).
Qed.

(** X3.  The cleaning stage draws nothing and never stops the run: it
    ends with the cleaned table or with an uncaught exception.  In
    particular the message and the [st.stop()] of lines 58-59 are out of
    reach. *)
Theorem clean_is_silent_and_never_stops :
  forall df : DataFrame,
    page (clean str_to_float df) = [] /\
    ending (clean str_to_float df) <> Stopped.
Proof.
  intros df; unfold clean.
  destruct (getitem df "DT") as [dt|e] eqn:Edt; simpl; [|split; [auto|discriminate]].
  destruct (to_numeric str_to_float errors_coerce dt) as [dt'|e]; simpl;
    [|split; [auto|discriminate]].
  destruct (getitem (setitem df "DT" dt') "USDAmt") as [usd|e]; simpl;
    [|split; [auto|discriminate]].
  destruct (to_numeric str_to_float errors_coerce usd) as [usd'|e]; simpl;
    [|split; [auto|discriminate]].
  rewrite has_column_setitem
    by (apply has_column_setitem; eapply getitem_present; eauto).
  set (df2 := setitem (setitem df "DT" dt') "USDAmt" usd').
  destruct (getitem df2 "DT") as [dt2|e]; simpl; [|split; [auto|discriminate]].
  destruct (to_datetime origin errors_coerce dt2) as [date|e]; simpl;
    [|split; [auto|discriminate]].
  destruct (dropna_subset _ _) as [df3|e]; simpl; [|split; [auto|discriminate]].
  destruct (getitem df3 "Date") as [d|e]; simpl; [|split; [auto|discriminate]].
  destruct (getitem (setitem df3 "Year" (dt_year d)) "Date") as [d'|e]; simpl;
    [|split; [auto|discriminate]].
  destruct (getitem _ "Month") as [m|e]; simpl; split; auto; discriminate.
Qed.

End Upload.

Lemma run_stops_without_data_witness :
  script Inputs.no_numeric_strings
    (Inputs.untouched (Unreadable (DecodeError "File is not a zip file")))
    = ([SidebarHeader "Upload XLSB File"; FileUploader "Upload your XLSB file";
        Error "Error loading XLSB file: File is not a zip file";
        Warning "No data loaded from XLSB."], Stopped) /\
  script Inputs.no_numeric_strings (Inputs.untouched (Sheet [Inputs.header] None))
    = ([SidebarHeader "Upload XLSB File"; FileUploader "Upload your XLSB file";
        Warning "No data loaded from XLSB."], Stopped).
Proof.
  split.
  - exact (proj1 (proj2 (run_stops_without_data Inputs.no_numeric_strings
                           (Inputs.untouched
                              (Unreadable (DecodeError "File is not a zip file")))))
             _ (DecodeError "File is not a zip file") eq_refl eq_refl).
  - exact (proj2 (proj2 (proj2 (run_stops_without_data Inputs.no_numeric_strings
                                  (Inputs.untouched (Sheet [Inputs.header] None)))))
             _ Inputs.header eq_refl eq_refl).
Defined.

(** X2.  The frame of a sheet that is read: the labels are the first row,
    there is one row per other row of the sheet, and labels and rows all
    have the width of the widest row of the sheet, short rows being
    filled with missing values. *)
Theorem load_xlsb_frame_shape :
  forall (file : upload) (header : list cell) (data : list (list cell)),
    read_rows file = Ok (header :: data) ->
    exists df,
      load_xlsb file = ([], Next df) /\
      len df = Z.of_nat (List.length (header :: data)) - 1 /\
      List.length (columns df) = width (header :: data) /\
      rectangular df /\
      firstn (List.length header) (columns df) = header /\
      Forall2 (fun r r' => firstn (List.length r) r' = r /\
                           Forall (fun c => c = NA) (skipn (List.length r) r'))
        data (rows df).
Proof.
  intros file header data Hr.
  exists (mkDataFrame (pad (width (header :: data)) header)
            (map (pad (width (header :: data))) data)).
  split; [unfold load_xlsb; rewrite Hr; reflexivity|].
  assert (Hw : forall r, In r (header :: data) ->
                         (List.length r <= width (header :: data))%nat)
    by (intros r; apply width_ge).
  split; [|split; [|split; [|split]]].
  - unfold len; cbn [rows]. rewrite length_map; cbn [List.length]. lia.
  - cbn [columns]. apply length_pad, Hw; now left.
  - unfold rectangular; cbn [columns rows]. apply Forall_forall; intros r Hin.
    apply in_map_iff in Hin as (r0 & <- & Hin).
    rewrite !length_pad; auto; apply Hw; [now left | now right].
  - cbn [columns]; unfold pad. now rewrite firstn_app, Nat.sub_diag, firstn_all, app_nil_r.
  - cbn [rows]. clear Hr Hw.
    generalize (width (header :: data)); intros w.
    induction data as [|r data IH]; cbn [map]; constructor; auto.
    unfold pad; split.
    + now rewrite firstn_app, Nat.sub_diag, firstn_all, app_nil_r.
    + rewrite skipn_app, Nat.sub_diag, skipn_all; cbn [app skipn].
      apply Forall_forall; intros c Hc; now apply repeat_spec in Hc.
Qed.

Lemma load_xlsb_frame_shape_witness :
  exists df,
    load_xlsb (Sheet [[Str "DT"; Str "USDAmt"]; [Num 1]] None) = ([], Next df) /\
    len df = Z.of_nat (List.length [[Str "DT"; Str "USDAmt"]; [Num 1]]) - 1 /\
    List.length (columns df) = width [[Str "DT"; Str "USDAmt"]; [Num 1]] /\
    rectangular df /\
    firstn (List.length [Str "DT"; Str "USDAmt"]) (columns df)
      = [Str "DT"; Str "USDAmt"] /\
    Forall2 (fun r r' => firstn (List.length r) r' = r /\
                         Forall (fun c => c = NA) (skipn (List.length r) r'))
      [[Num 1]] (rows df).
Proof.
  exact (load_xlsb_frame_shape (Sheet [[Str "DT"; Str "USDAmt"]; [Num 1]] None)
           [Str "DT"; Str "USDAmt"] [[Num 1]] eq_refl).
Defined.

(* ===================================================================== *)
(** * More of the script: what cleaning keeps *)
(* ===================================================================== *)

Lemma filter_select {A : Type} (f : A -> bool) (l : list A) :
  filter f l = select l (map f l).
Proof. induction l as [|a l IH]; simpl; [reflexivity|]; now rewrite IH. Qed.

Lemma dropna_subset_loc (df df' : DataFrame) (subset : list string) :
  dropna_subset df subset = Ok df' ->
  df' = loc df (map (fun r => negb (row_isna subset (columns df) r)) (rows df)).
Proof.
  intros H; apply dropna_subset_Ok in H as [Hc Hr].
  rewrite (frame_eta df'), Hc, Hr, filter_select; reflexivity.
Qed.

Lemma mapM_select {A B : Type} (f : A -> result B) (l : list A) (bs : list B)
    (mask : list bool) :
  mapM f l = Ok bs -> mapM f (select l mask) = Ok (select bs mask).
Proof.
  revert bs mask; induction l as [|a l IH]; simpl; intros bs mask.
  - intros [= <-]; now destruct mask.
  - destruct (f a) as [b|e] eqn:E; simpl; [|discriminate].
    destruct (mapM f l) as [bs'|e]; simpl; [|discriminate].
    intros [= <-]; destruct mask as [|[|] mask]; simpl; auto.
    now rewrite E, (IH bs' mask eq_refl).
Qed.

Lemma mask_and_map {A : Type} (f g : A -> bool) (l : list A) :
  mask_and (map f l) (map g l) = map (fun a => f a && g a) l.
Proof. induction l as [|a l IH]; simpl; [reflexivity|]; now rewrite IH. Qed.

(** With its labels in place once, a row has a missing value under the
    subset exactly when one of its cells under these labels is missing. *)
Lemma row_isna_false (subset : list string) (cols r : list cell) :
  (forall n, In n subset -> (count n cols <= 1)%nat) ->
  (forall n, In n subset -> count n cols = 1%nat ->
             notna (at_label n cols r) = true) ->
  row_isna subset cols r = false.
Proof.
  revert r; induction cols as [|c cols IH]; intros [|v r] Hle Hna; simpl; auto.
  apply orb_false_iff; split.
  - destruct (existsb (fun n => label_eqb n c) subset) eqn:E; [|reflexivity].
    apply existsb_exists in E as (n & Hn & L).
    specialize (Hle n Hn); specialize (Hna n Hn); simpl in Hle, Hna.
    rewrite L in Hle, Hna.
    assert (H1 : S (count n cols) = 1%nat) by lia.
    specialize (Hna H1); unfold notna in Hna.
    now destruct (isna v).
  - apply IH.
    + intros n Hn; specialize (Hle n Hn); simpl in Hle.
      destruct (label_eqb n c); lia.
    + intros n Hn Hc; specialize (Hle n Hn); specialize (Hna n Hn).
      simpl in Hle, Hna.
      destruct (label_eqb n c); [lia | now apply Hna].
Qed.

Lemma row_isna_Date_USDAmt (cols r : list cell) :
  count "Date" cols = 1%nat -> count "USDAmt" cols = 1%nat ->
  List.length r = List.length cols ->
  negb (row_isna ["Date"; "USDAmt"] cols r)
    = notna (at_label "Date" cols r) && notna (at_label "USDAmt" cols r).
Proof.
  intros Cd Cu Hlen.
  destruct (row_isna ["Date"; "USDAmt"] cols r) eqn:E; simpl.
  - destruct (notna (at_label "Date" cols r)) eqn:Nd; [|reflexivity].
    destruct (notna (at_label "USDAmt" cols r)) eqn:Nu; [|reflexivity].
    rewrite row_isna_false in E; [discriminate| |].
    + intros n [<-|[<-|[]]]; lia.
    + intros n [<-|[<-|[]]] _; assumption.
  - rewrite (row_isna_at_label ["Date"; "USDAmt"] "Date" cols r); simpl; auto; try lia.
    rewrite (row_isna_at_label ["Date"; "USDAmt"] "USDAmt" cols r); simpl; auto; lia.
Qed.

Lemma to_numeric_cells (parse : string -> option Q) (s v : Series) :
  to_numeric parse errors_coerce s = Ok v ->
  Forall (fun c => c = NA \/ is_Num c) v.
Proof.
  intros H; apply mapM_Forall2 in H.
  induction H as [|c r s v E F IH]; constructor; auto.
  destruct (to_numeric_value_coerce parse c) as [[q|] Hq]; rewrite Hq in E;
    injection E as <-; [right; now exists q | now left].
Qed.

Lemma select_notna_l (l : Series) (m : list bool) (P : cell -> Prop) :
  Forall (fun c => c = NA \/ P c) l ->
  Forall P (select l (mask_and (map notna l) m)).
Proof.
  intros H; revert m; induction H as [|c l Hc _ IH]; intros [|b m]; simpl;
    try constructor.
  destruct c; simpl; try (destruct b; [constructor|]; auto;
    destruct Hc as [Hc|Hc]; [discriminate | exact Hc]).
  apply IH.
Qed.

Lemma select_notna_r (l : Series) (m : list bool) (P : cell -> Prop) :
  Forall (fun c => c = NA \/ P c) l ->
  Forall P (select l (mask_and m (map notna l))).
Proof.
  intros H; revert m; induction H as [|c l Hc _ IH]; intros [|b m]; simpl;
    try constructor.
  destruct c; simpl; rewrite ?andb_false_r, ?andb_true_r;
    try (destruct b; [constructor|]; auto;
         destruct Hc as [Hc|Hc]; [discriminate | exact Hc]).
  apply IH.
Qed.

Lemma getitem_setitem_usable (df : DataFrame) (n : string) (v : Series) :
  rectangular df -> List.length v = List.length (rows df) ->
  usable (setitem df n v) n -> getitem (setitem df n v) n = Ok v.
Proof.
  intros R L U; pose proof (usable_getitem _ _ U) as G.
  rewrite G; apply f_equal; exact (getitem_setitem_same df n v _ R L G).
Qed.

Section Cleaning.
Variable str_to_float : string -> option Q.

(** The cleaned table, column by column.  [dt] and [usd] are the two
    coerced columns, [date] the dates of [dt], and [keep] marks the rows
    that have both a date and an amount. *)
Lemma clean_columns (raw df : DataFrame) (out : list element) :
  rectangular raw ->
  clean str_to_float raw = (out, Next df) ->
  exists dt usd date,
    (s <- getitem raw "DT" ;; to_numeric str_to_float errors_coerce s) = Ok dt /\
    (s <- getitem raw "USDAmt" ;; to_numeric str_to_float errors_coerce s)
      = Ok usd /\
    to_datetime origin errors_coerce dt = Ok date /\
    List.length dt = List.length (rows raw) /\
    List.length usd = List.length (rows raw) /\
    List.length date = List.length (rows raw) /\
    getitem df "DT" = Ok (select dt (mask_and (map notna date) (map notna usd))) /\
    getitem df "USDAmt"
      = Ok (select usd (mask_and (map notna date) (map notna usd))) /\
    getitem df "Date"
      = Ok (select date (mask_and (map notna date) (map notna usd))) /\
    getitem df "Month"
      = Ok (dt_month_name
              (select date (mask_and (map notna date) (map notna usd)))) /\
    (forall y, getitem df "Year" = Ok y ->
               y = dt_year (select date (mask_and (map notna date) (map notna usd)))) /\
    (forall n, ~ In n ["DT"; "USDAmt"; "Date"; "Year"; "Month"] ->
               getitem df n
               = (s <- getitem raw n ;;
                  Ok (select s (mask_and (map notna date) (map notna usd))))) /\
    List.length (rows df)
      = List.length (select date (mask_and (map notna date) (map notna usd))).
Proof.
  intros R0 H; unfold clean in H.
  apply then_eval_Next in H as (dt & E1 & H); cbv beta zeta in H.
  pose proof E1 as E1'.
  apply bind_Ok in E1 as (s0 & G0 & N0).
  apply then_eval_Next in H as (usd & E2 & H); cbv beta zeta in H.
  apply bind_Ok in E2 as (u0 & G1 & N1).
  set (df1 := setitem raw "DT" dt) in *.
  set (df2 := setitem df1 "USDAmt" usd) in *.
  assert (L0 : List.length dt = List.length (rows raw))
    by (rewrite (mapM_length _ _ _ N0); eapply getitem_length; eauto).
  assert (R1 : rectangular df1) by now apply rectangular_setitem.
  assert (Lr1 : List.length (rows df1) = List.length (rows raw))
    by now apply rows_setitem_length.
  assert (L1 : List.length usd = List.length (rows df1))
    by (rewrite (mapM_length _ _ _ N1); eapply getitem_length; eauto).
  assert (R2 : rectangular df2) by now apply rectangular_setitem.
  assert (Lr2 : List.length (rows df2) = List.length (rows df1))
    by now apply rows_setitem_length.
  assert (HDT : has_column df2 "DT" = true)
    by (apply has_column_setitem, has_column_setitem; eapply getitem_present; eauto).
  rewrite HDT, then_eval_ret in H.
  apply then_eval_Next in H as (date & E3 & H); cbv beta zeta in H.
  apply bind_Ok in E3 as (dt2 & G2 & D).
  set (df3 := setitem df2 "Date" date) in *.
  assert (L2 : List.length date = List.length (rows df2))
    by (rewrite (mapM_length _ _ _ D); eapply getitem_length; eauto).
  assert (R3 : rectangular df3) by now apply rectangular_setitem.
  assert (Lr3 : List.length (rows df3) = List.length (rows df2))
    by now apply rows_setitem_length.
  apply then_eval_Next in H as (df4 & E4 & H); cbv beta zeta in H.
  assert (R4 : rectangular df4) by (eapply rectangular_dropna; eauto).
  apply then_eval_Next in H as (year & E5 & H); cbv beta zeta in H.
  apply bind_Ok in E5 as (d & G4 & [= <-]).
  apply then_eval_Next in H as (month & E6 & H); cbv beta zeta in H.
  apply bind_Ok in E6 as (d' & G5 & [= <-]).
  apply then_eval_Next in H as (month & E7 & H); cbv beta zeta in H.
  apply bind_Ok in E7 as (m1 & G6 & [= <-]).
  injection H as _ <-.
  set (df5 := setitem df4 "Year" (dt_year d)) in *.
  set (df6 := setitem df5 "Month" (dt_month_name d')) in *.
  assert (L4 : List.length (dt_year d) = List.length (rows df4))
    by (unfold dt_year; rewrite length_map; eapply getitem_length; eauto).
  assert (R5 : rectangular df5) by now apply rectangular_setitem.
  assert (Lr5 : List.length (rows df5) = List.length (rows df4))
    by now apply rows_setitem_length.
  assert (L5 : List.length (dt_month_name d') = List.length (rows df5))
    by (unfold dt_month_name; rewrite length_map; eapply getitem_length; eauto).
  assert (R6 : rectangular df6) by now apply rectangular_setitem.
  assert (Lr6 : List.length (rows df6) = List.length (rows df5))
    by now apply rows_setitem_length.
  unfold df5 in G5; rewrite getitem_setitem_other in G5 by (auto; discriminate).
  fold df5 in G5. rewrite G4 in G5; injection G5 as <-.
  (* the columns before the rows are dropped *)
  assert (Gdt1 : getitem df1 "DT" = Ok dt).
  { apply getitem_setitem_usable; auto.
    exact (usable_setitem raw "DT" dt s0 G0). }
  assert (Gu0 : getitem raw "USDAmt" = Ok u0)
    by (unfold df1 in G1; rewrite getitem_setitem_other in G1 by (auto; discriminate);
        exact G1).
  assert (Gu2 : getitem df2 "USDAmt" = Ok usd).
  { apply getitem_setitem_usable; auto.
    exact (usable_setitem df1 "USDAmt" usd u0 G1). }
  assert (Edt : dt2 = dt).
  { unfold df2 in G2; rewrite getitem_setitem_other in G2 by (auto; discriminate).
    rewrite Gdt1 in G2; now injection G2. }
  subst dt2.
  assert (Gdt3 : getitem df3 "DT" = Ok dt).
  { unfold df3; rewrite getitem_setitem_other by (auto; discriminate).
    unfold df2; rewrite getitem_setitem_other by (auto; discriminate).
    exact Gdt1. }
  assert (Gu3 : getitem df3 "USDAmt" = Ok usd)
    by (unfold df3; rewrite getitem_setitem_other by (auto; discriminate);
        exact Gu2).
  pose proof (dropna_subset_loc _ _ _ E4) as Eloc.
  assert (Ud3 : usable df3 "Date").
  { pose proof (getitem_Ok_usable _ _ _ G4) as U.
    rewrite Eloc in U; exact U. }
  assert (Gd3 : getitem df3 "Date" = Ok date).
  { apply getitem_setitem_usable; auto. }
  (* the rows that are kept *)
  assert (Ekeep : map (fun r => negb (row_isna ["Date"; "USDAmt"] (columns df3) r))
                    (rows df3)
                  = mask_and (map notna date) (map notna usd)).
  { pose proof (getitem_Ok_usable _ _ _ Gu3) as Uu3.
    clear - R3 Gd3 Gu3 Ud3 Uu3. clearbody df3.
    rewrite (usable_getitem _ _ Ud3) in Gd3; injection Gd3 as <-.
    rewrite (usable_getitem _ _ Uu3) in Gu3; injection Gu3 as <-.
    rewrite !map_map, mask_and_map.
    apply map_ext_in; intros r Hr.
    apply row_isna_Date_USDAmt; auto.
    unfold rectangular in R3; rewrite Forall_forall in R3; now apply R3. }
  rewrite Ekeep in Eloc.
  set (keep := mask_and (map notna date) (map notna usd)) in *.
  assert (Ed : d = select date keep)
    by (rewrite Eloc, getitem_loc, Gd3 in G4; simpl in G4; now injection G4).
  (* the columns of the cleaned table *)
  assert (Other : forall n, n <> "Year" -> n <> "Month" ->
                            getitem (setitem df6 "Month"
                                       (Categorical m1 month_order)) n
                            = (s <- getitem df3 n ;; Ok (select s keep))).
  { intros n Hy Hm.
    rewrite getitem_setitem_other; auto.
    - unfold df6; rewrite getitem_setitem_other; auto.
      unfold df5; rewrite getitem_setitem_other; auto.
      now rewrite Eloc, getitem_loc.
    - unfold Categorical; rewrite length_map.
      apply (getitem_length _ _ _ G6). }
  subst keep.
  exists dt, usd, date.
  split; [exact E1'|].
  split; [now rewrite Gu0|].
  split; [exact D|].
  split; [exact L0|].
  split; [lia|].
  split; [lia|].
  split; [rewrite Other, Gdt3 by discriminate; reflexivity|].
  split; [rewrite Other, Gu3 by discriminate; reflexivity|].
  split; [rewrite Other, Gd3 by discriminate; reflexivity|].
  pose proof (getitem_setitem_same df5 "Month" _ m1 R5 L5 G6) as ->.
  assert (T : Forall (fun c => exists ns, c = Timestamp ns) d).
  { rewrite Ed.
    apply select_notna_l. apply (to_datetime_cells _ _ D). }
  pose proof (dt_month_name_in_month_order d T) as M.
  rewrite (Categorical_keeps _ _ M).
  split.
  { rewrite <- Ed. apply getitem_setitem_usable; auto; [lia|].
    exact (usable_setitem df6 "Month" (dt_month_name d) _ G6). }
  split.
  { intros y Hy.
    rewrite getitem_setitem_other in Hy by (auto; try discriminate; lia).
    unfold df6 in Hy.
    rewrite getitem_setitem_other in Hy by (auto; try discriminate; lia).
    rewrite <- Ed.
    apply (getitem_setitem_same df4 "Year" (dt_year d) y R4 L4 Hy). }
  split.
  { intros n Hn.
    assert (Hne : n <> "DT" /\ n <> "USDAmt" /\ n <> "Date" /\ n <> "Year" /\
                  n <> "Month") by (simpl in Hn; intuition).
    destruct Hne as (H1 & H2 & H3 & H4 & H5).
    rewrite getitem_setitem_other by (auto; lia).
    unfold df6; rewrite getitem_setitem_other by (auto; lia).
    unfold df5; rewrite getitem_setitem_other by (auto; lia).
    rewrite Eloc, getitem_loc.
    unfold df3; rewrite getitem_setitem_other by (auto; lia).
    unfold df2; rewrite getitem_setitem_other by (auto; lia).
    unfold df1; rewrite getitem_setitem_other by (auto; lia).
    reflexivity. }
  rewrite rows_setitem_length by lia.
  rewrite Lr6, Lr5, <- Ed.
  symmetry; apply (getitem_length _ _ _ G4).
Qed.

End Cleaning.

Example two_bad_rows_cleaned :
  load_xlsb Inputs.two_bad_rows = ([], Next Inputs.two_bad_rows_raw) /\
  clean Inputs.no_numeric_strings Inputs.two_bad_rows_raw
    = ([], Next Inputs.two_bad_rows_df).
Proof. split; reflexivity. Qed.

Section Cleaned_table.
Variable str_to_float : string -> option Q.

(** X4.  In the cleaned table of an upload no row lacks a date or an
    amount: the [Date], [USDAmt] and [Month] columns are there, every date
    is a timestamp, every amount a number and every month one of the
    twelve names of [month_order]. *)
Theorem cleaned_rows_have_date_amount_and_month :
  forall (file : upload) (out0 out : list element) (raw df : DataFrame),
    load_xlsb file = (out0, Next raw) ->
    clean str_to_float raw = (out, Next df) ->
    exists d usd m,
      getitem df "Date" = Ok d /\ Forall is_Timestamp d /\
      getitem df "USDAmt" = Ok usd /\ Forall is_Num usd /\
      getitem df "Month" = Ok m /\ Forall (fun c => In c month_order) m.
Proof.
  intros file out0 out raw df Hload Hclean.
  pose proof (load_xlsb_rectangular _ _ _ Hload) as R.
  destruct (clean_columns str_to_float raw df out R Hclean)
    as (dt & usd & date & _ & Eu & Ed & _ & _ & _ & _ & Gu & Gd & Gm & _).
  apply bind_Ok in Eu as (u0 & _ & Nu).
  assert (T : Forall is_Timestamp
                (select date (mask_and (map notna date) (map notna usd))))
    by (apply select_notna_l, (to_datetime_cells _ _ Ed)).
  eexists; eexists; eexists.
  split; [exact Gd|]. split; [exact T|].
  split; [exact Gu|].
  split; [apply select_notna_r, (to_numeric_cells _ _ _ Nu)|].
  split; [exact Gm|].
  now apply dt_month_name_in_month_order.
Qed.

(** X5.  In the cleaned table the derived columns agree with [DT] row by
    row: [Date] is what [pd.to_datetime] makes of the [DT] column, [Month]
    is the month name of [Date], and [Year], when it can be read, is the
    year of [Date]. *)
Theorem cleaned_dates_follow_DT :
  forall (file : upload) (out0 out : list element) (raw df : DataFrame),
    load_xlsb file = (out0, Next raw) ->
    clean str_to_float raw = (out, Next df) ->
    exists dt d,
      getitem df "DT" = Ok dt /\
      getitem df "Date" = Ok d /\
      to_datetime origin errors_coerce dt = Ok d /\
      getitem df "Month" = Ok (dt_month_name d) /\
      (forall y, getitem df "Year" = Ok y -> y = dt_year d) /\
      (usable df "Year" -> latest_year df = int (max (dt_year d))).
Proof.
  intros file out0 out raw df Hload Hclean.
  pose proof (load_xlsb_rectangular _ _ _ Hload) as R.
  destruct (clean_columns str_to_float raw df out R Hclean)
    as (dt & usd & date & _ & _ & Ed & _ & _ & _ & Gdt & _ & Gd & Gm & Gy & _).
  eexists; eexists.
  split; [exact Gdt|]. split; [exact Gd|].
  split; [now apply mapM_select|].
  split; [exact Gm|].
  split; [exact Gy|].
  intros U; unfold latest_year.
  pose proof (usable_getitem _ _ U) as G.
  rewrite G; simpl. now rewrite (Gy _ G).
Qed.

(** X6.  Cleaning only drops rows: a row of the sheet is kept exactly
    when its [DT] gives a date and its [USDAmt] a number, the rows kept
    stay in order, and every column other than [DT], [USDAmt], [Date],
    [Year] and [Month] keeps its cells as they were loaded. *)
Theorem cleaning_keeps_the_rows_with_date_and_amount :
  forall (file : upload) (out0 out : list element) (raw df : DataFrame),
    load_xlsb file = (out0, Next raw) ->
    clean str_to_float raw = (out, Next df) ->
    exists dt usd date,
      (s <- getitem raw "DT" ;; to_numeric str_to_float errors_coerce s) = Ok dt /\
      (s <- getitem raw "USDAmt" ;; to_numeric str_to_float errors_coerce s)
        = Ok usd /\
      to_datetime origin errors_coerce dt = Ok date /\
      List.length (mask_and (map notna date) (map notna usd))
        = List.length (rows raw) /\
      len df
        = Z.of_nat (List.length (filter (fun b => b)
                                   (mask_and (map notna date) (map notna usd)))) /\
      forall n, ~ In n ["DT"; "USDAmt"; "Date"; "Year"; "Month"] ->
                getitem df n
                = (s <- getitem raw n ;;
                   Ok (select s (mask_and (map notna date) (map notna usd)))).
Proof.
  intros file out0 out raw df Hload Hclean.
  pose proof (load_xlsb_rectangular _ _ _ Hload) as R.
  destruct (clean_columns str_to_float raw df out R Hclean)
    as (dt & usd & date & E1 & E2 & E3 & L1 & L2 & L3 & _ & _ & _ & _ & _ & Ho & Hl).
  exists dt, usd, date.
  split; [exact E1|]. split; [exact E2|]. split; [exact E3|].
  assert (Lm : forall m1 m2 : list bool,
             List.length m1 = List.length m2 ->
             List.length (mask_and m1 m2) = List.length m1).
  { induction m1 as [|a m1 IH]; intros [|b m2]; simpl; try discriminate; auto. }
  assert (Ls : forall (l : Series) (m : list bool),
             List.length l = List.length m ->
             List.length (select l m) = List.length (filter (fun b => b) m)).
  { induction l as [|a l IH]; intros [|[|] m]; simpl; try discriminate; auto. }
  split; [rewrite Lm; rewrite !length_map; lia|].
  split; [|exact Ho].
  unfold len; f_equal; rewrite Hl.
  apply Ls. rewrite Lm; rewrite !length_map; lia.
Qed.

End Cleaned_table.

Lemma cleaned_rows_have_date_amount_and_month_witness :
  exists d usd m,
    getitem Inputs.two_bad_rows_df "Date" = Ok d /\ Forall is_Timestamp d /\
    getitem Inputs.two_bad_rows_df "USDAmt" = Ok usd /\ Forall is_Num usd /\
    getitem Inputs.two_bad_rows_df "Month" = Ok m /\
    Forall (fun c => In c month_order) m.
Proof.
  exact (cleaned_rows_have_date_amount_and_month Inputs.no_numeric_strings
           Inputs.two_bad_rows [] [] Inputs.two_bad_rows_raw Inputs.two_bad_rows_df
           eq_refl eq_refl).
Defined.

Lemma cleaned_dates_follow_DT_witness :
  exists dt d,
    getitem Inputs.two_bad_rows_df "DT" = Ok dt /\
    getitem Inputs.two_bad_rows_df "Date" = Ok d /\
    to_datetime origin errors_coerce dt = Ok d /\
    getitem Inputs.two_bad_rows_df "Month" = Ok (dt_month_name d) /\
    (forall y, getitem Inputs.two_bad_rows_df "Year" = Ok y -> y = dt_year d) /\
    (usable Inputs.two_bad_rows_df "Year" ->
     latest_year Inputs.two_bad_rows_df = int (max (dt_year d))).
Proof.
  exact (cleaned_dates_follow_DT Inputs.no_numeric_strings
           Inputs.two_bad_rows [] [] Inputs.two_bad_rows_raw Inputs.two_bad_rows_df
           eq_refl eq_refl).
Defined.

Lemma cleaning_keeps_the_rows_with_date_and_amount_witness :
  exists dt usd date,
    (s <- getitem Inputs.two_bad_rows_raw "DT" ;;
     to_numeric Inputs.no_numeric_strings errors_coerce s) = Ok dt /\
    (s <- getitem Inputs.two_bad_rows_raw "USDAmt" ;;
     to_numeric Inputs.no_numeric_strings errors_coerce s) = Ok usd /\
    to_datetime origin errors_coerce dt = Ok date /\
    List.length (mask_and (map notna date) (map notna usd))
      = List.length (rows Inputs.two_bad_rows_raw) /\
    len Inputs.two_bad_rows_df
      = Z.of_nat (List.length (filter (fun b => b)
                                 (mask_and (map notna date) (map notna usd)))) /\
    forall n, ~ In n ["DT"; "USDAmt"; "Date"; "Year"; "Month"] ->
              getitem Inputs.two_bad_rows_df n
              = (s <- getitem Inputs.two_bad_rows_raw n ;;
                 Ok (select s (mask_and (map notna date) (map notna usd)))).
Proof.
  exact (cleaning_keeps_the_rows_with_date_and_amount Inputs.no_numeric_strings
           Inputs.two_bad_rows [] [] Inputs.two_bad_rows_raw Inputs.two_bad_rows_df
           eq_refl eq_refl).
Defined.

(* ===================================================================== *)
(** * The dates of line 56 *)
(* ===================================================================== *)

Lemma trunc_whole (a b : Z) : trunc (inject_Z a + inject_Z b) = a + b.
Proof.
  unfold trunc, Qplus, inject_Z; cbn [Qnum Qden Pos.mul].
  rewrite Z.quot_1_r; lia.
Qed.

Lemma trunc_no_fraction (a b : Z) :
  trunc ((inject_Z a + inject_Z b - inject_Z (a + b)) * inject_Z ns_per_day) = 0.
Proof.
  unfold trunc, Qminus, Qplus, Qmult, Qopp, inject_Z; cbn [Qnum Qden Pos.mul].
  replace (((a * 1 + b * 1) * 1 + - (a + b) * 1) * ns_per_day) with 0 by lia.
  reflexivity.
Qed.

(** A float of 2^63 or more is cut to a whole number of 2^63 or more. *)
Lemma trunc_lower_bound (z : Z) (v : Q) :
  0 <= z -> (inject_Z z <= v)%Q -> z <= trunc v.
Proof.
  intros Hz H; unfold Qle, inject_Z in H; cbn [Qnum Qden] in H.
  unfold trunc.
  assert (0 <= Qnum v) by nia.
  rewrite Z.quot_div_nonneg by lia.
  apply Z.div_le_lower_bound; lia.
Qed.

Lemma wrap_int64_fits (z : Z) : fits_int64 z = true -> wrap_int64 z = z.
Proof.
  unfold fits_int64, wrap_int64, iNaT, Timestamp_max; intros H.
  apply andb_true_iff in H as [H1 H2].
  apply Z.leb_le in H1, H2.
  rewrite Z.mod_small by lia. lia.
Qed.

(** Line 56 on a whole offset inside the range: midnight of that day. *)
Lemma to_datetime_value_whole (n : Z) :
  in_range n ->
  to_datetime_value origin errors_coerce (Num (inject_Z n))
    = Ok (Timestamp (midnight n)).
Proof.
  unfold in_range, midnight; intros H.
  unfold to_datetime_value; cbv zeta.
  rewrite trunc_whole, trunc_no_fraction, Z.add_0_r.
  set (base := n + origin_offset origin) in *.
  assert (F : fits_int64 (base * ns_per_day) = true).
  { unfold fits_int64, iNaT, Timestamp_min, Timestamp_max in *.
    apply andb_true_iff; split; apply Z.leb_le; lia. }
  assert (F' : fits_int64 base = true).
  { unfold fits_int64, iNaT, Timestamp_min, Timestamp_max, ns_per_day in *.
    apply andb_true_iff; split; apply Z.leb_le; lia. }
  rewrite F', F, (wrap_int64_fits _ F).
  destruct (Z.eqb_spec (base * ns_per_day) iNaT) as [E|_]; [|reflexivity].
  unfold iNaT, Timestamp_min in *; lia.
Qed.

(** Line 56 on an offset of 2^63 days or more: [OverflowError], whatever
    [errors] says. *)
Lemma to_datetime_value_beyond_int64 (errors : errors_mode) (q : Q) :
  beyond_int64 q ->
  to_datetime_value origin errors (Num q)
    = Raise (OverflowError "Python int too large to convert to C long").
Proof.
  unfold beyond_int64; intros H.
  apply trunc_lower_bound in H; [|unfold Z.pow; simpl; lia].
  unfold to_datetime_value; cbv zeta.
  set (base := trunc _) in *.
  replace (fits_int64 base) with false; [reflexivity|].
  symmetry; unfold fits_int64, Timestamp_max.
  apply andb_false_iff; right; apply Z.leb_gt; lia.
Qed.

(** On a numeric column the only error of line 56 is [OverflowError]. *)
Lemma to_datetime_value_numeric (c : cell) :
  c = NA \/ is_Num c ->
  (exists r, to_datetime_value origin errors_coerce c = Ok r) \/
  to_datetime_value origin errors_coerce c
    = Raise (OverflowError "Python int too large to convert to C long").
Proof.
  intros [->|[q ->]]; [left; now exists NA|].
  unfold to_datetime_value; cbv zeta.
  destruct (fits_int64 _); [left | now right].
  destruct (fits_int64 _); [|now exists NA].
  destruct (_ =? _); eauto.
Qed.

Lemma to_datetime_beyond_int64 (s : Series) (q : Q) :
  Forall (fun c => c = NA \/ is_Num c) s ->
  In (Num q) s -> beyond_int64 q ->
  to_datetime origin errors_coerce s
    = Raise (OverflowError "Python int too large to convert to C long").
Proof.
  intros F Hin Hq; unfold to_datetime.
  induction F as [|c s Hc F IH]; [destruct Hin|].
  cbn [mapM].
  destruct (to_datetime_value_numeric c Hc) as [[r E]|E]; rewrite E; [|reflexivity].
  destruct Hin as [->|Hin].
  - rewrite (to_datetime_value_beyond_int64 _ _ Hq) in E; discriminate.
  - cbn [bind]. now rewrite (IH Hin).
Qed.

Lemma to_datetime_whole (l : list Z) :
  Forall in_range l ->
  to_datetime origin errors_coerce (map (fun n => Num (inject_Z n)) l)
    = Ok (map (fun n => Timestamp (midnight n)) l).
Proof.
  unfold to_datetime; intros H.
  induction H as [|n l Hn _ IH]; [reflexivity|].
  cbn [map mapM]. now rewrite (to_datetime_value_whole n Hn), IH.
Qed.

Lemma then_eval_Ok {A B : Type} (r : result A) (k : A -> st B) (a : A) :
  r = Ok a -> then_ (eval r) k = k a.
Proof. intros ->; simpl; now destruct (k a). Qed.

Lemma then_eval_Raise {A B : Type} (r : result A) (k : A -> st B) (e : exn) :
  r = Raise e -> then_ (eval r) k = ([], Uncaught e).
Proof. now intros ->. Qed.

Section Dates.
Variable str_to_float : string -> option Q.

(** Under [errors="coerce"] line 51 always gives a column, and a blank
    cell or a string that is no number is missing in it. *)
Lemma to_numeric_coerce (s : Series) :
  exists v,
    to_numeric str_to_float errors_coerce s = Ok v /\
    Forall2 (fun c x =>
               c = NA \/ (exists t, c = Str t /\ str_to_float t = None) -> x = NA)
            s v.
Proof.
  destruct (mapM_Ok (to_numeric_value str_to_float errors_coerce) s) as (v & E & F).
  { intros a _; destruct (to_numeric_value_coerce str_to_float a) as [q ->]; eauto. }
  exists v; split; [exact E|].
  clear E; induction F as [|c x s v E _ IH]; constructor; auto.
  intros [->|(t & -> & Ht)]; simpl in E; [|rewrite Ht in E]; congruence.
Qed.

(** Line 51 leaves the numbers of the sheet as they are. *)
Lemma to_numeric_keeps_numbers (s v : Series) (q : Q) :
  to_numeric str_to_float errors_coerce s = Ok v -> In (Num q) s -> In (Num q) v.
Proof.
  intros H; apply mapM_Forall2 in H.
  induction H as [|c x s v E _ IH]; intros Hin; [destruct Hin|].
  destruct Hin as [->|Hin]; [left; simpl in E; congruence | right; auto].
Qed.

(** Where the [DT] column of the sheet holds an offset of 2^63 days or
    more, line 56 ends the run. *)
Lemma clean_beyond_int64 (raw : DataFrame) (s0 u : Series) (q : Q) :
  rectangular raw ->
  getitem raw "DT" = Ok s0 ->
  getitem raw "USDAmt" = Ok u ->
  In (Num q) s0 -> beyond_int64 q ->
  clean str_to_float raw
    = ([], Uncaught (OverflowError "Python int too large to convert to C long")).
Proof.
  intros R G0 Gu Hin0 Hq.
  destruct (to_numeric_coerce s0) as (dt & N0 & _).
  assert (E1 : (s <- getitem raw "DT" ;;
                to_numeric str_to_float errors_coerce s) = Ok dt)
    by (rewrite G0; exact N0).
  pose proof (to_numeric_keeps_numbers _ _ _ N0 Hin0) as Hin.
  assert (L0 : List.length dt = List.length (rows raw))
    by (rewrite (mapM_length _ _ _ N0); eapply getitem_length; eauto).
  destruct (to_numeric_coerce u) as (usd & Nu & _).
  set (df1 := setitem raw "DT" dt).
  assert (R1 : rectangular df1) by now apply rectangular_setitem.
  assert (Gu1 : getitem df1 "USDAmt" = Ok u)
    by (unfold df1; rewrite getitem_setitem_other by (auto; discriminate);
        exact Gu).
  assert (L1 : List.length usd = List.length (rows df1)).
  { rewrite (mapM_length _ _ _ Nu). eapply getitem_length; eauto. }
  set (df2 := setitem df1 "USDAmt" usd).
  assert (Gdt : getitem df2 "DT" = Ok dt).
  { unfold df2; rewrite getitem_setitem_other by (auto; discriminate).
    apply getitem_setitem_usable; auto.
    exact (usable_setitem raw "DT" dt s0 G0). }
  unfold clean.
  rewrite (then_eval_Ok _ _ dt E1); cbv zeta; fold df1.
  rewrite (then_eval_Ok _ _ usd) by (rewrite Gu1; exact Nu).
  cbv zeta; fold df2.
  rewrite (getitem_present _ _ _ Gdt), then_eval_ret.
  apply then_eval_Raise.
  rewrite Gdt; cbn [bind].
  apply to_datetime_beyond_int64 with (q := q); auto.
  apply (to_numeric_cells _ _ _ N0).
Qed.

(** C7.  [Date] is [DT] days after 1899-12-30, but an offset that is not
    valid is not always a missing date.
    - The sheet with the offsets 0 and 1 is cleaned to the dates
      1899-12-30 and 1899-12-31.
    - Line 56 turns a column of whole offsets inside the range of
      [Timestamp] into the midnights of the days that many days after the
      origin; one more day of offset is the next day of the calendar; and
      so it is in the cleaned table of every upload, row by row.
    - A blank [DT] cell and a string that is no number are missing after
      line 51, and a missing offset is a missing date.
    - An offset of 2^63 days or more after 1970-01-01 is no missing date:
      the cleaning of every sheet that holds one ends in an uncaught
      [OverflowError], and so does the run on the sheet with 1e19, right
      after the file uploader.
    - The offset 132320.9999, just past the last instant of [Timestamp],
      is no missing date either: the row is kept, dated 1677-09-21. *)
Theorem Date_is_DT_days_after_1899_12_30_unless_DT_overflows :
  (load_xlsb Inputs.offsets_0_and_1 = ([], Next Inputs.offsets_0_and_1_raw) /\
   clean str_to_float Inputs.offsets_0_and_1_raw
     = ([], Next Inputs.offsets_0_and_1_df) /\
   getitem Inputs.offsets_0_and_1_df "Date"
     = Ok [Timestamp (midnight 0); Timestamp (midnight 1)] /\
   date_of_ns (midnight 0) = mkDate 1899 12 30 /\
   date_of_ns (midnight 1) = mkDate 1899 12 31) /\
  (forall l : list Z,
      Forall in_range l ->
      to_datetime origin errors_coerce (map (fun n => Num (inject_Z n)) l)
        = Ok (map (fun n => Timestamp (midnight n)) l)) /\
  (forall n : Z,
      date_of_ns (midnight n) = civil_from_days (origin_offset origin + n) /\
      date_of_ns (midnight (n + 1)) = next_day (date_of_ns (midnight n))) /\
  (forall (file : upload) (out0 out : list element) (raw df : DataFrame),
      load_xlsb file = (out0, Next raw) ->
      clean str_to_float raw = (out, Next df) ->
      exists dt d,
        getitem df "DT" = Ok dt /\
        getitem df "Date" = Ok d /\
        Forall2 (fun c t => forall n, c = Num (inject_Z n) -> in_range n ->
                                      t = Timestamp (midnight n)) dt d) /\
  (forall s : Series,
      exists v,
        to_numeric str_to_float errors_coerce s = Ok v /\
        Forall2 (fun c x =>
                   c = NA \/ (exists t, c = Str t /\ str_to_float t = None) ->
                   x = NA) s v) /\
  (forall s d : Series,
      to_datetime origin errors_coerce s = Ok d ->
      Forall2 (fun c t => c = NA -> t = NA) s d) /\
  (forall (file : upload) (out0 : list element) (raw : DataFrame)
          (dt u : Series) (q : Q),
      load_xlsb file = (out0, Next raw) ->
      getitem raw "DT" = Ok dt ->
      getitem raw "USDAmt" = Ok u ->
      In (Num q) dt -> beyond_int64 q ->
      exists msg,
        clean str_to_float raw = ([], Uncaught (OverflowError msg))) /\
  (exists msg,
      script str_to_float (Inputs.untouched Inputs.huge_offset)
        = ([SidebarHeader "Upload XLSB File"; FileUploader "Upload your XLSB file"],
           Uncaught (OverflowError msg))) /\
  (load_xlsb Inputs.past_the_last_instant
     = ([], Next Inputs.past_the_last_instant_raw) /\
   exists df ns,
     clean str_to_float Inputs.past_the_last_instant_raw = ([], Next df) /\
     len df = 1 /\
     getitem df "Date" = Ok [Timestamp ns] /\
     date_of_ns ns = mkDate 1677 9 21).
Proof.
  assert (Hday : forall n, date_of_ns (midnight n)
                           = civil_from_days (origin_offset origin + n)).
  { intros n; unfold midnight; rewrite date_of_midnight; f_equal; lia. }
  split; [repeat split; reflexivity|].
  split; [exact to_datetime_whole|].
  split.
  { intros n; split; [apply Hday|].
    rewrite !Hday, Z.add_assoc; apply civil_from_days_succ. }
  split.
  { intros file out0 out raw df Hload Hclean.
    pose proof (load_xlsb_rectangular _ _ _ Hload) as R.
    destruct (clean_columns str_to_float raw df out R Hclean)
      as (dt & usd & date & _ & _ & Ed & _ & _ & _ & Gdt & _ & Gd & _).
    eexists; eexists.
    split; [exact Gdt|]. split; [exact Gd|].
    apply (mapM_select _ _ _ (mask_and (map notna date) (map notna usd))) in Ed.
    apply mapM_Forall2 in Ed.
    eapply Forall2_impl; [|exact Ed].
    intros c t E n -> Hn.
    rewrite (to_datetime_value_whole n Hn) in E; congruence. }
  split; [exact to_numeric_coerce|].
  split.
  { intros s d H; apply mapM_Forall2 in H.
    eapply Forall2_impl; [|exact H].
    intros c t E ->; simpl in E; congruence. }
  split.
  { intros file out0 raw dt u q Hload Gdt Gu Hin Hq.
    eexists; eapply clean_beyond_int64; eauto.
    exact (load_xlsb_rectangular _ _ _ Hload). }
  split; [eexists; reflexivity|].
  split; [reflexivity|].
  eexists; exists (-9223371282349551616).
  split; [reflexivity|]. repeat split.
Qed.

End Dates.

Lemma Date_is_DT_days_after_1899_12_30_unless_DT_overflows_witness :
  to_datetime origin errors_coerce [Num (inject_Z 45000); Num (inject_Z 45040)]
    = Ok [Timestamp (midnight 45000); Timestamp (midnight 45040)] /\
  (exists dt d,
      getitem Inputs.two_bad_rows_df "DT" = Ok dt /\
      getitem Inputs.two_bad_rows_df "Date" = Ok d /\
      Forall2 (fun c t => forall n, c = Num (inject_Z n) -> in_range n ->
                                    t = Timestamp (midnight n)) dt d) /\
  Forall2 (fun c t => c = NA -> t = NA)
    [NA; Num 45000] [NA; Timestamp 1678838400000000000] /\
  (exists msg,
      clean Inputs.no_numeric_strings Inputs.huge_offset_raw
        = ([], Uncaught (OverflowError msg))).
Proof.
  pose proof (Date_is_DT_days_after_1899_12_30_unless_DT_overflows
                Inputs.no_numeric_strings)
    as (_ & Hwhole & _ & Hclean & _ & Hna & Hbig & _).
  split; [|split; [|split]].
  - apply (Hwhole [45000; 45040]).
    repeat constructor; vm_compute; discriminate.
  - exact (Hclean Inputs.two_bad_rows [] [] Inputs.two_bad_rows_raw
             Inputs.two_bad_rows_df eq_refl eq_refl).
  - exact (Hna [NA; Num 45000] [NA; Timestamp 1678838400000000000] eq_refl).
  - apply (Hbig Inputs.huge_offset [] Inputs.huge_offset_raw [Num 1e19] [Num 100]
             1e19%Q eq_refl eq_refl eq_refl (or_introl eq_refl)).
    vm_compute; discriminate.
Defined.

(* ===================================================================== *)
(** * More of the script: the views, row by row *)
(* ===================================================================== *)

Lemma filter_filter {A : Type} (p q : A -> bool) (l : list A) :
  filter p (filter q l) = filter (fun x => q x && p x) l.
Proof.
  induction l as [|a l IH]; simpl; [reflexivity|].
  destruct (q a); simpl; [destruct (p a)|]; now rewrite IH.
Qed.

Lemma filter_all {A : Type} (l : list A) : filter (fun _ => true) l = l.
Proof. induction l as [|a l IH]; simpl; [reflexivity|]; now rewrite IH. Qed.

Lemma isin_column (cols : list cell) (rs : list (list cell)) (name : string)
    (values : list cell) :
  isin (map (at_label name cols) rs) values = map (selected name values cols) rs.
Proof. unfold isin; now rewrite map_map. Qed.

Lemma loc_filter (df : DataFrame) (p : list cell -> bool) :
  loc df (map p (rows df)) = mkDataFrame (columns df) (filter p (rows df)).
Proof. unfold loc; now rewrite filter_select. Qed.

Lemma loc_filter_rows (cols : list cell) (rs : list (list cell))
    (p : list cell -> bool) :
  loc (mkDataFrame cols rs) (map p rs) = mkDataFrame cols (filter p rs).
Proof. apply (loc_filter (mkDataFrame cols rs)). Qed.

(** X7.  With its four columns in place the dashboard view is the table
    restricted, in order, to the rows whose branch, client, month and TBM
    are all among the selected values: the branch filter of line 88
    followed by the three tests of lines 121-123 is one conjunction. *)
Theorem dashboard_view_is_a_filter :
  forall (df : DataFrame)
         (selected_branch selected_client selected_month selected_tbm : list cell),
    usable df "BranchName" -> usable df "CustomerName" ->
    usable df "Month" -> usable df "TBM" ->
    (dfb <- df_branch_filtered df selected_branch ;;
     filtered_df_dashboard dfb selected_client selected_month selected_tbm)
      = Ok (mkDataFrame (columns df)
              (filter (in_dashboard selected_branch selected_client selected_month
                         selected_tbm (columns df))
                 (rows df))).
Proof.
  intros df sb sc sm st Ub Uc Um Ut.
  unfold df_branch_filtered; rewrite (usable_getitem _ _ Ub); cbn [bind].
  rewrite isin_column, loc_filter.
  unfold filtered_df_dashboard.
  rewrite !usable_getitem by assumption; cbn [bind columns rows].
  rewrite !isin_column, !mask_and_map.
  rewrite loc_filter_rows.
  now rewrite filter_filter.
Qed.

Lemma dashboard_view_is_a_filter_witness :
  (dfb <- df_branch_filtered Inputs.two_branches_df [Str "BranchA"] ;;
   filtered_df_dashboard dfb [Str "ClientX"; Str "ClientY"] month_order [Str "T1"])
    = Ok (mkDataFrame (columns Inputs.two_branches_df)
            (filter (in_dashboard [Str "BranchA"] [Str "ClientX"; Str "ClientY"]
                       month_order [Str "T1"] (columns Inputs.two_branches_df))
               (rows Inputs.two_branches_df))).
Proof.
  apply (dashboard_view_is_a_filter Inputs.two_branches_df [Str "BranchA"]
           [Str "ClientX"; Str "ClientY"] month_order [Str "T1"]); reflexivity.
Defined.

(** One narrowing step of the quick view. *)
Lemma quick_step_filter (q : DataFrame) (name : string) (sentinel choice : cell) :
  (py_ne choice sentinel = true -> usable q name) ->
  (if py_ne choice sentinel
   then c <- getitem q name ;; Ok (loc q (eq_scalar c choice))
   else Ok q)
    = Ok (mkDataFrame (columns q)
            (filter (chosen name sentinel choice (columns q)) (rows q))).
Proof.
  intros U; unfold chosen.
  destruct (py_ne choice sentinel).
  - rewrite (usable_getitem _ _ (U eq_refl)); cbn [bind].
    unfold eq_scalar; rewrite map_map.
    now rewrite (loc_filter q).
  - now rewrite filter_all, <- frame_eta.
Qed.

(** X8.  With the columns it reads in place, the quick view is the table
    restricted, in order, to the rows that have the chosen client unless
    "All Clients" is chosen, the chosen TBM unless "All TBMs" is chosen,
    and a branch and a month among the selected ones.  [CustomerName] and
    [TBM] are read only when a single value is chosen. *)
Theorem quick_view_is_a_filter :
  forall (df : DataFrame) (selected_quick_client selected_quick_tbm : cell)
         (selected_branch selected_month : list cell),
    usable df "BranchName" -> usable df "Month" ->
    (py_ne selected_quick_client (Str "All Clients") = true ->
     usable df "CustomerName") ->
    (py_ne selected_quick_tbm (Str "All TBMs") = true -> usable df "TBM") ->
    filtered_df_quick df selected_quick_client selected_quick_tbm
      selected_branch selected_month
      = Ok (mkDataFrame (columns df)
              (filter (in_quick selected_quick_client selected_quick_tbm
                         selected_branch selected_month (columns df))
                 (rows df))).
Proof.
  intros df qc qt sb sm Ub Um Uc Ut.
  unfold filtered_df_quick.
  rewrite (quick_step_filter df "CustomerName" (Str "All Clients") qc Uc);
    cbn [bind].
  rewrite (quick_step_filter (mkDataFrame _ _) "TBM" (Str "All TBMs") qt Ut);
    cbn [bind columns rows].
  rewrite !usable_getitem by assumption; cbn [bind columns rows].
  rewrite !isin_column, mask_and_map.
  rewrite loc_filter_rows.
  now rewrite !filter_filter.
Qed.

Lemma quick_view_is_a_filter_witness :
  filtered_df_quick Inputs.two_branches_df (Str "ClientY") (Str "All TBMs")
    [Str "BranchA"; Str "BranchB"] month_order
    = Ok (mkDataFrame (columns Inputs.two_branches_df)
            (filter (in_quick (Str "ClientY") (Str "All TBMs")
                       [Str "BranchA"; Str "BranchB"] month_order
                       (columns Inputs.two_branches_df))
               (rows Inputs.two_branches_df))).
Proof.
  apply (quick_view_is_a_filter Inputs.two_branches_df (Str "ClientY")
           (Str "All TBMs") [Str "BranchA"; Str "BranchB"] month_order);
    try reflexivity; intros H; try reflexivity; discriminate H.
Defined.

Section Everything.
Variable str_to_float : string -> option Q.

(** X9.  On the cleaned table of an upload, with "All Clients" and
    "All TBMs" chosen and every branch and month selected, the quick view
    is the table without the rows whose [BranchName] is missing; it is the
    whole table when every row has a branch.  The [TBM] column is not
    read. *)
Theorem quick_view_of_everything :
  forall (file : upload) (out0 out : list element) (raw df : DataFrame)
         (branch_opts : list cell),
    load_xlsb file = (out0, Next raw) ->
    clean str_to_float raw = (out, Next df) ->
    branch_options df = Ok branch_opts ->
    exists b,
      getitem df "BranchName" = Ok b /\
      filtered_df_quick df (Str "All Clients") (Str "All TBMs") branch_opts
        month_order = Ok (loc df (map notna b)) /\
      (Forall (fun c => notna c = true) b ->
       filtered_df_quick df (Str "All Clients") (Str "All TBMs") branch_opts
         month_order = Ok df).
Proof.
  intros file out0 out raw df bo Hload Hclean Hbo.
  pose proof (load_xlsb_rectangular _ _ _ Hload) as R0.
  destruct (clean_Month str_to_float raw df out R0 Hclean) as (R & m & Gm & Hm).
  destruct (options_of_spec _ _ _ Hbo) as (b & Gb & Hb1 & Hb2).
  assert (View : filtered_df_quick df (Str "All Clients") (Str "All TBMs") bo
                   month_order = Ok (loc df (map notna b))).
  { unfold filtered_df_quick; cbn [py_ne cell_eqb String.eqb Ascii.eqb Bool.eqb negb bind].
    rewrite Gb, Gm; cbn [bind].
    rewrite (isin_options b b bo); [| intros x Hx; apply Hb1, Hx | exact Hb2
                                   | apply incl_refl].
    rewrite (mask_and_true_r (map notna b)); [reflexivity| | now apply isin_all].
    unfold isin; rewrite !length_map.
    now rewrite (getitem_length _ _ _ Gm), (getitem_length _ _ _ Gb). }
  exists b; repeat split; auto.
  intros Hall; rewrite View; f_equal.
  rewrite (frame_eta df) at 2; unfold loc; f_equal.
  apply select_all; [|now apply map_notna_all].
  rewrite length_map; apply (getitem_length _ _ _ Gb).
Qed.

End Everything.

Lemma quick_view_of_everything_witness :
  exists b,
    getitem Inputs.two_branches_df "BranchName" = Ok b /\
    filtered_df_quick Inputs.two_branches_df (Str "All Clients") (Str "All TBMs")
      [Str "BranchA"; Str "BranchB"] month_order
      = Ok (loc Inputs.two_branches_df (map notna b)) /\
    (Forall (fun c => notna c = true) b ->
     filtered_df_quick Inputs.two_branches_df (Str "All Clients") (Str "All TBMs")
       [Str "BranchA"; Str "BranchB"] month_order = Ok Inputs.two_branches_df).
Proof.
  exact (quick_view_of_everything Inputs.no_numeric_strings Inputs.two_branches
           [] []
           (mkDataFrame Inputs.header
              [[Num 45000; Num 100; Str "BranchA"; Str "ClientX"; Str "T1"];
               [Num 45040; Num 200; Str "BranchB"; Str "ClientY"; Str "T2"]])
           Inputs.two_branches_df [Str "BranchA"; Str "BranchB"]
           eq_refl eq_refl eq_refl).
Defined.

(* ===================================================================== *)
(** * More of the script: the option lists *)
(* ===================================================================== *)

Lemma cell_eqb_sym (a b : cell) : cell_eqb a b = cell_eqb b a.
Proof.
  destruct a, b; simpl; auto using Qeq_bool_comm, String.eqb_sym, Z.eqb_sym.
  now destruct b, b0.
Qed.

Lemma cell_eqb_kind (a b : cell) : cell_eqb a b = true -> kind_of a = kind_of b.
Proof. destruct a, b; simpl; auto; discriminate. Qed.

Lemma kind_of_notna (c : cell) : notna c = true <-> exists k, kind_of c = Some k.
Proof.
  destruct c; simpl; split; eauto; try discriminate.
  intros [k H]; discriminate.
Qed.

Lemma Qlt_bool_total (p q : Q) :
  Qlt_bool p q = false -> Qeq_bool q p = false -> Qlt_bool q p = true.
Proof.
  unfold Qlt_bool; intros H E.
  apply negb_false_iff, Qle_bool_iff in H.
  apply negb_true_iff.
  destruct (Qle_bool p q) eqn:L; [|reflexivity].
  apply Qle_bool_iff in L.
  assert (K : (q == p)%Q) by now apply Qle_antisym.
  apply Qeq_bool_iff in K; congruence.
Qed.

Lemma ltb_total (s t : string) :
  String.ltb s t = false -> String.eqb t s = false -> String.ltb t s = true.
Proof.
  unfold String.ltb; intros H E.
  rewrite (String.compare_antisym t s).
  destruct (String.compare s t) eqn:C; simpl in *; try reflexivity;
    try discriminate.
  apply String.compare_eq_iff in C; subst.
  now rewrite String.eqb_refl in E.
Qed.

Lemma Q_of_bool_eqb (c d : bool) :
  Bool.eqb c d = Qeq_bool (Q_of_bool c) (Q_of_bool d).
Proof. now destruct c, d. Qed.

(** When [y < x] is false and the two are not equal, [x < y]. *)
Lemma py_lt_total (x y : cell) :
  py_lt y x = Ok false -> cell_eqb x y = false -> less x y.
Proof.
  unfold less; destruct x, y; simpl; try discriminate;
    try rewrite Q_of_bool_eqb;
    intros [= H] E; f_equal;
    try (now apply Qlt_bool_total);
    try (now apply ltb_total).
  apply Z.ltb_ge in H; apply Z.eqb_neq in E; apply Z.ltb_lt; lia.
Qed.

Lemma insert_HdRel (x y : cell) (l r : list cell) :
  insert x l = Ok r -> less y x -> HdRel less y l -> HdRel less y r.
Proof.
  destruct l as [|z l]; simpl.
  - intros [= <-] H _; now constructor.
  - destruct (py_lt z x) as [[|]|e]; simpl; try discriminate.
    + destruct (insert x l) as [r'|e]; simpl; [|discriminate].
      intros [= <-] _ H; inversion H; now constructor.
    + intros [= <-] H _; now constructor.
Qed.

Lemma insert_Sorted (x : cell) (l r : list cell) :
  Sorted less l -> Forall (fun y => cell_eqb x y = false) l ->
  insert x l = Ok r -> Sorted less r.
Proof.
  revert r; induction l as [|y l IH]; simpl; intros r S D.
  - intros [= <-]; repeat constructor.
  - inversion S as [|? ? S' Hd]; subst.
    inversion D as [|? ? Dy D']; subst.
    destruct (py_lt y x) as [[|]|e] eqn:E; simpl; try discriminate.
    + destruct (insert x l) as [r'|e] eqn:I; simpl; [|discriminate].
      intros [= <-]; constructor; [now apply IH|].
      now apply (insert_HdRel x y l r' I).
    + intros [= <-]; constructor; [exact S|].
      constructor; now apply py_lt_total.
Qed.

Lemma sorted_Sorted (l s : list cell) :
  ForallOrdPairs (fun a b => cell_eqb a b = false) l ->
  sorted l = Ok s -> Sorted less s.
Proof.
  intros D; revert s; induction D as [|x l Hx D IH]; simpl; intros s.
  - intros [= <-]; constructor.
  - destruct (sorted l) as [s'|e] eqn:E; simpl; [|discriminate].
    apply insert_Sorted; [now apply IH|].
    apply sorted_perm in E.
    rewrite Forall_forall in *; intros y Hy; apply Hx.
    now apply (Permutation_in _ (Permutation_sym E)).
Qed.

Lemma unique_acc_fresh (seen s : list cell) (x : cell) :
  In x (unique_acc seen s) -> existsb (cell_eqb x) seen = false.
Proof.
  revert seen; induction s as [|c s IH]; intros seen; simpl; [tauto|].
  destruct (existsb (cell_eqb c) seen) eqn:E; [apply IH|].
  intros [<-|H]; [exact E|].
  apply IH in H; simpl in H; now apply orb_false_iff in H.
Qed.

Lemma unique_acc_distinct (seen s : list cell) :
  ForallOrdPairs (fun a b => cell_eqb a b = false) (unique_acc seen s).
Proof.
  revert seen; induction s as [|c s IH]; intros seen; simpl; [constructor|].
  destruct (existsb (cell_eqb c) seen); [apply IH|].
  constructor; [|apply IH].
  apply Forall_forall; intros b Hb.
  apply unique_acc_fresh in Hb; simpl in Hb.
  apply orb_false_iff in Hb as [Hb _]; now rewrite cell_eqb_sym.
Qed.

Lemma distinct_NoDup (l : list cell) :
  ForallOrdPairs (fun a b => cell_eqb a b = false) l -> NoDup l.
Proof.
  intros D; induction D as [|x l Hx D IH]; constructor; auto.
  intros Hin; rewrite Forall_forall in Hx; specialize (Hx x Hin).
  now rewrite cell_eqb_refl in Hx.
Qed.

(** X10.  An option list of the sidebar ([sorted(column.dropna().unique())],
    lines 81, 99, 109, 130 and 140) is in strictly ascending order, has no
    value twice and no missing value. *)
Theorem option_lists_are_strictly_ascending :
  forall (df : DataFrame) (column : string) (opts : list cell),
    options_of df column = Ok opts ->
    Sorted less opts /\ NoDup opts /\ Forall (fun c => notna c = true) opts.
Proof.
  intros df column opts H.
  pose proof (options_of_spec _ _ _ H) as (s & Gs & Hin & _).
  unfold options_of in H; rewrite Gs in H; cbn [bind] in H.
  split; [|split].
  - apply (sorted_Sorted _ _ (unique_acc_distinct [] (dropna s)) H).
  - apply (Permutation_NoDup (sorted_perm _ _ H)).
    apply distinct_NoDup, unique_acc_distinct.
  - apply Forall_forall; intros x Hx; now apply Hin.
Qed.

Lemma option_lists_are_strictly_ascending_witness :
  Sorted less [Str "ClientX"; Str "ClientY"] /\
  NoDup [Str "ClientX"; Str "ClientY"] /\
  Forall (fun c => notna c = true) [Str "ClientX"; Str "ClientY"].
Proof.
  exact (option_lists_are_strictly_ascending Inputs.two_branches_df "CustomerName"
           [Str "ClientX"; Str "ClientY"] eq_refl).
Defined.

Lemma py_lt_same_kind (a b : cell) (k : kind) :
  kind_of a = Some k -> kind_of b = Some k -> exists r, py_lt a b = Ok r.
Proof.
  destruct a, b; simpl; intros H1 H2; try discriminate; try congruence; eauto.
Qed.

Lemma py_lt_Ok_kind (a b : cell) (r : bool) :
  py_lt a b = Ok r -> kind_of a = kind_of b.
Proof. destruct a, b; simpl; auto; discriminate. Qed.

Lemma py_lt_Raise (a b : cell) (e : exn) :
  py_lt a b = Raise e -> e = TypeError "'<' not supported between instances".
Proof. destruct a, b; simpl; intros [= <-]; auto. Qed.

Lemma insert_Raise (x : cell) (l : list cell) (e : exn) :
  insert x l = Raise e -> e = TypeError "'<' not supported between instances".
Proof.
  induction l as [|y l IH]; simpl; [discriminate|].
  destruct (py_lt y x) as [[|]|e'] eqn:E; simpl.
  - destruct (insert x l) as [r|e']; simpl; [discriminate|].
    intros [= <-]; now apply IH.
  - discriminate.
  - intros [= <-]; now apply py_lt_Raise in E.
Qed.

Lemma sorted_Raise (l : list cell) (e : exn) :
  sorted l = Raise e -> e = TypeError "'<' not supported between instances".
Proof.
  induction l as [|x l IH]; simpl; [discriminate|].
  destruct (sorted l) as [s|e']; simpl.
  - apply insert_Raise.
  - intros [= <-]; now apply IH.
Qed.

Lemma insert_one_kind (x : cell) (l : list cell) (k : kind) :
  kind_of x = Some k -> Forall (fun c => kind_of c = Some k) l ->
  exists r, insert x l = Ok r.
Proof.
  intros Hx H; induction H as [|y l Hy _ [r IH]]; simpl; [eauto|].
  destruct (py_lt_same_kind y x k Hy Hx) as [[|] ->]; simpl; [|eauto].
  rewrite IH; simpl; eauto.
Qed.

Lemma sorted_one_kind (l : list cell) (k : kind) :
  Forall (fun c => kind_of c = Some k) l -> exists s, sorted l = Ok s.
Proof.
  intros H; induction H as [|x l Hx H [s IH]]; simpl; [eauto|].
  rewrite IH; simpl.
  apply (insert_one_kind x s k Hx).
  apply sorted_perm in IH.
  rewrite Forall_forall in *; intros c Hc; apply H.
  now apply (Permutation_in _ (Permutation_sym IH)).
Qed.

(** What [sorted] has put in order is of one kind. *)
Lemma sorted_Ok_kind (l s : list cell) :
  sorted l = Ok s -> forall a b, In a l -> In b l -> kind_of a = kind_of b.
Proof.
  revert s; induction l as [|x l IH]; simpl; intros s; [tauto|].
  destruct (sorted l) as [s'|e] eqn:E; simpl; [|discriminate].
  intros I.
  assert (Hx : forall b, In b l -> kind_of x = kind_of b).
  { intros b Hb.
    pose proof (Permutation_in _ (sorted_perm _ _ E) Hb) as Hb'.
    destruct s' as [|z s']; [destruct Hb'|].
    simpl in I.
    destruct (py_lt z x) as [r|e] eqn:L; simpl in I; [|discriminate].
    apply py_lt_Ok_kind in L.
    rewrite <- L.
    apply (IH _ eq_refl).
    - apply (Permutation_in _ (Permutation_sym (sorted_perm _ _ E))); now left.
    - exact Hb. }
  intros a b [<-|Ha] [<-|Hb]; auto.
  - symmetry; auto.
  - now apply (IH _ eq_refl).
Qed.

(** X11.  An option list is computed exactly when the values of the column
    that are not missing are of one kind (all numbers, or all text).  When
    two of them are of different kinds, [sorted] raises [TypeError]; for
    [BranchName] this is at line 81, so the run ends right under the
    "Filter Controls" header, before any filter is drawn. *)
Theorem option_lists_need_values_of_one_kind :
  forall (df : DataFrame) (column : string) (s : Series),
    getitem df column = Ok s ->
    ((exists k, Forall (fun c => c = NA \/ kind_of c = Some k) s) <->
     (exists opts, options_of df column = Ok opts)) /\
    (forall a b,
        In a s -> In b s -> notna a = true -> notna b = true ->
        kind_of a <> kind_of b ->
        options_of df column
          = Raise (TypeError "'<' not supported between instances") /\
        (column = "BranchName" ->
         forall ui,
           sidebar ui df
             = ([SidebarHeader "Filter Controls"],
                Uncaught (TypeError "'<' not supported between instances")))).
Proof.
  intros df column s G.
  assert (Rep : forall c, In c s -> notna c = true ->
                          exists u, In u (unique (dropna s)) /\
                                    kind_of c = kind_of u).
  { intros c Hc Hn.
    assert (Hd : In c (dropna s)) by (apply filter_In; auto).
    apply unique_complete, existsb_exists in Hd as (u & Hu & E).
    exists u; split; [exact Hu | now apply cell_eqb_kind]. }
  split; [split|].
  - intros [k Hk]; unfold options_of; rewrite G; cbn [bind].
    apply (sorted_one_kind _ k).
    apply Forall_forall; intros c Hc.
    apply unique_acc_sub, filter_In in Hc as [Hc Hn].
    rewrite Forall_forall in Hk; destruct (Hk c Hc) as [->|K]; [discriminate|exact K].
  - intros [opts H]; unfold options_of in H; rewrite G in H; cbn [bind] in H.
    pose proof (sorted_Ok_kind _ _ H) as K.
    destruct (unique (dropna s)) as [|u us] eqn:U.
    + exists Number; apply Forall_forall; intros c Hc.
      destruct (notna c) eqn:N; [|left; now destruct c].
      destruct (Rep c Hc N) as (u & [] & _).
    + assert (Hu : In u (unique (dropna s))) by (rewrite U; now left).
      assert (Nu : notna u = true)
        by (apply unique_acc_sub, filter_In in Hu; tauto).
      apply kind_of_notna in Nu as [k Hk].
      exists k; apply Forall_forall; intros c Hc.
      destruct (notna c) eqn:N; [right|left; now destruct c].
      destruct (Rep c Hc N) as (u' & Hu' & ->).
      rewrite <- Hk; apply K; [exact Hu' | now left].
  - intros a b Ha Hb Na Nb Hne.
    assert (E : options_of df column
                = Raise (TypeError "'<' not supported between instances")).
    { unfold options_of; rewrite G; cbn [bind].
      destruct (sorted (unique (dropna s))) as [opts|e] eqn:S.
      - exfalso; apply Hne.
        destruct (Rep a Ha Na) as (a' & Ha' & ->).
        destruct (Rep b Hb Nb) as (b' & Hb' & ->).
        apply (sorted_Ok_kind _ _ S); assumption.
      - now rewrite (sorted_Raise _ _ S). }
    split; [exact E|].
    intros -> ui; unfold sidebar, branch_options; now rewrite E.
Qed.

Lemma option_lists_need_values_of_one_kind_witness :
  ((exists k, Forall (fun c => c = NA \/ kind_of c = Some k)
                [Str "BranchA"; Num 7]) <->
   (exists opts,
       options_of (mkDataFrame [Str "BranchName"] [[Str "BranchA"]; [Num 7]])
         "BranchName" = Ok opts)) /\
  options_of (mkDataFrame [Str "BranchName"] [[Str "BranchA"]; [Num 7]])
    "BranchName" = Raise (TypeError "'<' not supported between instances") /\
  sidebar (Inputs.untouched Inputs.two_branches)
    (mkDataFrame [Str "BranchName"] [[Str "BranchA"]; [Num 7]])
    = ([SidebarHeader "Filter Controls"],
       Uncaught (TypeError "'<' not supported between instances")).
Proof.
  pose proof (option_lists_need_values_of_one_kind
                (mkDataFrame [Str "BranchName"] [[Str "BranchA"]; [Num 7]])
                "BranchName" [Str "BranchA"; Num 7] eq_refl) as [Hiff Hmixed].
  split; [exact Hiff|].
  assert (Hne : kind_of (Str "BranchA") <> kind_of (Num 7)) by discriminate.
  destruct (Hmixed (Str "BranchA") (Num 7) (or_introl eq_refl)
              (or_intror (or_introl eq_refl)) eq_refl eq_refl Hne) as [E S].
  split; [exact E | exact (S eq_refl (Inputs.untouched Inputs.two_branches))].
Defined.

(* ===================================================================== *)
(** * More of the script: what the sidebar hands to the dashboard *)
(* ===================================================================== *)

Lemma then_Next_inv {A B : Type} (c : st A) (k : A -> st B)
    (out : list element) (b : B) :
  then_ c k = (out, Next b) ->
  exists o a o', c = (o, Next a) /\ k a = (o', Next b).
Proof.
  destruct c as [o [a| |e]]; simpl; try discriminate.
  destruct (k a) as [o' f] eqn:E; intros [= _ ->]; eauto.
Qed.

Lemma then_pure_Next {A B : Type} (c : st A) (k : A -> st B)
    (o out : list element) (a : A) (b : B) :
  c = (o, Next a) -> then_ c k = (out, Next b) -> exists o', k a = (o', Next b).
Proof.
  intros -> H; apply then_Next_inv in H as (o1 & a1 & o' & [= _ <-] & H); eauto.
Qed.

Lemma picked_incl (options default : list cell) (picks : option (list nat)) :
  incl default options -> incl (picked options default picks) options.
Proof.
  intros Hd; destruct picks as [ps|]; simpl; [|exact Hd].
  intros c Hc; apply in_flat_map in Hc as (i & _ & Hi).
  destruct (nth_error options i) as [c'|] eqn:E; [|destruct Hi].
  destruct Hi as [<-|[]]; now apply nth_error_In in E.
Qed.

(** The run of the sidebar, statement by statement, when it reaches the
    dashboard. *)
Lemma sidebar_Next (ui : widgets) (df : DataFrame) (out : list element)
    (f : filtered) :
  sidebar ui df = (out, Next f) ->
  exists bo dfb co st acf o qt,
    branch_options df = Ok bo /\
    df_branch_filtered df (selected_branch_of ui bo) = Ok dfb /\
    client_options dfb = Ok co /\
    filtered_df_dashboard dfb
      (picked co (if all_clients_selected ui then co else []) (client_picks ui))
      (selected_month_of ui) st = Ok (dashboard_view f) /\
    all_clients_full df = Ok acf /\
    quick_client f = chosen_of (Str "All Clients") acf (quick_client_pick ui) /\
    selected_quick_tbm_of ui df = (o, Next qt) /\
    filtered_df_quick df (quick_client f) qt (selected_branch_of ui bo)
      (selected_month_of ui) = Ok (quick_view f).
Proof.
  intros H; unfold sidebar in H.
  apply (then_pure_Next _ _ _ _ _ _ eq_refl) in H as [o1 H].
  apply then_eval_Next in H as (bo & Ebo & H).
  apply (then_pure_Next _ _ _ _ _ _ eq_refl) in H as [o2 H].
  apply (then_pure_Next _ _ _ _ _ _ eq_refl) in H as [o3 H].
  apply then_eval_Next in H as (dfb & Eb & H).
  apply (then_pure_Next _ _ _ _ _ _ eq_refl) in H as [o4 H].
  apply (then_pure_Next _ _ _ _ _ _ eq_refl) in H as [o5 H].
  apply then_eval_Next in H as (co & Eco & H).
  apply (then_pure_Next _ _ _ _ _ _ eq_refl) in H as [o6 H].
  apply (then_pure_Next _ _ _ _ _ _ eq_refl) in H as [o7 H].
  apply then_Next_inv in H as (o8 & st & o9 & _ & H).
  apply then_eval_Next in H as (fd & Efd & H).
  apply (then_pure_Next _ _ _ _ _ _ eq_refl) in H as [o10 H].
  apply then_eval_Next in H as (acf & Eacf & H).
  apply (then_pure_Next _ _ _ _ _ _ eq_refl) in H as [o11 H].
  apply then_Next_inv in H as (o12 & qt & o13 & Eqt & H).
  apply then_eval_Next in H as (fq & Efq & H).
  injection H as _ <-.
  exists bo, dfb, co, st, acf, o12, qt; cbn [dashboard_view quick_view quick_client].
  repeat split; assumption.
Qed.

(** X12.  The Client and TBM filters of the dashboard do not reach the
    page: two runs of the sidebar on the same table whose widgets differ
    only in these two filters (their "select all" boxes and their picks)
    hand the same quick view and the same quick client to the dashboard,
    which therefore draws the same title, heading, KPIs, charts and
    tables. *)
Theorem quick_view_ignores_the_client_and_tbm_filters :
  forall (ui ui' : widgets) (df : DataFrame) (out out' : list element)
         (f f' : filtered),
    same_but_client_and_tbm_filters ui ui' ->
    sidebar ui df = (out, Next f) ->
    sidebar ui' df = (out', Next f') ->
    quick_view f = quick_view f' /\
    quick_client f = quick_client f' /\
    dashboard df (quick_view f) (quick_client f)
      = dashboard df (quick_view f') (quick_client f').
Proof.
  intros ui ui' df out out' f f' (_ & Eab & Ebp & Eam & Emp & Eqc & Eqt) H H'.
  apply sidebar_Next in H
    as (bo & dfb & co & st & acf & o & qt & Ebo & _ & _ & _ & Eacf & Hqc & Hqt & Hq).
  apply sidebar_Next in H'
    as (bo' & dfb' & co' & st' & acf' & o' & qt' & Ebo' & _ & _ & _ & Eacf' & Hqc'
        & Hqt' & Hq').
  rewrite Ebo in Ebo'; injection Ebo' as <-.
  rewrite Eacf in Eacf'; injection Eacf' as <-.
  assert (Eq1 : quick_client f = quick_client f') by (rewrite Hqc, Hqc'; now rewrite Eqc).
  assert (Eq2 : qt = qt').
  { unfold selected_quick_tbm_of in Hqt, Hqt'; rewrite <- Eqt in Hqt'.
    rewrite Hqt in Hqt'; now injection Hqt'. }
  assert (Eq3 : quick_view f = quick_view f').
  { unfold selected_branch_of, selected_month_of in Hq, Hq'.
    rewrite <- Eab, <- Ebp, <- Eam, <- Emp, <- Eq1, <- Eq2 in Hq'.
    rewrite Hq in Hq'; now injection Hq'. }
  repeat split; auto.
  now rewrite Eq1, Eq3.
Qed.

Lemma quick_view_ignores_the_client_and_tbm_filters_witness :
  exists out out' f f',
    sidebar (Inputs.untouched Inputs.two_branches) Inputs.two_branches_df
      = (out, Next f) /\
    sidebar (mkWidgets (Some Inputs.two_branches) true None true None
               false (Some [1%nat]) false (Some []) None None)
      Inputs.two_branches_df = (out', Next f') /\
    quick_view f = quick_view f' /\
    quick_client f = quick_client f' /\
    dashboard Inputs.two_branches_df (quick_view f) (quick_client f)
      = dashboard Inputs.two_branches_df (quick_view f') (quick_client f').
Proof.
  eexists; eexists; eexists; eexists.
  split; [vm_compute; reflexivity|].
  split; [vm_compute; reflexivity|].
  eapply (quick_view_ignores_the_client_and_tbm_filters
            (Inputs.untouched Inputs.two_branches)
            (mkWidgets (Some Inputs.two_branches) true None true None
               false (Some [1%nat]) false (Some []) None None)
            Inputs.two_branches_df).
  - repeat split.
  - vm_compute; reflexivity.
  - vm_compute; reflexivity.
Defined.

Lemma existsb_incl (p : cell -> bool) (l l' : list cell) :
  incl l l' -> existsb p l = true -> existsb p l' = true.
Proof.
  intros Hi H; apply existsb_exists in H as (x & Hx & Px).
  apply existsb_exists; exists x; auto.
Qed.

Lemma default_incl (all : bool) (options : list cell) :
  incl (if all then options else []) options.
Proof. destruct all; [apply incl_refl | intros x []]. Qed.

(** X13.  A multiselect returns options only, so every row of the quick
    view that the sidebar hands to the dashboard is a row of the table
    whose branch is one of the branch options (hence not missing) and
    whose month is one of [month_order]; the view has the columns of the
    table. *)
Theorem quick_view_rows_have_an_offered_branch_and_month :
  forall (ui : widgets) (df : DataFrame) (out : list element) (f : filtered),
    sidebar ui df = (out, Next f) ->
    exists branch_opts,
      branch_options df = Ok branch_opts /\
      columns (quick_view f) = columns df /\
      forall r,
        In r (rows (quick_view f)) ->
        In r (rows df) /\
        selected "BranchName" branch_opts (columns df) r = true /\
        notna (at_label "BranchName" (columns df) r) = true /\
        selected "Month" month_order (columns df) r = true.
Proof.
  intros ui df out f H.
  apply sidebar_Next in H
    as (bo & dfb & co & st & acf & o & qt & Ebo & _ & _ & _ & _ & _ & _ & Hq).
  exists bo; split; [exact Ebo|].
  destruct (options_of_spec _ _ _ Ebo) as (b0 & _ & Hopt & _).
  apply filtered_df_quick_Ok in Hq as (q & b & m & Hc & Hi & Gb & Gm & ->).
  split; [exact Hc|].
  intros r Hr; cbn [rows loc] in Hr.
  pose proof (getitem_Ok_usable _ _ _ Gb) as Ub.
  pose proof (getitem_Ok_usable _ _ _ Gm) as Um.
  rewrite (usable_getitem _ _ Ub) in Gb; injection Gb as <-.
  rewrite (usable_getitem _ _ Um) in Gm; injection Gm as <-.
  rewrite !isin_column, mask_and_map, <- filter_select, Hc in Hr.
  apply filter_In in Hr as [Hr Hp]; apply andb_true_iff in Hp as [Pb Pm].
  assert (Sb : selected "BranchName" bo (columns df) r = true).
  { unfold selected in *.
    apply (existsb_incl _ (selected_branch_of ui bo)); [|exact Pb].
    apply picked_incl, default_incl. }
  split; [now apply Hi|]. split; [exact Sb|]. split.
  - unfold selected in Sb; apply existsb_exists in Sb as (x & Hx & E).
    destruct (at_label "BranchName" (columns df) r); auto.
    now rewrite (cell_eqb_NA x (proj2 (Hopt x Hx))) in E.
  - unfold selected in *.
    apply (existsb_incl _ (selected_month_of ui)); [|exact Pm].
    apply picked_incl, default_incl.
Qed.

Lemma quick_view_rows_have_an_offered_branch_and_month_witness :
  exists branch_opts,
    branch_options Inputs.two_branches_df = Ok branch_opts /\
    columns (mkDataFrame (columns Inputs.two_branches_df)
               [[Num 45000; Num 100; Str "BranchA"; Str "ClientX"; Str "T1";
                 Timestamp 1678838400000000000; Num 2023; Str "March"]])
      = columns Inputs.two_branches_df /\
    forall r,
      In r [[Num 45000; Num 100; Str "BranchA"; Str "ClientX"; Str "T1";
             Timestamp 1678838400000000000; Num 2023; Str "March"]] ->
      In r (rows Inputs.two_branches_df) /\
      selected "BranchName" branch_opts (columns Inputs.two_branches_df) r = true /\
      notna (at_label "BranchName" (columns Inputs.two_branches_df) r) = true /\
      selected "Month" month_order (columns Inputs.two_branches_df) r = true.
Proof.
  exact (quick_view_rows_have_an_offered_branch_and_month
           Inputs.first_branch_picked Inputs.two_branches_df
           (fst (sidebar Inputs.first_branch_picked Inputs.two_branches_df))
           (mkFiltered
              (mkDataFrame (columns Inputs.two_branches_df)
                 [[Num 45000; Num 100; Str "BranchA"; Str "ClientX"; Str "T1";
                   Timestamp 1678838400000000000; Num 2023; Str "March"]])
              (mkDataFrame (columns Inputs.two_branches_df)
                 [[Num 45000; Num 100; Str "BranchA"; Str "ClientX"; Str "T1";
                   Timestamp 1678838400000000000; Num 2023; Str "March"]])
              (Str "All Clients"))
           eq_refl).
Defined.
